(** * BookBazaar marketplace: storage layer and REST handlers

    A shallow embedding of [server/storage.ts] (the in-memory [MemStorage]
    and the thread query of [DatabaseStorage]) and of the handlers of
    [server/routes.ts], followed by the properties of the checkout sequence,
    the cart, the access gate and the message thread.

    Conventions.
    - A TypeScript [number] that comes from a sequential counter or from a
      verified token is a [Z] (counters stay below 2^53, where the
      increment is exact); one that comes from [parseInt] on request data
      is a [number], which adds [NaN].
    - A [Date] is its [getTime()] value, a [Z]; the clock reading used by
      [new Date()] is an explicit argument [now] of the operation.
    - A [decimal] column is a [string], as drizzle types it.
    - A JavaScript [Map] is an association list in insertion order.
    - Storage methods are computations in a state monad over [Store]. *)

From Stdlib Require Import ZArith List String Ascii Bool Lia.
From Stdlib Require Import Sorted Permutation.
Import ListNotations.

Local Open Scope Z_scope.
Local Open Scope list_scope.

Set Implicit Arguments.
Set Warnings "-register-all".

(** ** JavaScript values and built-ins used by the server *)

Module Js.

(** [number], for values produced by [parseInt]. *)
Inductive number : Type :=
| Num (z : Z)
| NaN.

(** [a === b] on numbers: [NaN] is not equal to itself. *)
Definition strict_eq (a b : number) : bool :=
  match a, b with
  | Num x, Num y => x =? y
  | _, _ => false
  end.

(** A parsed JSON value of a request body ([JsUndefined] for an absent
    key).  A number is carried by the text [Number.prototype.toString]
    renders for it. *)
Inductive JsValue : Type :=
| JsUndefined
| JsNull
| JsBoolean (b : bool)
| JsNumber (repr : string)
| JsString (s : string)
| JsArray (items : list JsValue)
| JsObject (fields : list (string * JsValue)).

Definition has_own (key : string) (fields : list (string * JsValue)) : bool :=
  existsb (fun kv => String.eqb (fst kv) key) fields.

(** [Array.prototype.join(",")] over already rendered elements; [None]
    when rendering an element threw. *)
Fixpoint join (parts : list (option string)) : option string :=
  match parts with
  | [] => Some EmptyString
  | [p] => p
  | p :: rest =>
      match p, join rest with
      | Some a, Some b => Some (a ++ "," ++ b)%string
      | _, _ => None
      end
  end.

(** [ToString(v)] as [join] applies it to an element: [undefined] and
    [null] render empty; an object whose own [toString] key shadows the
    inherited method cannot be converted (a JSON value is never
    callable) and throws. *)
Fixpoint element_toString (v : JsValue) : option string :=
  match v with
  | JsUndefined | JsNull => Some EmptyString
  | JsBoolean b => Some (if b then "true" else "false")%string
  | JsNumber repr => Some repr
  | JsString s => Some s
  | JsArray items => join (map element_toString items)
  | JsObject fields =>
      if has_own "toString" fields then None else Some "[object Object]"%string
  end.

(** [v.toString()]; [None] is a thrown [TypeError]. *)
Definition toString (v : JsValue) : option string :=
  match v with
  | JsUndefined | JsNull => None
  | _ => element_toString v
  end.

(** [String.prototype.toLowerCase], on the ASCII letters. *)
Definition lower_ascii (c : ascii) : ascii :=
  let n := nat_of_ascii c in
  if (Nat.leb 65 n && Nat.leb n 90)%bool then ascii_of_nat (n + 32) else c.

Fixpoint toLowerCase (s : string) : string :=
  match s with
  | EmptyString => EmptyString
  | String c s' => String (lower_ascii c) (toLowerCase s')
  end.

(** [s.includes(sub)]. *)
Fixpoint includes (s sub : string) : bool :=
  if String.prefix sub s then true
  else match s with
       | EmptyString => false
       | String _ s' => includes s' sub
       end.

(** [s.split(sep)] for a one-character separator. *)
Fixpoint split (sep : ascii) (s : string) : list string :=
  match s with
  | EmptyString => [EmptyString]
  | String c s' =>
      if Ascii.eqb c sep then EmptyString :: split sep s'
      else match split sep s' with
           | [] => [String c EmptyString]
           | w :: ws => String c w :: ws
           end
  end.

(** Truthiness of a [string | undefined]. *)
Definition truthy (s : option string) : bool :=
  match s with
  | Some (String _ _) => true
  | _ => false
  end.

(** [Map<number, V>] keyed by counter values, in insertion order. *)
Section Map.
Variable V : Type.

Definition JsMap : Type := list (Z * V).

Fixpoint Map_get (k : Z) (m : JsMap) : option V :=
  match m with
  | [] => None
  | (k', v) :: m' => if k' =? k then Some v else Map_get k m'
  end.

(** [set] keeps the position of an existing key and appends a new one. *)
Fixpoint Map_set (k : Z) (v : V) (m : JsMap) : JsMap :=
  match m with
  | [] => [(k, v)]
  | (k', v') :: m' =>
      if k' =? k then (k, v) :: m' else (k', v') :: Map_set k v m'
  end.

Definition Map_has (k : Z) (m : JsMap) : bool :=
  existsb (fun kv => fst kv =? k) m.

Definition Map_remove (k : Z) (m : JsMap) : JsMap :=
  filter (fun kv => negb (fst kv =? k)) m.

(** [delete] returns whether the key was present. *)
Definition Map_delete (k : Z) (m : JsMap) : bool * JsMap :=
  (Map_has k m, Map_remove k m).

Definition Map_values (m : JsMap) : list V := map snd m.

Definition Map_keys (m : JsMap) : list Z := map fst m.

(** Lookup by a parsed number: no key is [NaN]. *)
Definition Map_get_number (k : number) (m : JsMap) : option V :=
  match k with
  | Num z => Map_get z m
  | NaN => None
  end.

Definition Map_has_number (k : number) (m : JsMap) : bool :=
  match k with
  | Num z => Map_has z m
  | NaN => false
  end.

Definition Map_remove_number (k : number) (m : JsMap) : JsMap :=
  match k with
  | Num z => Map_remove z m
  | NaN => m
  end.
End Map.

(** [Array.prototype.sort(cmp)]: a stable sort; [cmp a b <= 0] keeps [a]
    before [b]. *)
Section Sort.
Variable A : Type.
Variable cmp : A -> A -> Z.

Fixpoint sort_insert (x : A) (l : list A) : list A :=
  match l with
  | [] => [x]
  | y :: l' => if cmp x y <=? 0 then x :: y :: l' else y :: sort_insert x l'
  end.

Fixpoint Array_sort (l : list A) : list A :=
  match l with
  | [] => []
  | x :: l' => sort_insert x (Array_sort l')
  end.
End Sort.

End Js.

Import Js.

(** ** Records of [shared/schema.ts] *)

Module Schema.

Record User : Type := mkUser {
  u_id : Z;
  u_email : string;
  u_password : string;
  u_name : string;
  u_role : string;
  u_createdAt : Z
}.

Record InsertUser : Type := mkInsertUser {
  iu_email : string;
  iu_password : string;
  iu_name : string;
  iu_role : string
}.

(** [isAvailable] is a nullable boolean ([None] is [null]); [imageUrl] a
    nullable text. *)
Record Book : Type := mkBook {
  b_id : Z;
  b_title : string;
  b_author : string;
  b_description : string;
  b_price : string;
  b_condition : string;
  b_category : string;
  b_imageUrl : option string;
  b_sellerId : Z;
  b_isAvailable : option bool;
  b_createdAt : Z
}.

Record InsertBook : Type := mkInsertBook {
  ib_title : string;
  ib_author : string;
  ib_description : string;
  ib_price : string;
  ib_condition : string;
  ib_category : string;
  ib_imageUrl : option string;
  ib_isAvailable : option bool
}.

(** [Partial<InsertBook>]: [None] is an absent key. *)
Record PartialInsertBook : Type := mkPartialInsertBook {
  pb_title : option string;
  pb_author : option string;
  pb_description : option string;
  pb_price : option string;
  pb_condition : option string;
  pb_category : option string;
  pb_imageUrl : option (option string);
  pb_isAvailable : option (option bool)
}.

Record Order : Type := mkOrder {
  o_id : Z;
  o_buyerId : Z;
  o_total : string;
  o_status : string;
  o_createdAt : Z
}.

Record InsertOrder : Type := mkInsertOrder {
  io_buyerId : Z;
  io_total : string;
  io_status : string
}.

Record OrderItem : Type := mkOrderItem {
  oi_id : Z;
  oi_orderId : Z;
  oi_bookId : number;
  oi_price : string
}.

Record InsertOrderItem : Type := mkInsertOrderItem {
  ioi_orderId : Z;
  ioi_bookId : number;
  ioi_price : string
}.

Record Message : Type := mkMessage {
  m_id : Z;
  m_senderId : Z;
  m_receiverId : Z;
  m_bookId : option Z;
  m_content : string;
  m_createdAt : Z
}.

Record InsertMessage : Type := mkInsertMessage {
  im_senderId : Z;
  im_receiverId : Z;
  im_bookId : option Z;
  im_content : string
}.

Record CartItem : Type := mkCartItem {
  ci_id : Z;
  ci_buyerId : Z;
  ci_bookId : number;
  ci_addedAt : Z
}.

Record InsertCartItem : Type := mkInsertCartItem {
  ici_buyerId : Z;
  ici_bookId : number
}.

(** The object spread [{ ...book, ...updateData }]. *)
Definition override (A : Type) (old : A) (upd : option A) : A :=
  match upd with
  | Some v => v
  | None => old
  end.

Definition merge_book (book : Book) (updateData : PartialInsertBook) : Book :=
  {| b_id := b_id book;
     b_title := override (b_title book) (pb_title updateData);
     b_author := override (b_author book) (pb_author updateData);
     b_description := override (b_description book) (pb_description updateData);
     b_price := override (b_price book) (pb_price updateData);
     b_condition := override (b_condition book) (pb_condition updateData);
     b_category := override (b_category book) (pb_category updateData);
     b_imageUrl := override (b_imageUrl book) (pb_imageUrl updateData);
     b_sellerId := b_sellerId book;
     b_isAvailable := override (b_isAvailable book) (pb_isAvailable updateData);
     b_createdAt := b_createdAt book |}.

Definition no_update : PartialInsertBook :=
  {| pb_title := None; pb_author := None; pb_description := None;
     pb_price := None; pb_condition := None; pb_category := None;
     pb_imageUrl := None; pb_isAvailable := None |}.

(** The literal [{ isAvailable: false }]. *)
Definition isAvailable_false : PartialInsertBook :=
  {| pb_title := None; pb_author := None; pb_description := None;
     pb_price := None; pb_condition := None; pb_category := None;
     pb_imageUrl := None; pb_isAvailable := Some (Some false) |}.

End Schema.

Import Schema.

(** ** [MemStorage] of [server/storage.ts] *)

Module MemStorage.

Record Store : Type := mkStore {
  users : JsMap User;
  books : JsMap Book;
  orders : JsMap Order;
  orderItems : JsMap OrderItem;
  messages : JsMap Message;
  cartItems : JsMap CartItem;
  currentUserId : Z;
  currentBookId : Z;
  currentOrderId : Z;
  currentOrderItemId : Z;
  currentMessageId : Z;
  currentCartItemId : Z
}.

(** [new MemStorage()]. *)
Definition empty : Store :=
  {| users := []; books := []; orders := []; orderItems := [];
     messages := []; cartItems := [];
     currentUserId := 1; currentBookId := 1; currentOrderId := 1;
     currentOrderItemId := 1; currentMessageId := 1; currentCartItemId := 1 |}.

(** Methods read and write the fields of [this]. *)
Definition M (A : Type) : Type := Store -> A * Store.

Definition ret (A : Type) (a : A) : M A := fun s => (a, s).

Definition bind (A B : Type) (c : M A) (k : A -> M B) : M B :=
  fun s => let (a, s') := c s in k a s'.

Definition gets (A : Type) (f : Store -> A) : M A := fun s => (f s, s).

Definition modify (f : Store -> Store) : M unit := fun s => (tt, f s).

Declare Scope storage_scope.
Delimit Scope storage_scope with storage.
Notation "x <- c ;; k" := (bind c (fun x => k))
  (at level 61, c at next level, right associativity) : storage_scope.
Notation "c ;;; k" := (bind c (fun _ => k))
  (at level 61, right associativity) : storage_scope.
Local Open Scope storage_scope.

(** [for (const x of xs) { await body(x) }] and [xs.forEach(body)]. *)
Fixpoint for_each (A : Type) (body : A -> M unit) (xs : list A) : M unit :=
  match xs with
  | [] => ret tt
  | x :: xs' => body x ;;; for_each body xs'
  end.

Definition set_users (v : JsMap User) (n : Z) (s : Store) : Store :=
  {| users := v; books := books s; orders := orders s;
     orderItems := orderItems s; messages := messages s;
     cartItems := cartItems s;
     currentUserId := n; currentBookId := currentBookId s;
     currentOrderId := currentOrderId s;
     currentOrderItemId := currentOrderItemId s;
     currentMessageId := currentMessageId s;
     currentCartItemId := currentCartItemId s |}.

Definition set_books (v : JsMap Book) (n : Z) (s : Store) : Store :=
  {| users := users s; books := v; orders := orders s;
     orderItems := orderItems s; messages := messages s;
     cartItems := cartItems s;
     currentUserId := currentUserId s; currentBookId := n;
     currentOrderId := currentOrderId s;
     currentOrderItemId := currentOrderItemId s;
     currentMessageId := currentMessageId s;
     currentCartItemId := currentCartItemId s |}.

Definition set_orders (v : JsMap Order) (n : Z) (s : Store) : Store :=
  {| users := users s; books := books s; orders := v;
     orderItems := orderItems s; messages := messages s;
     cartItems := cartItems s;
     currentUserId := currentUserId s; currentBookId := currentBookId s;
     currentOrderId := n;
     currentOrderItemId := currentOrderItemId s;
     currentMessageId := currentMessageId s;
     currentCartItemId := currentCartItemId s |}.

Definition set_orderItems (v : JsMap OrderItem) (n : Z) (s : Store) : Store :=
  {| users := users s; books := books s; orders := orders s;
     orderItems := v; messages := messages s;
     cartItems := cartItems s;
     currentUserId := currentUserId s; currentBookId := currentBookId s;
     currentOrderId := currentOrderId s;
     currentOrderItemId := n;
     currentMessageId := currentMessageId s;
     currentCartItemId := currentCartItemId s |}.

Definition set_messages (v : JsMap Message) (n : Z) (s : Store) : Store :=
  {| users := users s; books := books s; orders := orders s;
     orderItems := orderItems s; messages := v;
     cartItems := cartItems s;
     currentUserId := currentUserId s; currentBookId := currentBookId s;
     currentOrderId := currentOrderId s;
     currentOrderItemId := currentOrderItemId s;
     currentMessageId := n;
     currentCartItemId := currentCartItemId s |}.

Definition set_cartItems (v : JsMap CartItem) (n : Z) (s : Store) : Store :=
  {| users := users s; books := books s; orders := orders s;
     orderItems := orderItems s; messages := messages s;
     cartItems := v;
     currentUserId := currentUserId s; currentBookId := currentBookId s;
     currentOrderId := currentOrderId s;
     currentOrderItemId := currentOrderItemId s;
     currentMessageId := currentMessageId s;
     currentCartItemId := n |}.

(** *** User operations *)

Definition getUser (id : Z) : M (option User) :=
  gets (fun s => Map_get id (users s)).

Definition getUserByEmail (email : string) : M (option User) :=
  gets (fun s =>
    find (fun user => String.eqb (u_email user) email) (Map_values (users s))).

Definition createUser (insertUser : InsertUser) (now : Z) : M User :=
  id <- gets currentUserId ;;
  let user :=
    {| u_id := id; u_email := iu_email insertUser;
       u_password := iu_password insertUser; u_name := iu_name insertUser;
       u_role := iu_role insertUser; u_createdAt := now |} in
  modify (fun s => set_users (Map_set id user (users s)) (id + 1) s) ;;;
  ret user.

(** *** Book operations *)

Record Filters : Type := mkFilters {
  f_category : option string;
  f_condition : option string;
  f_search : option string
}.

(** [book.isAvailable] used as a condition. *)
Definition available (book : Book) : bool :=
  match b_isAvailable book with
  | Some true => true
  | _ => false
  end.

(** [filters?.field]. *)
Definition optional (filters : option Filters)
  (field : Filters -> option string) : option string :=
  match filters with
  | Some f => field f
  | None => None
  end.

Definition matches_search (searchTerm : string) (book : Book) : bool :=
  includes (toLowerCase (b_title book)) searchTerm
  || includes (toLowerCase (b_author book)) searchTerm
  || includes (toLowerCase (b_description book)) searchTerm.

Definition getBooks (filters : option Filters) : M (list Book) :=
  gets (fun s =>
    let books0 := filter available (Map_values (books s)) in
    let books1 :=
      match optional filters f_category with
      | Some (String _ _ as category) =>
          filter (fun book => String.eqb (b_category book) category) books0
      | _ => books0
      end in
    let books2 :=
      match optional filters f_condition with
      | Some (String _ _ as condition) =>
          filter (fun book => String.eqb (b_condition book) condition) books1
      | _ => books1
      end in
    match optional filters f_search with
    | Some (String _ _ as search) =>
        filter (matches_search (toLowerCase search)) books2
    | _ => books2
    end).

Definition getBook (id : number) : M (option Book) :=
  gets (fun s => Map_get_number id (books s)).

Definition getBooksBySeller (sellerId : Z) : M (list Book) :=
  gets (fun s =>
    filter (fun book => b_sellerId book =? sellerId) (Map_values (books s))).

Definition createBook (insertBook : InsertBook) (sellerId : Z) (now : Z)
  : M Book :=
  id <- gets currentBookId ;;
  let book :=
    {| b_id := id; b_title := ib_title insertBook;
       b_author := ib_author insertBook;
       b_description := ib_description insertBook;
       b_price := ib_price insertBook;
       b_condition := ib_condition insertBook;
       b_category := ib_category insertBook;
       b_imageUrl := ib_imageUrl insertBook;
       b_sellerId := sellerId; b_isAvailable := Some true;
       b_createdAt := now |} in
  modify (fun s => set_books (Map_set id book (books s)) (id + 1) s) ;;;
  ret book.

Definition updateBook (id : number) (updateData : PartialInsertBook)
  : M (option Book) :=
  found <- gets (fun s => Map_get_number id (books s)) ;;
  match found, id with
  | Some book, Num key =>
      let updatedBook := merge_book book updateData in
      modify (fun s =>
        set_books (Map_set key updatedBook (books s)) (currentBookId s) s) ;;;
      ret (Some updatedBook)
  | _, _ => ret None
  end.

Definition deleteBook (id : number) : M bool :=
  fun s =>
    (Map_has_number id (books s),
     set_books (Map_remove_number id (books s)) (currentBookId s) s).

(** *** Order operations *)

Definition getOrdersByBuyer (buyerId : Z) : M (list Order) :=
  gets (fun s =>
    filter (fun order => o_buyerId order =? buyerId) (Map_values (orders s))).

Definition createOrder (insertOrder : InsertOrder) (now : Z) : M Order :=
  id <- gets currentOrderId ;;
  let order :=
    {| o_id := id; o_buyerId := io_buyerId insertOrder;
       o_total := io_total insertOrder; o_status := io_status insertOrder;
       o_createdAt := now |} in
  modify (fun s => set_orders (Map_set id order (orders s)) (id + 1) s) ;;;
  ret order.

Definition getOrderItems (orderId : Z) : M (list OrderItem) :=
  gets (fun s =>
    filter (fun item => oi_orderId item =? orderId)
           (Map_values (orderItems s))).

Definition createOrderItem (insertOrderItem : InsertOrderItem) : M OrderItem :=
  id <- gets currentOrderItemId ;;
  let orderItem :=
    {| oi_id := id; oi_orderId := ioi_orderId insertOrderItem;
       oi_bookId := ioi_bookId insertOrderItem;
       oi_price := ioi_price insertOrderItem |} in
  modify (fun s =>
    set_orderItems (Map_set id orderItem (orderItems s)) (id + 1) s) ;;;
  ret orderItem.

(** *** Message operations *)

Definition in_thread (user1Id user2Id : number) (message : Message) : bool :=
  (strict_eq (Num (m_senderId message)) user1Id
   && strict_eq (Num (m_receiverId message)) user2Id)
  || (strict_eq (Num (m_senderId message)) user2Id
      && strict_eq (Num (m_receiverId message)) user1Id).

Definition by_createdAt (a b : Message) : Z := m_createdAt a - m_createdAt b.

Definition getMessagesBetweenUsers (user1Id user2Id : number)
  : M (list Message) :=
  gets (fun s =>
    Array_sort by_createdAt
      (filter (in_thread user1Id user2Id) (Map_values (messages s)))).

Definition createMessage (insertMessage : InsertMessage) (now : Z)
  : M Message :=
  id <- gets currentMessageId ;;
  let message :=
    {| m_id := id; m_senderId := im_senderId insertMessage;
       m_receiverId := im_receiverId insertMessage;
       m_bookId := im_bookId insertMessage;
       m_content := im_content insertMessage; m_createdAt := now |} in
  modify (fun s =>
    set_messages (Map_set id message (messages s)) (id + 1) s) ;;;
  ret message.

(** *** Cart operations *)

Definition getCartItems (buyerId : Z) : M (list CartItem) :=
  gets (fun s =>
    filter (fun item => ci_buyerId item =? buyerId)
           (Map_values (cartItems s))).

Definition addToCart (insertCartItem : InsertCartItem) (now : Z)
  : M CartItem :=
  id <- gets currentCartItemId ;;
  let cartItem :=
    {| ci_id := id; ci_buyerId := ici_buyerId insertCartItem;
       ci_bookId := ici_bookId insertCartItem; ci_addedAt := now |} in
  modify (fun s =>
    set_cartItems (Map_set id cartItem (cartItems s)) (id + 1) s) ;;;
  ret cartItem.

Definition cart_delete (id : Z) : M bool :=
  fun s =>
    (Map_has id (cartItems s),
     set_cartItems (Map_remove id (cartItems s)) (currentCartItemId s) s).

Definition removeFromCart (buyerId : Z) (bookId : number) : M bool :=
  found <- gets (fun s =>
    find (fun item =>
            (ci_buyerId item =? buyerId) && strict_eq (ci_bookId item) bookId)
         (Map_values (cartItems s))) ;;
  match found with
  | Some item => cart_delete (ci_id item)
  | None => ret false
  end.

Definition clearCart (buyerId : Z) : M bool :=
  items <- gets (fun s =>
    filter (fun item => ci_buyerId item =? buyerId)
           (Map_values (cartItems s))) ;;
  for_each (fun item => cart_delete (ci_id item) ;;; ret tt) items ;;;
  ret true.

End MemStorage.

(** ** The thread query of [DatabaseStorage] *)

Module DatabaseStorage.

(** The rows [db.select().from(messages)] yields. *)
Definition MessagesTable : Type := list Message.

Definition in_thread (user1Id user2Id : number) (message : Message) : bool :=
  (strict_eq (Num (m_senderId message)) user1Id
   && strict_eq (Num (m_receiverId message)) user2Id)
  || (strict_eq (Num (m_senderId message)) user2Id
      && strict_eq (Num (m_receiverId message)) user1Id).

Definition by_createdAt (a b : Message) : Z := m_createdAt a - m_createdAt b.

Definition getMessagesBetweenUsers (user1Id user2Id : number)
  (db : MessagesTable) : list Message :=
  let result := db in
  Array_sort by_createdAt (filter (in_thread user1Id user2Id) result).

End DatabaseStorage.

(** ** Handlers of [server/routes.ts] *)

Module Routes.

Import MemStorage.
Local Open Scope storage_scope.

(** The claims signed into a token: [{ userId, email, role }]. *)
Record JwtPayload : Type := mkJwtPayload {
  userId : Z;
  email : string;
  role : string
}.

Inductive Body : Type :=
| NoBody
| JsonMessage (message : string)
| JsonFailure (message : string)
| JsonBook (book : Book)
| JsonBooks (books : list Book)
| JsonCartItem (cartItem : CartItem)
| JsonCart (cartWithBooks : list (CartItem * option Book))
| JsonOrder (order : Order)
| JsonThread (messages : list Message)
| JsonSent (message : Message).

Record Response : Type := mkResponse {
  status : Z;
  body : Body
}.

(** [res.json(x)] without [res.status] answers 200. *)
Definition json (b : Body) : Response := {| status := 200; body := b |}.

(** [authHeader && authHeader.split(' ')[1]]. *)
Definition token_of (authHeader : option string) : option string :=
  match authHeader with
  | Some (String _ _ as header) => nth_error (split " "%char header) 1
  | falsy => falsy
  end.

Section Gate.

(** [jwt.verify(token, JWT_SECRET, ...)]: signature and expiry check of the
    library; [None] is the [err] case. *)
Variable jwt_verify : string -> option JwtPayload.

(** The middleware either answers itself or calls [next()] with
    [req.user] set. *)
Definition authenticateToken (authorization : option string)
  : Response + JwtPayload :=
  let authHeader := authorization in
  let token := token_of authHeader in
  match token with
  | Some (String _ _ as token) =>
      match jwt_verify token with
      | None => inl {| status := 403; body := JsonMessage "Invalid token" |}
      | Some user => inr user
      end
  | _ => inl {| status := 401; body := JsonMessage "Access token required" |}
  end.

(** [app.METHOD(path, authenticateToken, handler)]. *)
Definition authenticated (handler : JwtPayload -> M Response)
  (authorization : option string) : M Response :=
  match authenticateToken authorization with
  | inl rejected => ret rejected
  | inr user => handler user
  end.

End Gate.

(** *** Book routes.  An [id] argument is [parseInt(req.params.id)]. *)

Definition get_books (category condition search : option string)
  : M Response :=
  books <- getBooks (Some {| f_category := category;
                             f_condition := condition;
                             f_search := search |}) ;;
  ret (json (JsonBooks books)).

Definition get_book (id : number) : M Response :=
  book <- getBook id ;;
  match book with
  | None => ret {| status := 404; body := JsonMessage "Book not found" |}
  | Some book => ret (json (JsonBook book))
  end.

(** [parsed] is the outcome of [insertBookSchema.parse(req.body)], [None]
    when it throws. *)
Definition post_books (parsed : option InsertBook) (now : Z)
  (user : JwtPayload) : M Response :=
  if negb (String.eqb (role user) "seller") then
    ret {| status := 403; body := JsonMessage "Only sellers can create books" |}
  else
    match parsed with
    | None => ret {| status := 400; body := JsonFailure "Failed to create book" |}
    | Some bookData =>
        book <- createBook bookData (userId user) now ;;
        ret {| status := 201; body := JsonBook book |}
    end.

Definition put_book (id : number) (parsed : option PartialInsertBook)
  (user : JwtPayload) : M Response :=
  book <- getBook id ;;
  match book with
  | None => ret {| status := 404; body := JsonMessage "Book not found" |}
  | Some book =>
      if negb (b_sellerId book =? userId user) then
        ret {| status := 403;
               body := JsonMessage "You can only edit your own books" |}
      else
        match parsed with
        | None =>
            ret {| status := 400; body := JsonFailure "Failed to update book" |}
        | Some bookData =>
            updatedBook <- updateBook id bookData ;;
            match updatedBook with
            | Some updated => ret (json (JsonBook updated))
            | None => ret (json NoBody)
            end
        end
  end.

Definition delete_book (id : number) (user : JwtPayload) : M Response :=
  book <- getBook id ;;
  match book with
  | None => ret {| status := 404; body := JsonMessage "Book not found" |}
  | Some book =>
      if negb (b_sellerId book =? userId user) then
        ret {| status := 403;
               body := JsonMessage "You can only delete your own books" |}
      else
        deleteBook id ;;;
        ret {| status := 204; body := NoBody |}
  end.

Definition get_seller_books (user : JwtPayload) : M Response :=
  if negb (String.eqb (role user) "seller") then
    ret {| status := 403;
           body := JsonMessage "Only sellers can access this endpoint" |}
  else
    books <- getBooksBySeller (userId user) ;;
    ret (json (JsonBooks books)).

(** *** Cart routes.  [bookId] is the [parseInt] of the body or path value. *)

(** [Promise.all(xs.map(f))] over store reads. *)
Fixpoint map_all (A B : Type) (f : A -> M B) (xs : list A) : M (list B) :=
  match xs with
  | [] => ret []
  | x :: xs' => y <- f x ;; ys <- map_all f xs' ;; ret (y :: ys)
  end.

Definition get_cart (user : JwtPayload) : M Response :=
  cartItems <- getCartItems (userId user) ;;
  cartWithBooks <- map_all (fun item =>
                     book <- getBook (ci_bookId item) ;;
                     ret (item, book)) cartItems ;;
  ret (json (JsonCart cartWithBooks)).

Definition post_cart (bookId : number) (now : Z) (user : JwtPayload)
  : M Response :=
  cartItem <- addToCart {| ici_buyerId := userId user;
                           ici_bookId := bookId |} now ;;
  ret {| status := 201; body := JsonCartItem cartItem |}.

Definition delete_cart (bookId : number) (user : JwtPayload) : M Response :=
  removeFromCart (userId user) bookId ;;;
  ret {| status := 204; body := NoBody |}.

(** *** Order routes *)

(** The body of the loop over the cart in [POST /api/orders]. *)
Definition order_line (order : Order) (cartItem : CartItem) : M unit :=
  book <- getBook (ci_bookId cartItem) ;;
  match book with
  | Some book =>
      createOrderItem {| ioi_orderId := o_id order;
                         ioi_bookId := ci_bookId cartItem;
                         ioi_price := b_price book |} ;;;
      updateBook (ci_bookId cartItem) isAvailable_false ;;;
      ret tt
  | None => ret tt
  end.

(** [total] is [req.body.total], where [req.body] is the object the JSON
    body parser leaves ([JsUndefined] when the key is missing);
    [total.toString()] is evaluated after the empty-cart guard and before
    [createOrder] is called, and its [TypeError] is caught by the
    handler. *)
Definition post_orders (total : JsValue) (now : Z) (user : JwtPayload)
  : M Response :=
  cartItems <- getCartItems (userId user) ;;
  if Z.of_nat (List.length cartItems) =? 0 then
    ret {| status := 400; body := JsonMessage "Cart is empty" |}
  else
    match toString total with
    | None =>
        ret {| status := 400; body := JsonFailure "Failed to create order" |}
    | Some total_text =>
        order <- createOrder {| io_buyerId := userId user;
                                io_total := total_text;
                                io_status := "completed" |} now ;;
        for_each (order_line order) cartItems ;;;
        clearCart (userId user) ;;;
        ret {| status := 201; body := JsonOrder order |}
    end.

(** *** Message routes *)

Definition get_messages (otherUserId : number) (user : JwtPayload)
  : M Response :=
  messages <- getMessagesBetweenUsers (Num (userId user)) otherUserId ;;
  ret (json (JsonThread messages)).

(** [parsed] is the outcome of [insertMessageSchema.parse] on the body
    with [senderId] set to the caller. *)
Definition post_messages (parsed : option InsertMessage) (now : Z)
  (user : JwtPayload) : M Response :=
  match parsed with
  | None => ret {| status := 400; body := JsonFailure "Failed to send message" |}
  | Some data =>
      let messageData :=
        {| im_senderId := userId user; im_receiverId := im_receiverId data;
           im_bookId := im_bookId data; im_content := im_content data |} in
      message <- createMessage messageData now ;;
      ret {| status := 201; body := JsonSent message |}
  end.

(** *** Account routes *)

(** [{ user: { id, email, name, role }, token }] or a message. *)
Inductive AccountBody : Type :=
| JsonSession (id : Z) (mail name kind : string) (token : string)
| AccountMessage (message : string)
| AccountFailure (message : string).

Record AccountResponse : Type := mkAccountResponse {
  account_status : Z;
  account_body : AccountBody
}.

Section Accounts.

(** [bcrypt.hash(password, 10)] and [bcrypt.compare(password, hash)] of the
    library, the latter [None] when it rejects its arguments;
    [jwt.sign(payload, JWT_SECRET, { expiresIn: '24h' })]. *)
Variable bcrypt_hash : string -> string.
Variable bcrypt_compare : JsValue -> string -> option bool.
Variable jwt_sign : JwtPayload -> string.

(** [parsed] is the outcome of [insertUserSchema.parse(req.body)], [None]
    when it throws. *)
Definition post_register (parsed : option InsertUser) (now : Z)
  : M AccountResponse :=
  match parsed with
  | None =>
      ret {| account_status := 400;
             account_body := AccountFailure "Invalid input" |}
  | Some userData =>
      existingUser <- getUserByEmail (iu_email userData) ;;
      match existingUser with
      | Some _ =>
          ret {| account_status := 400;
                 account_body := AccountMessage "User already exists" |}
      | None =>
          let hashedPassword := bcrypt_hash (iu_password userData) in
          user <- createUser {| iu_email := iu_email userData;
                                iu_password := hashedPassword;
                                iu_name := iu_name userData;
                                iu_role := iu_role userData |} now ;;
          let token := jwt_sign {| userId := u_id user; email := u_email user;
                                   role := u_role user |} in
          ret {| account_status := 201;
                 account_body := JsonSession (u_id user) (u_email user)
                                   (u_name user) (u_role user) token |}
      end
  end.

(** [email] and [password] are [req.body.email] and [req.body.password],
    unvalidated; a value that is not a string is [===] to no stored
    email. *)
Definition post_login (email password : JsValue) : M AccountResponse :=
  user <- match email with
          | JsString text => getUserByEmail text
          | _ => ret None
          end ;;
  match user with
  | None =>
      ret {| account_status := 401;
             account_body := AccountMessage "Invalid credentials" |}
  | Some user =>
      match bcrypt_compare password (u_password user) with
      | None =>
          ret {| account_status := 400;
                 account_body := AccountFailure "Login failed" |}
      | Some false =>
          ret {| account_status := 401;
                 account_body := AccountMessage "Invalid credentials" |}
      | Some true =>
          let token := jwt_sign {| userId := u_id user; email := u_email user;
                                   role := u_role user |} in
          ret {| account_status := 200;
                 account_body := JsonSession (u_id user) (u_email user)
                                   (u_name user) (u_role user) token |}
      end
  end.

End Accounts.

(** *** Order history *)

Record HistoryResponse : Type := mkHistoryResponse {
  history_status : Z;
  history_body : list (Order * list (OrderItem * option Book))
}.

Definition get_orders (user : JwtPayload) : M HistoryResponse :=
  orders <- getOrdersByBuyer (userId user) ;;
  ordersWithItems <- map_all (fun order =>
      items <- getOrderItems (o_id order) ;;
      itemsWithBooks <- map_all (fun item =>
                          book <- getBook (oi_bookId item) ;;
                          ret (item, book)) items ;;
      ret (order, itemsWithBooks)) orders ;;
  ret {| history_status := 200; history_body := ordersWithItems |}.

End Routes.

(** ** The request helper of [client/src/lib/auth.ts] *)

Module Client.

(** The [Authorization] header [apiRequestWithAuth] sets: none without a
    stored token. *)
Definition authorization_header (token : option string) : option string :=
  match token with
  | Some (String _ _ as token) => Some ("Bearer " ++ token)%string
  | _ => None
  end.

End Client.

Import MemStorage Routes.
Local Open Scope storage_scope.

(** ** Predicates used in the statements *)

(** [a] may stay before [b] under the comparator. *)
Definition ordered (A : Type) (cmp : A -> A -> Z) (a b : A) : Prop :=
  cmp a b <= 0.

(** Ascending by creation time. *)
Definition chronological : list Message -> Prop :=
  StronglySorted (fun x y => m_createdAt x <= m_createdAt y).

(** What every store built by the handlers satisfies: a map holds each key
    once, a book and a cart entry are filed under their own id, the
    counters are ahead of the keys in use, and an order line belongs to an
    order that was already numbered. *)
Record wf (s : Store) : Prop := mk_wf {
  wf_books_keys : NoDup (Map_keys (books s));
  wf_books_id : forall k b, In (k, b) (books s) -> b_id b = k;
  wf_books_fresh : forall k, In k (Map_keys (books s)) -> k < currentBookId s;
  wf_orders_fresh :
    forall k, In k (Map_keys (orders s)) -> k < currentOrderId s;
  wf_items_fresh :
    forall k, In k (Map_keys (orderItems s)) -> k < currentOrderItemId s;
  wf_items_order :
    forall i, In i (Map_values (orderItems s)) ->
              oi_orderId i < currentOrderId s;
  wf_cart_keys : NoDup (Map_keys (cartItems s));
  wf_cart_id : forall k c, In (k, c) (cartItems s) -> ci_id c = k;
  wf_cart_fresh :
    forall k, In k (Map_keys (cartItems s)) -> k < currentCartItemId s
}.

(** The same conditions as a check that runs. *)
Fixpoint distinct (l : list Z) : bool :=
  match l with
  | [] => true
  | x :: l' => negb (existsb (Z.eqb x) l') && distinct l'
  end.

Definition wf_check (s : Store) : bool :=
  distinct (Map_keys (books s))
  && forallb (fun kb => b_id (snd kb) =? fst kb) (books s)
  && forallb (fun k => k <? currentBookId s) (Map_keys (books s))
  && forallb (fun k => k <? currentOrderId s) (Map_keys (orders s))
  && forallb (fun k => k <? currentOrderItemId s) (Map_keys (orderItems s))
  && forallb (fun i => oi_orderId i <? currentOrderId s)
             (Map_values (orderItems s))
  && distinct (Map_keys (cartItems s))
  && forallb (fun kc => ci_id (snd kc) =? fst kc) (cartItems s)
  && forallb (fun k => k <? currentCartItemId s) (Map_keys (cartItems s)).

(** The record checkout leaves for a sold listing. *)
Definition mark_sold (book : Book) : Book := merge_book book isAvailable_false.

(** Whether one of the entries references listing [k]. *)
Definition references (entries : list CartItem) (k : Z) : bool :=
  existsb (fun c => strict_eq (ci_bookId c) (Num k)) entries.

(** Whether the listing an entry references is in the store. *)
Definition listed (s : Store) (c : CartItem) : bool :=
  match fst (getBook (ci_bookId c) s) with
  | Some _ => true
  | None => false
  end.

(** One pass of the checkout loop on the store. *)
Definition line_step (order_id : Z) (s : Store) (c : CartItem) : Store :=
  match ci_bookId c with
  | Num k =>
      match Map_get k (books s) with
      | Some b =>
          let id := currentOrderItemId s in
          let item := {| oi_id := id; oi_orderId := order_id;
                         oi_bookId := ci_bookId c; oi_price := b_price b |} in
          set_books (Map_set k (mark_sold b) (books s)) (currentBookId s)
            (set_orderItems (Map_set id item (orderItems s)) (id + 1) s)
      | None => s
      end
  | NaN => s
  end.

(** The order lines the loop files for a list of entries, numbered from
    [next]. *)
Fixpoint lines_for (order_id next : Z) (bs : JsMap Book)
  (entries : list CartItem) : list OrderItem :=
  match entries with
  | [] => []
  | c :: rest =>
      match Map_get_number (ci_bookId c) bs with
      | Some b =>
          {| oi_id := next; oi_orderId := order_id;
             oi_bookId := ci_bookId c; oi_price := b_price b |}
          :: lines_for order_id (next + 1) bs rest
      | None => lines_for order_id next bs rest
      end
  end.

Definition keyed (items : list OrderItem) : JsMap OrderItem :=
  map (fun i => (oi_id i, i)) items.

(** The books map after the loop went over the entries. *)
Definition sell_one (bs : JsMap Book) (c : CartItem) : JsMap Book :=
  match ci_bookId c with
  | Num k =>
      match Map_get k bs with
      | Some b => Map_set k (mark_sold b) bs
      | None => bs
      end
  | NaN => bs
  end.

Definition sold_books (entries : list CartItem) (bs : JsMap Book)
  : JsMap Book :=
  fold_left sell_one entries bs.

(** Two books maps that list the same ids at the same prices. *)
Definition same_prices (bs bs' : JsMap Book) : Prop :=
  forall k, option_map b_price (Map_get k bs)
            = option_map b_price (Map_get k bs').

(** A cart request of a signed-in user, and a run of such requests. *)
Inductive CartOp : Type :=
| AddToCart (user : JwtPayload) (bookId : number) (now : Z)
| RemoveFromCart (user : JwtPayload) (bookId : number).

Definition cart_op (s : Store) (op : CartOp) : Store :=
  match op with
  | AddToCart user bookId now => snd (post_cart bookId now user s)
  | RemoveFromCart user bookId => snd (delete_cart bookId user s)
  end.

Definition cart_ops (ops : list CartOp) (s : Store) : Store :=
  fold_left cart_op ops s.

(** A run of partial updates of listings. *)
Definition book_updates (updates : list (number * PartialInsertBook))
  (s : Store) : Store :=
  fold_left (fun s u => snd (updateBook (fst u) (snd u) s)) updates s.

(** A small shop used to run the handlers: a seller lists two books, a
    buyer puts both in the cart. *)
Definition seller : JwtPayload :=
  {| userId := 1; email := "seller@example.org"; role := "seller" |}.

Definition buyer : JwtPayload :=
  {| userId := 2; email := "buyer@example.org"; role := "buyer" |}.

Definition listing (title price : string) : InsertBook :=
  {| ib_title := title; ib_author := "Anonymous"; ib_description := "Used";
     ib_price := price; ib_condition := "good"; ib_category := "fiction";
     ib_imageUrl := None; ib_isAvailable := None |}.

Definition shop : Store :=
  snd (post_books (Some (listing "Second" "8.00")) 20 seller
    (snd (post_books (Some (listing "First" "12.50")) 10 seller empty))).

Definition carted : Store :=
  snd (post_cart (Num 2) 40 buyer (snd (post_cart (Num 1) 30 buyer shop))).

(** The first book as the shop holds it. *)
Definition first_book : Book :=
  {| b_id := 1; b_title := "First"; b_author := "Anonymous";
     b_description := "Used"; b_price := "12.50"; b_condition := "good";
     b_category := "fiction"; b_imageUrl := None; b_sellerId := 1;
     b_isAvailable := Some true; b_createdAt := 10 |}.

(** A verifier that accepts the one token the server signed for the buyer. *)
Definition verify_demo (token : string) : option JwtPayload :=
  if String.eqb token "signed.for.buyer" then Some buyer else None.

(** The same cart after the seller deleted the second book. *)
Definition vanished : Store := snd (delete_book (Num 2) seller carted).

(** ** Runs of requests *)

(** A request that writes to the store, after the gate, with the identity
    of its token where the route asks for one. *)
Inductive Request : Type :=
| PostRegister (parsed : option InsertUser) (now : Z)
| PostBooks (parsed : option InsertBook) (now : Z) (user : JwtPayload)
| PutBook (id : number) (parsed : option PartialInsertBook)
    (user : JwtPayload)
| DeleteBook (id : number) (user : JwtPayload)
| PostCart (bookId : number) (now : Z) (user : JwtPayload)
| DeleteCart (bookId : number) (user : JwtPayload)
| PostOrders (total : JsValue) (now : Z) (user : JwtPayload)
| PostMessages (parsed : option InsertMessage) (now : Z) (user : JwtPayload).

Section Runs.

Variable bcrypt_hash : string -> string.
Variable jwt_sign : JwtPayload -> string.

Definition handle (s : Store) (req : Request) : Store :=
  match req with
  | PostRegister parsed now =>
      snd (post_register bcrypt_hash jwt_sign parsed now s)
  | PostBooks parsed now user => snd (post_books parsed now user s)
  | PutBook id parsed user => snd (put_book id parsed user s)
  | DeleteBook id user => snd (delete_book id user s)
  | PostCart bookId now user => snd (post_cart bookId now user s)
  | DeleteCart bookId user => snd (delete_cart bookId user s)
  | PostOrders total now user => snd (post_orders total now user s)
  | PostMessages parsed now user => snd (post_messages parsed now user s)
  end.

Definition run (reqs : list Request) (s : Store) : Store :=
  fold_left handle reqs s.

End Runs.

(** An update that sets the availability flag of a listing to true. *)
Definition relists (req : Request) : bool :=
  match req with
  | PutBook _ (Some updateData) _ =>
      match pb_isAvailable updateData with
      | Some (Some true) => true
      | _ => false
      end
  | _ => false
  end.

(** No stored email occurs twice. *)
Definition emails_distinct (s : Store) : Prop :=
  NoDup (map u_email (Map_values (users s))).

(** A token without a space character. *)
Fixpoint spaceless (token : string) : bool :=
  match token with
  | EmptyString => true
  | String c rest => negb (Ascii.eqb c " "%char) && spaceless rest
  end.

(** A second buyer, and a store in which both buyers hold the first book
    in their carts. *)
Definition rival : JwtPayload :=
  {| userId := 3; email := "rival@example.org"; role := "buyer" |}.

Definition contested : Store :=
  snd (post_cart (Num 1) 45 rival (snd (post_cart (Num 1) 30 buyer shop))).

(** Stand-ins for the password and token libraries, to run the account
    routes. *)
Definition demo_hash (password : string) : string :=
  ("hashed:" ++ password)%string.

Definition demo_compare (password : JsValue) (hash : string) : option bool :=
  match password with
  | JsString text => Some (String.eqb (demo_hash text) hash)
  | _ => None
  end.

Definition demo_sign (payload : JwtPayload) : string :=
  ("token-for-" ++ email payload)%string.

Definition newcomer : InsertUser :=
  {| iu_email := "reader@example.org"; iu_password := "secret";
     iu_name := "Reader"; iu_role := "buyer" |}.

(** The store after the buyer's checkout of both books, written out. *)
Definition sold_out : Store :=
  Eval vm_compute in snd (post_orders (JsNumber "24.49") 50 buyer carted).

(** * Properties *)

(** ** Association-list maps *)

Section MapFacts.

Variable V : Type.
Implicit Types (m : JsMap V) (k : Z) (v : V).

Lemma Map_get_set_same m k v : Map_get k (Map_set k v m) = Some v.
Proof.
  induction m as [|[k' v'] m IH]; simpl.
  - now rewrite Z.eqb_refl.
  - destruct (k' =? k) eqn:E; simpl.
    + now rewrite Z.eqb_refl.
    + now rewrite E.
Qed.

Lemma Map_get_set_other m k k' v :
  k <> k' -> Map_get k' (Map_set k v m) = Map_get k' m.
Proof.
  intros Hne. induction m as [|[k0 v0] m IH]; simpl.
  - destruct (k =? k') eqn:E; [apply Z.eqb_eq in E; contradiction | reflexivity].
  - destruct (k0 =? k) eqn:E; simpl.
    + apply Z.eqb_eq in E. subst k0.
      destruct (k =? k') eqn:E'; [apply Z.eqb_eq in E'; contradiction | reflexivity].
    + now rewrite IH.
Qed.

Lemma Map_get_None_keys m k : Map_get k m = None <-> ~ In k (Map_keys m).
Proof.
  induction m as [|[k' v'] m IH]; simpl.
  - tauto.
  - destruct (k' =? k) eqn:E.
    + apply Z.eqb_eq in E. split; [discriminate | intros H; exfalso; auto].
    + apply Z.eqb_neq in E. rewrite IH. tauto.
Qed.

Lemma Map_get_In m k v : Map_get k m = Some v -> In (k, v) m.
Proof.
  induction m as [|[k' v'] m IH]; simpl; [discriminate|].
  destruct (k' =? k) eqn:E.
  - apply Z.eqb_eq in E. intros [= ->]. left. now subst.
  - auto.
Qed.

Lemma In_Map_get m k v :
  NoDup (Map_keys m) -> In (k, v) m -> Map_get k m = Some v.
Proof.
  induction m as [|[k' v'] m IH]; simpl; [tauto|].
  intros Hnd [Heq | Hin].
  - injection Heq as -> ->. now rewrite Z.eqb_refl.
  - inversion Hnd as [|? ? Hnotin Hnd']; subst.
    destruct (k' =? k) eqn:E.
    + apply Z.eqb_eq in E. subst k'. exfalso. apply Hnotin.
      change (In (fst (k, v)) (map fst m)). now apply in_map.
    + auto.
Qed.

Lemma Map_set_fresh m k v :
  Map_get k m = None -> Map_set k v m = m ++ [(k, v)].
Proof.
  induction m as [|[k' v'] m IH]; simpl; [reflexivity|].
  destruct (k' =? k); [discriminate|].
  intros H. now rewrite IH.
Qed.

Lemma Map_keys_set_present m k v v0 :
  Map_get k m = Some v0 -> Map_keys (Map_set k v m) = Map_keys m.
Proof.
  induction m as [|[k' v'] m IH]; simpl; [discriminate|].
  destruct (k' =? k) eqn:E; simpl.
  - apply Z.eqb_eq in E. now subst.
  - intros H. now rewrite IH.
Qed.

Lemma In_Map_set m k v k' v' :
  In (k', v') (Map_set k v m) -> (k' = k /\ v' = v) \/ In (k', v') m.
Proof.
  induction m as [|[k0 v0] m IH]; simpl.
  - intros [[= <- <-]|[]]. now left.
  - destruct (k0 =? k) eqn:E; simpl.
    + intros [[= <- <-]|Hin]; [now left | right; now right].
    + intros [Heq|Hin]; [right; now left|].
      destruct (IH Hin) as [?|?]; [now left | right; now right].
Qed.

Lemma Map_keys_set_fresh m k v :
  Map_get k m = None -> Map_keys (Map_set k v m) = Map_keys m ++ [k].
Proof.
  intros H. rewrite Map_set_fresh by exact H. unfold Map_keys.
  now rewrite map_app.
Qed.

Lemma Map_values_set_fresh m k v :
  Map_get k m = None -> Map_values (Map_set k v m) = Map_values m ++ [v].
Proof.
  intros H. rewrite Map_set_fresh by exact H. unfold Map_values.
  now rewrite map_app.
Qed.

Lemma Map_keys_set_incl m k v k' :
  In k' (Map_keys (Map_set k v m)) -> k' = k \/ In k' (Map_keys m).
Proof.
  unfold Map_keys. intros H. apply in_map_iff in H.
  destruct H as [[k0 v0] [<- Hin]]. simpl.
  apply In_Map_set in Hin. destruct Hin as [[-> _]|Hin']; [now left|].
  right. change k0 with (fst (k0, v0)). now apply in_map.
Qed.

Lemma NoDup_keys_set m k v :
  NoDup (Map_keys m) -> NoDup (Map_keys (Map_set k v m)).
Proof.
  intros Hnd. destruct (Map_get k m) as [v0|] eqn:E.
  - erewrite Map_keys_set_present by exact E. assumption.
  - rewrite Map_keys_set_fresh by exact E.
    apply NoDup_app; [assumption | constructor; [intros [] | constructor] |].
    intros x Hx [<-|[]]. now apply Map_get_None_keys in E.
Qed.

Lemma In_Map_remove m k k' v' :
  In (k', v') (Map_remove k m) <-> In (k', v') m /\ k' <> k.
Proof.
  unfold Map_remove. rewrite filter_In. simpl.
  rewrite negb_true_iff, Z.eqb_neq. tauto.
Qed.

Lemma Map_keys_remove_incl m k k' :
  In k' (Map_keys (Map_remove k m)) -> In k' (Map_keys m).
Proof.
  unfold Map_keys. intros H. apply in_map_iff in H.
  destruct H as [[k0 v0] [<- Hin]]. apply In_Map_remove in Hin.
  change (fst (k0, v0)) with k0.
  change k0 with (fst (k0, v0)). apply in_map. tauto.
Qed.

Lemma NoDup_keys_remove m k :
  NoDup (Map_keys m) -> NoDup (Map_keys (Map_remove k m)).
Proof.
  induction m as [|[k' v'] m IH]; simpl; [trivial|].
  intros Hnd. inversion Hnd as [|? ? Hnotin Hnd']; subst.
  destruct (negb (k' =? k)); simpl; [|auto].
  constructor; [|auto].
  intros Hin. apply Hnotin. eapply Map_keys_remove_incl. exact Hin.
Qed.

Lemma Map_get_remove_other m k k' :
  k <> k' -> Map_get k' (Map_remove k m) = Map_get k' m.
Proof.
  intros Hne. induction m as [|[k0 v0] m IH]; simpl; [reflexivity|].
  destruct (k0 =? k) eqn:E; simpl.
  - apply Z.eqb_eq in E. subst k0.
    destruct (k =? k') eqn:E'; [apply Z.eqb_eq in E'; contradiction | exact IH].
  - now rewrite IH.
Qed.

Lemma Map_get_remove_same m k : Map_get k (Map_remove k m) = None.
Proof.
  apply Map_get_None_keys. unfold Map_keys. intros H.
  apply in_map_iff in H. destruct H as [[k0 v0] [Hk Hin]].
  apply In_Map_remove in Hin. simpl in Hk. tauto.
Qed.

End MapFacts.

(** ** The stable sort *)

Section SortFacts.

Variable A : Type.
Variable cmp : A -> A -> Z.

Hypothesis cmp_total : forall a b, cmp a b <= 0 \/ cmp b a <= 0.
Hypothesis cmp_trans : forall a b c, cmp a b <= 0 -> cmp b c <= 0 -> cmp a c <= 0.

Lemma sort_insert_perm x l : Permutation (sort_insert cmp x l) (x :: l).
Proof.
  induction l as [|y l IH]; simpl.
  - apply Permutation_refl.
  - destruct (cmp x y <=? 0).
    + apply Permutation_refl.
    + eapply perm_trans; [apply perm_skip, IH | apply perm_swap].
Qed.

Lemma Array_sort_perm l : Permutation (Array_sort cmp l) l.
Proof.
  induction l as [|x l IH]; simpl.
  - constructor.
  - eapply perm_trans; [apply sort_insert_perm | now apply perm_skip].
Qed.

Lemma sort_insert_sorted x l :
  StronglySorted (ordered cmp) l -> StronglySorted (ordered cmp) (sort_insert cmp x l).
Proof.
  induction l as [|y l IH]; simpl; intros Hs.
  - constructor; [constructor | constructor].
  - inversion Hs as [|? ? Hs' Hall]; subst.
    destruct (cmp x y <=? 0) eqn:E.
    + apply Z.leb_le in E. constructor; [assumption|].
      constructor; [exact E|].
      rewrite Forall_forall in *. intros z Hz.
      eapply cmp_trans; [exact E | now apply Hall].
    + apply Z.leb_gt in E.
      assert (Hyx : ordered cmp y x).
      { destruct (cmp_total x y) as [H|H]; [lia | exact H]. }
      constructor; [now apply IH|].
      rewrite Forall_forall in *. intros z Hz.
      apply (Permutation_in _ (sort_insert_perm x l)) in Hz.
      destruct Hz as [<-|Hz]; [exact Hyx | now apply Hall].
Qed.

Lemma Array_sort_sorted l : StronglySorted (ordered cmp) (Array_sort cmp l).
Proof.
  induction l as [|x l IH]; simpl.
  - constructor.
  - now apply sort_insert_sorted.
Qed.

End SortFacts.

Lemma in_thread_sym (a b : number) (m : Message) :
  MemStorage.in_thread a b m = MemStorage.in_thread b a m.
Proof. unfold MemStorage.in_thread. apply orb_comm. Qed.

Lemma db_in_thread_sym (a b : number) (m : Message) :
  DatabaseStorage.in_thread a b m = DatabaseStorage.in_thread b a m.
Proof. unfold DatabaseStorage.in_thread. apply orb_comm. Qed.

Lemma sort_by_createdAt_chronological (cmp : Message -> Message -> Z) l :
  (forall a b, cmp a b = m_createdAt a - m_createdAt b) ->
  chronological (Array_sort cmp l).
Proof.
  intros Hcmp.
  assert (H : StronglySorted (ordered cmp) (Array_sort cmp l)).
  { apply Array_sort_sorted.
    - intros a b. rewrite !Hcmp. lia.
    - intros a b c. rewrite !Hcmp. lia. }
  unfold chronological.
  induction H as [|x l' Hs IH Hall]; constructor; [exact IH|].
  eapply Forall_impl; [|exact Hall].
  intros y Hy. unfold ordered in Hy. rewrite Hcmp in Hy. lia.
Qed.

(** C8. The thread between two users is the same list whichever of the two
    is passed first, it is sorted ascending by creation time and holds
    exactly the messages exchanged by the two, and reading it leaves the
    store as it is; in the in-memory store and in the database-backed one
    over the rows of the messages table. *)
Theorem thread_symmetric_chronological
  (a b : number) (s : Store) (db : DatabaseStorage.MessagesTable) :
  fst (getMessagesBetweenUsers a b s) = fst (getMessagesBetweenUsers b a s)
  /\ chronological (fst (getMessagesBetweenUsers a b s))
  /\ Permutation (fst (getMessagesBetweenUsers a b s))
       (filter (MemStorage.in_thread a b) (Map_values (messages s)))
  /\ snd (getMessagesBetweenUsers a b s) = s
  /\ DatabaseStorage.getMessagesBetweenUsers a b db
     = DatabaseStorage.getMessagesBetweenUsers b a db
  /\ chronological (DatabaseStorage.getMessagesBetweenUsers a b db)
  /\ Permutation (DatabaseStorage.getMessagesBetweenUsers a b db)
       (filter (DatabaseStorage.in_thread a b) db).
Proof.
  unfold getMessagesBetweenUsers, DatabaseStorage.getMessagesBetweenUsers,
    gets; simpl.
  repeat split.
  - f_equal. apply filter_ext. intros m. apply in_thread_sym.
  - now apply sort_by_createdAt_chronological.
  - apply Array_sort_perm.
  - f_equal. apply filter_ext. intros m. apply db_in_thread_sym.
  - now apply sort_by_createdAt_chronological.
  - apply Array_sort_perm.
Qed.

(** ** The store invariant *)

Lemma distinct_NoDup (l : list Z) : distinct l = true <-> NoDup l.
Proof.
  induction l as [|x l IH]; simpl.
  - split; [constructor | reflexivity].
  - rewrite andb_true_iff, negb_true_iff, IH. split.
    + intros [Hx Hl]. constructor; [|assumption].
      intros Hin. assert (existsb (Z.eqb x) l = true); [|congruence].
      apply existsb_exists. exists x. split; [assumption | apply Z.eqb_refl].
    + intros Hnd. inversion Hnd as [|? ? Hnotin Hnd']; subst.
      split; [|assumption].
      destruct (existsb (Z.eqb x) l) eqn:E; [|reflexivity].
      apply existsb_exists in E. destruct E as [y [Hy Hxy]].
      apply Z.eqb_eq in Hxy. subst y. contradiction.
Qed.

Lemma wf_check_iff (s : Store) : wf_check s = true <-> wf s.
Proof.
  unfold wf_check. rewrite !andb_true_iff, !distinct_NoDup, !forallb_forall.
  split.
  - intros [[[[[[[[H1 H2] H3] H4] H5] H6] H7] H8] H9].
    constructor; try assumption.
    + intros k b Hin. apply H2 in Hin. simpl in Hin. apply Z.eqb_eq in Hin. exact Hin.
    + intros k Hin. apply Z.ltb_lt. auto.
    + intros k Hin. apply Z.ltb_lt. auto.
    + intros k Hin. apply Z.ltb_lt. auto.
    + intros i Hin. apply Z.ltb_lt. auto.
    + intros k c Hin. apply H8 in Hin. simpl in Hin. apply Z.eqb_eq in Hin. exact Hin.
    + intros k Hin. apply Z.ltb_lt. auto.
  - intros [H1 H2 H3 H4 H5 H6 H7 H8 H9].
    repeat split; try assumption.
    + intros [k b] Hin. simpl. apply Z.eqb_eq. auto.
    + intros k Hin. apply Z.ltb_lt. auto.
    + intros k Hin. apply Z.ltb_lt. auto.
    + intros k Hin. apply Z.ltb_lt. auto.
    + intros i Hin. apply Z.ltb_lt. auto.
    + intros [k c] Hin. simpl. apply Z.eqb_eq. auto.
    + intros k Hin. apply Z.ltb_lt. auto.
Qed.

Lemma wf_check_sound (s : Store) : wf_check s = true -> wf s.
Proof. apply wf_check_iff. Qed.

Lemma wf_empty : wf empty.
Proof. apply wf_check_sound. reflexivity. Qed.

(** ** The checkout loop *)

Lemma order_line_step (order : Order) (c : CartItem) (s : Store) :
  order_line order c s = (tt, line_step (o_id order) s c).
Proof.
  unfold order_line, line_step, getBook, createOrderItem, updateBook,
    bind, gets, modify, ret.
  destruct (ci_bookId c) as [k|]; simpl; [|reflexivity].
  destruct (Map_get k (books s)) as [b|] eqn:E; simpl; [|reflexivity].
  rewrite E. reflexivity.
Qed.

Lemma for_each_order_line (order : Order) (l : list CartItem) (s : Store) :
  for_each (order_line order) l s
  = (tt, fold_left (line_step (o_id order)) l s).
Proof.
  revert s. induction l as [|c l IH]; intros s; simpl.
  - reflexivity.
  - unfold bind. rewrite order_line_step. apply IH.
Qed.

Lemma same_prices_sell (bs : JsMap Book) (k : Z) (b : Book) :
  Map_get k bs = Some b -> same_prices (Map_set k (mark_sold b) bs) bs.
Proof.
  intros Hget k'. destruct (Z.eq_dec k k') as [<-|Hne].
  - rewrite Map_get_set_same, Hget. reflexivity.
  - rewrite Map_get_set_other by exact Hne. reflexivity.
Qed.

Lemma lines_for_ext (oid : Z) (bs bs' : JsMap Book) (l : list CartItem) :
  same_prices bs bs' ->
  forall next, lines_for oid next bs l = lines_for oid next bs' l.
Proof.
  intros Hsame. induction l as [|c l IH]; intros next; simpl; [reflexivity|].
  destruct (ci_bookId c) as [k|]; simpl; [|apply IH].
  specialize (Hsame k).
  destruct (Map_get k bs) as [b|], (Map_get k bs') as [b'|];
    simpl in Hsame; try discriminate.
  - injection Hsame as ->. now rewrite IH.
  - apply IH.
Qed.

Lemma store_eta (s : Store) :
  set_books (books s) (currentBookId s)
    (set_orderItems (orderItems s ++ []) (currentOrderItemId s + 0) s) = s.
Proof.
  destruct s. unfold set_books, set_orderItems. simpl.
  now rewrite app_nil_r, Z.add_0_r.
Qed.

(** The loop in closed form: it touches the books and the order lines
    only. *)
Lemma checkout_loop_closed (oid : Z) (l : list CartItem) (s : Store) :
  (forall k, In k (Map_keys (orderItems s)) -> k < currentOrderItemId s) ->
  fold_left (line_step oid) l s
  = set_books (sold_books l (books s)) (currentBookId s)
      (set_orderItems
         (orderItems s
          ++ keyed (lines_for oid (currentOrderItemId s) (books s) l))
         (currentOrderItemId s
          + Z.of_nat (List.length
                        (lines_for oid (currentOrderItemId s) (books s) l)))
         s).
Proof.
  revert s. induction l as [|c l IH]; intros s Hfresh.
  - simpl. symmetry. apply store_eta.
  - simpl fold_left. unfold sold_books. simpl fold_left.
    unfold line_step at 2, sell_one at 2. simpl lines_for.
    destruct (ci_bookId c) as [k|] eqn:Ec; simpl Map_get_number;
      [|apply IH; assumption].
    destruct (Map_get k (books s)) as [b|] eqn:Eb; [|apply IH; assumption].
    assert (Hnone : Map_get (currentOrderItemId s) (orderItems s) = None).
    { apply Map_get_None_keys. intros Hin. apply Hfresh in Hin. lia. }
    rewrite IH.
    + simpl. rewrite (fun v => @Map_set_fresh _ _ _ v Hnone).
      rewrite (@lines_for_ext oid _ _ l (@same_prices_sell _ _ _ Eb)).
      unfold set_books, set_orderItems; simpl.
      rewrite <- app_assoc. simpl.
      f_equal. lia.
    + simpl. intros k' Hin. apply Map_keys_set_incl in Hin.
      destruct Hin as [->|Hin]; [lia | apply Hfresh in Hin; lia].
Qed.

Lemma sold_books_get (l : list CartItem) (bs : JsMap Book) (k : Z) :
  Map_get k (sold_books l bs)
  = option_map (fun b => if references l k then mark_sold b else b)
               (Map_get k bs).
Proof.
  revert bs. induction l as [|c l IH]; intros bs; simpl.
  - now destruct (Map_get k bs).
  - unfold sold_books in *. simpl. rewrite IH. unfold sell_one.
    destruct (ci_bookId c) as [k'|]; simpl; [|reflexivity].
    destruct (Map_get k' bs) as [b'|] eqn:E'.
    + destruct (Z.eq_dec k' k) as [->|Hne].
      * rewrite Map_get_set_same, E', Z.eqb_refl. simpl.
        destruct (references l k); reflexivity.
      * rewrite Map_get_set_other by exact Hne.
        apply Z.eqb_neq in Hne. now rewrite Hne.
    + destruct (k' =? k) eqn:Ek; [|reflexivity].
      apply Z.eqb_eq in Ek. subst k'. now rewrite E'.
Qed.

Lemma sold_books_keys (l : list CartItem) (bs : JsMap Book) :
  Map_keys (sold_books l bs) = Map_keys bs.
Proof.
  revert bs. induction l as [|c l IH]; intros bs; simpl; [reflexivity|].
  unfold sold_books in *. simpl. rewrite IH. unfold sell_one.
  destruct (ci_bookId c) as [k|]; [|reflexivity].
  destruct (Map_get k bs) as [b|] eqn:E; [|reflexivity].
  eapply Map_keys_set_present. exact E.
Qed.

(** ** Clearing a cart *)

Lemma cart_eta (s : Store) :
  set_cartItems (cartItems s) (currentCartItemId s) s = s.
Proof. now destruct s. Qed.

Lemma for_each_cart_delete (items : list CartItem) (s : Store) :
  for_each (fun item => cart_delete (ci_id item) ;;; ret tt) items s
  = (tt, set_cartItems
           (fold_left (fun m item => Map_remove (ci_id item) m) items
                      (cartItems s))
           (currentCartItemId s) s).
Proof.
  revert s. induction items as [|i items IH]; intros s; simpl.
  - now rewrite cart_eta.
  - unfold bind at 1. unfold bind at 1. unfold cart_delete at 1.
    unfold ret at 1. rewrite IH. reflexivity.
Qed.

Lemma fold_remove_filter (V : Type) (ids : list Z) (m : JsMap V) :
  fold_left (fun m id => Map_remove id m) ids m
  = filter (fun kv => negb (existsb (fun id => id =? fst kv) ids)) m.
Proof.
  revert m. induction ids as [|id ids IH]; intros m; simpl.
  - induction m as [|kv m IHm]; simpl; [reflexivity | now rewrite <- IHm].
  - rewrite IH. unfold Map_remove.
    induction m as [|kv m IHm]; simpl; [reflexivity|].
    rewrite (Z.eqb_sym id (fst kv)).
    destruct (fst kv =? id); simpl.
    + exact IHm.
    + destruct (existsb (fun id0 => id0 =? fst kv) ids); simpl;
        [exact IHm | now rewrite IHm].
Qed.

Lemma fold_remove_items (items : list CartItem) (m : JsMap CartItem) :
  fold_left (fun m item => Map_remove (ci_id item) m) items m
  = fold_left (fun m id => Map_remove id m) (map ci_id items) m.
Proof.
  revert m. induction items as [|i items IH]; intros m; simpl; auto.
Qed.

Lemma clearCart_closed (buyerId : Z) (s : Store) :
  NoDup (Map_keys (cartItems s)) ->
  (forall k c, In (k, c) (cartItems s) -> ci_id c = k) ->
  clearCart buyerId s
  = (true,
     set_cartItems
       (filter (fun kv => negb (ci_buyerId (snd kv) =? buyerId)) (cartItems s))
       (currentCartItemId s) s).
Proof.
  intros Hnd Hid. unfold clearCart, bind at 1, gets.
  unfold bind. rewrite for_each_cart_delete. unfold ret.
  f_equal. f_equal.
  rewrite fold_remove_items, fold_remove_filter.
  apply filter_ext_in. intros [k c] Hin. simpl. f_equal.
  destruct (ci_buyerId c =? buyerId) eqn:Eb.
  - apply existsb_exists. exists (ci_id c). split; [|apply Z.eqb_eq; eauto].
    apply in_map. apply filter_In. split; [|exact Eb].
    unfold Map_values. change c with (snd (k, c)). now apply in_map.
  - destruct (existsb _ _) eqn:Ex; [|reflexivity].
    apply existsb_exists in Ex. destruct Ex as [id [Hid_in Hid_eq]].
    apply Z.eqb_eq in Hid_eq. subst id.
    apply in_map_iff in Hid_in. destruct Hid_in as [c' [Hc' Hin']].
    apply filter_In in Hin'. destruct Hin' as [Hin' Eb'].
    unfold Map_values in Hin'. apply in_map_iff in Hin'.
    destruct Hin' as [[k' c''] [Hs Hin'']]. simpl in Hs. subst c''.
    assert (k' = k) by (rewrite <- (Hid _ _ Hin''); exact Hc').
    subst k'.
    assert (Some c' = Some c) as [= ->].
    { rewrite <- (@In_Map_get _ _ _ _ Hnd Hin''). now apply In_Map_get. }
    congruence.
Qed.

(** ** Checkout in closed form *)

Lemma checkout_closed (total : JsValue) (text : string) (now : Z)
  (user : JwtPayload) (s : Store) :
  wf s ->
  fst (getCartItems (userId user) s) <> [] ->
  toString total = Some text ->
  let cart := fst (getCartItems (userId user) s) in
  let order := {| o_id := currentOrderId s; o_buyerId := userId user;
                  o_total := text; o_status := "completed";
                  o_createdAt := now |} in
  let lines := lines_for (currentOrderId s) (currentOrderItemId s)
                         (books s) cart in
  post_orders total now user s
  = ({| status := 201; body := JsonOrder order |},
     set_cartItems
       (filter (fun kv => negb (ci_buyerId (snd kv) =? userId user))
               (cartItems s))
       (currentCartItemId s)
       (set_books (sold_books cart (books s)) (currentBookId s)
          (set_orderItems (orderItems s ++ keyed lines)
             (currentOrderItemId s + Z.of_nat (List.length lines))
             (set_orders (orders s ++ [(currentOrderId s, order)])
                (currentOrderId s + 1) s)))).
Proof.
  intros Hwf Hcart Htext cart order lines.
  assert (Hnone : Map_get (currentOrderId s) (orders s) = None).
  { apply Map_get_None_keys. intros Hin.
    apply (wf_orders_fresh Hwf) in Hin. lia. }
  assert (Hlen : (Z.of_nat (List.length cart) =? 0) = false).
  { subst cart. destruct (fst (getCartItems (userId user) s));
      [contradiction | reflexivity]. }
  unfold post_orders, bind at 1.
  change (getCartItems (userId user) s) with (cart, s) at 1.
  cbv beta iota. rewrite Hlen, Htext.
  unfold bind at 1, createOrder, bind at 1, gets at 1, bind at 1,
    modify at 1, ret at 1. simpl o_id.
  unfold bind at 1. rewrite for_each_order_line.
  rewrite checkout_loop_closed
    by (simpl; intros k Hin; now apply (wf_items_fresh Hwf)).
  unfold bind at 1. rewrite clearCart_closed.
  - unfold ret. simpl. rewrite Map_set_fresh by exact Hnone. reflexivity.
  - simpl. apply (wf_cart_keys Hwf).
  - simpl. apply (wf_cart_id Hwf).
Qed.

(** ** The order lines of a checkout *)

Lemma lines_for_listed (oid next : Z) (s : Store) (l : list CartItem) :
  map (fun i => (oi_bookId i, Some (oi_price i)))
      (lines_for oid next (books s) l)
  = map (fun c => (ci_bookId c,
                   option_map b_price (fst (getBook (ci_bookId c) s))))
        (filter (listed s) l).
Proof.
  revert next. induction l as [|c l IH]; intros next; simpl; [reflexivity|].
  unfold listed at 1. unfold getBook, gets. simpl.
  destruct (Map_get_number (ci_bookId c) (books s)) as [b|] eqn:E; simpl.
  - rewrite E. simpl. now rewrite IH.
  - apply IH.
Qed.

Lemma lines_for_length (oid next : Z) (s : Store) (l : list CartItem) :
  List.length (lines_for oid next (books s) l)
  = List.length (filter (listed s) l).
Proof.
  rewrite <- (length_map (fun i => (oi_bookId i, Some (oi_price i)))).
  rewrite lines_for_listed. apply length_map.
Qed.

Lemma lines_for_order (oid next : Z) (bs : JsMap Book) (l : list CartItem) :
  forall i, In i (lines_for oid next bs l) -> oi_orderId i = oid.
Proof.
  revert next. induction l as [|c l IH]; intros next i; simpl; [tauto|].
  destruct (Map_get_number (ci_bookId c) bs); [|apply IH].
  intros [<-|Hin]; [reflexivity | eapply IH; exact Hin].
Qed.

Lemma lines_for_ids (oid next : Z) (bs : JsMap Book) (l : list CartItem) :
  forall i, In i (lines_for oid next bs l) ->
            next <= oi_id i
            < next + Z.of_nat (List.length (lines_for oid next bs l)).
Proof.
  revert next. induction l as [|c l IH]; intros next i; simpl; [tauto|].
  destruct (Map_get_number (ci_bookId c) bs); [|apply IH].
  simpl List.length. intros [<-|Hin]; simpl; [lia|].
  apply IH in Hin. lia.
Qed.

Lemma Map_values_keyed (items : list OrderItem) :
  Map_values (keyed items) = items.
Proof.
  unfold Map_values, keyed. rewrite map_map. simpl. apply map_id.
Qed.

Lemma Map_keys_keyed (items : list OrderItem) :
  Map_keys (keyed items) = map oi_id items.
Proof. unfold Map_keys, keyed. rewrite map_map. reflexivity. Qed.

Lemma filter_all (A : Type) (f : A -> bool) (l : list A) :
  (forall x, In x l -> f x = true) -> filter f l = l.
Proof.
  induction l as [|x l IH]; simpl; intros H; [reflexivity|].
  rewrite (H x) by now left. f_equal. apply IH. intros y Hy. apply H. now right.
Qed.

Lemma filter_none (A : Type) (f : A -> bool) (l : list A) :
  (forall x, In x l -> f x = false) -> filter f l = [].
Proof.
  induction l as [|x l IH]; simpl; intros H; [reflexivity|].
  rewrite (H x) by now left. apply IH. intros y Hy. apply H. now right.
Qed.

(** The lines filed under a freshly numbered order are the new ones. *)
Lemma new_order_lines (s : Store) (lines : list OrderItem) :
  wf s ->
  (forall i, In i lines -> oi_orderId i = currentOrderId s) ->
  filter (fun item => oi_orderId item =? currentOrderId s)
         (Map_values (orderItems s ++ keyed lines))
  = lines.
Proof.
  intros Hwf Hlines. unfold Map_values. rewrite map_app, filter_app.
  fold (Map_values (orderItems s)). fold (Map_values (keyed lines)).
  rewrite Map_values_keyed.
  rewrite filter_none, filter_all; [reflexivity | |].
  - intros i Hin. apply Z.eqb_eq. auto.
  - intros i Hin. apply Z.eqb_neq.
    apply (wf_items_order Hwf) in Hin. lia.
Qed.

Lemma cart_cleared (buyerId : Z) (m : JsMap CartItem) :
  filter (fun item => ci_buyerId item =? buyerId)
    (Map_values
       (filter (fun kv => negb (ci_buyerId (snd kv) =? buyerId)) m))
  = [].
Proof.
  apply filter_none. intros c Hin. unfold Map_values in Hin.
  apply in_map_iff in Hin. destruct Hin as [[k c'] [Hc Hin]].
  simpl in Hc. subst c'. apply filter_In in Hin. simpl in Hin.
  now apply negb_true_iff.
Qed.

(** What a checkout that passes the guards does, entry by entry. *)
Lemma checkout_outcome (total : JsValue) (text : string) (now : Z)
  (user : JwtPayload) (s : Store) :
  wf s ->
  fst (getCartItems (userId user) s) <> [] ->
  toString total = Some text ->
  let cart := fst (getCartItems (userId user) s) in
  let s' := snd (post_orders total now user s) in
  let order := {| o_id := currentOrderId s; o_buyerId := userId user;
                  o_total := text; o_status := "completed";
                  o_createdAt := now |} in
  let lines := fst (getOrderItems (o_id order) s') in
  fst (post_orders total now user s)
  = {| status := 201; body := JsonOrder order |}
  /\ Map_values (orders s') = Map_values (orders s) ++ [order]
  /\ Map_values (orderItems s') = Map_values (orderItems s) ++ lines
  /\ map (fun i => (oi_bookId i, Some (oi_price i))) lines
     = map (fun c => (ci_bookId c,
                      option_map b_price (fst (getBook (ci_bookId c) s))))
           (filter (listed s) cart)
  /\ (forall k, Map_get k (books s')
                = option_map
                    (fun b => if references cart k then mark_sold b else b)
                    (Map_get k (books s)))
  /\ Map_keys (books s') = Map_keys (books s)
  /\ fst (getCartItems (userId user) s') = [].
Proof.
  intros Hwf Hcart Htext cart s' order lines.
  pose proof (@checkout_closed total text now user s Hwf Hcart Htext) as Hrun.
  cbv zeta in Hrun. fold cart in Hrun. fold order in Hrun.
  assert (Hlines :
    lines = lines_for (currentOrderId s) (currentOrderItemId s) (books s) cart).
  { subst lines s'. rewrite Hrun. unfold getOrderItems, gets. simpl.
    apply new_order_lines; [exact Hwf|].
    intros i Hin. eapply lines_for_order. exact Hin. }
  split; [now rewrite Hrun|].
  split; [subst s'; rewrite Hrun; simpl; unfold Map_values;
          now rewrite map_app|].
  split.
  { rewrite Hlines. subst s'. rewrite Hrun. simpl. unfold Map_values.
    rewrite map_app. fold (Map_values (keyed
      (lines_for (currentOrderId s) (currentOrderItemId s) (books s) cart))).
    now rewrite Map_values_keyed. }
  split; [rewrite Hlines; apply lines_for_listed|].
  split; [intros k; subst s'; rewrite Hrun; simpl; apply sold_books_get|].
  split; [subst s'; rewrite Hrun; simpl; apply sold_books_keys|].
  subst s'. rewrite Hrun. unfold getCartItems, gets. simpl.
  apply cart_cleared.
Qed.

(** ** The handlers keep the store well formed *)

Lemma keys_filter_incl (V : Type) (f : Z * V -> bool) (m : JsMap V) (k : Z) :
  In k (Map_keys (filter f m)) -> In k (Map_keys m).
Proof.
  unfold Map_keys. intros H. apply in_map_iff in H.
  destruct H as [kv [<- Hin]]. apply filter_In in Hin. apply in_map. tauto.
Qed.

Lemma NoDup_keys_filter (V : Type) (f : Z * V -> bool) (m : JsMap V) :
  NoDup (Map_keys m) -> NoDup (Map_keys (filter f m)).
Proof.
  induction m as [|kv m IH]; simpl; [trivial|].
  intros Hnd. inversion Hnd as [|? ? Hnotin Hnd']; subst.
  destruct (f kv); simpl; [|auto].
  constructor; [|auto].
  intros Hin. apply Hnotin. eapply keys_filter_incl. exact Hin.
Qed.

Lemma wf_createUser (insertUser : InsertUser) (now : Z) (s : Store) :
  wf s -> wf (snd (createUser insertUser now s)).
Proof. intros [? ? ? ? ? ? ? ? ?]. constructor; simpl; assumption. Qed.

Lemma wf_createMessage (insertMessage : InsertMessage) (now : Z) (s : Store) :
  wf s -> wf (snd (createMessage insertMessage now s)).
Proof. intros [? ? ? ? ? ? ? ? ?]. constructor; simpl; assumption. Qed.

Lemma wf_createBook (insertBook : InsertBook) (sellerId now : Z) (s : Store) :
  wf s -> wf (snd (createBook insertBook sellerId now s)).
Proof.
  intros [H1 H2 H3 H4 H5 H6 H7 H8 H9]. constructor; simpl; try assumption.
  - now apply NoDup_keys_set.
  - intros k b Hin. apply In_Map_set in Hin.
    destruct Hin as [[-> ->]|Hin]; [reflexivity | auto].
  - intros k Hin. apply Map_keys_set_incl in Hin.
    destruct Hin as [->|Hin]; [lia | apply H3 in Hin; lia].
Qed.

Lemma wf_updateBook (id : number) (updateData : PartialInsertBook) (s : Store) :
  wf s -> wf (snd (updateBook id updateData s)).
Proof.
  intros Hwf. unfold updateBook, bind, gets, modify, ret.
  destruct id as [k|]; simpl; [|exact Hwf].
  destruct (Map_get k (books s)) as [b|] eqn:E; simpl; [|exact Hwf].
  destruct Hwf as [H1 H2 H3 H4 H5 H6 H7 H8 H9].
  constructor; simpl; try assumption.
  - now apply NoDup_keys_set.
  - intros k' b' Hin. apply In_Map_set in Hin.
    destruct Hin as [[-> ->]|Hin]; [|auto].
    simpl. apply H2. now apply Map_get_In.
  - intros k' Hin. erewrite Map_keys_set_present in Hin by exact E. auto.
Qed.

Lemma wf_deleteBook (id : number) (s : Store) :
  wf s -> wf (snd (deleteBook id s)).
Proof.
  intros [H1 H2 H3 H4 H5 H6 H7 H8 H9].
  destruct id as [k|]; constructor; simpl; try assumption.
  - now apply NoDup_keys_remove.
  - intros k' b Hin. apply In_Map_remove in Hin. apply H2. tauto.
  - intros k' Hin. apply Map_keys_remove_incl in Hin. auto.
Qed.

Lemma wf_addToCart (insertCartItem : InsertCartItem) (now : Z) (s : Store) :
  wf s -> wf (snd (addToCart insertCartItem now s)).
Proof.
  intros [H1 H2 H3 H4 H5 H6 H7 H8 H9]. constructor; simpl; try assumption.
  - now apply NoDup_keys_set.
  - intros k c Hin. apply In_Map_set in Hin.
    destruct Hin as [[-> ->]|Hin]; [reflexivity | auto].
  - intros k Hin. apply Map_keys_set_incl in Hin.
    destruct Hin as [->|Hin]; [lia | apply H9 in Hin; lia].
Qed.

Lemma wf_cart_delete (id : Z) (s : Store) :
  wf s -> wf (snd (cart_delete id s)).
Proof.
  intros [H1 H2 H3 H4 H5 H6 H7 H8 H9]. constructor; simpl; try assumption.
  - now apply NoDup_keys_remove.
  - intros k c Hin. apply In_Map_remove in Hin. apply H8. tauto.
  - intros k Hin. apply Map_keys_remove_incl in Hin. auto.
Qed.

Lemma wf_removeFromCart (buyerId : Z) (bookId : number) (s : Store) :
  wf s -> wf (snd (removeFromCart buyerId bookId s)).
Proof.
  intros Hwf. unfold removeFromCart, bind, gets.
  destruct (find _ _) as [item|]; [now apply wf_cart_delete | exact Hwf].
Qed.

Lemma wf_clearCart (buyerId : Z) (s : Store) :
  wf s -> wf (snd (clearCart buyerId s)).
Proof.
  intros Hwf.
  rewrite clearCart_closed by (apply Hwf).
  destruct Hwf as [H1 H2 H3 H4 H5 H6 H7 H8 H9].
  constructor; simpl; try assumption.
  - now apply NoDup_keys_filter.
  - intros k c Hin. apply filter_In in Hin. apply H8. tauto.
  - intros k Hin. apply keys_filter_incl in Hin. auto.
Qed.

Lemma wf_post_orders (total : JsValue) (now : Z) (user : JwtPayload)
  (s : Store) :
  wf s -> wf (snd (post_orders total now user s)).
Proof.
  intros Hwf.
  destruct (fst (getCartItems (userId user) s)) as [|c0 cart0] eqn:Ecart.
  { unfold post_orders, bind at 1.
    change (getCartItems (userId user) s)
      with (fst (getCartItems (userId user) s), s) at 1.
    rewrite Ecart. exact Hwf. }
  destruct (toString total) as [text|] eqn:Etext.
  2:{ unfold post_orders, bind at 1.
      change (getCartItems (userId user) s)
        with (fst (getCartItems (userId user) s), s) at 1.
      rewrite Ecart. cbv beta iota. simpl (Z.of_nat _ =? 0).
      rewrite Etext. exact Hwf. }
  assert (Hne : fst (getCartItems (userId user) s) <> [])
    by (rewrite Ecart; discriminate).
  rewrite (@checkout_closed total text now user s Hwf Hne Etext).
  rewrite Ecart. remember (c0 :: cart0) as cart eqn:Hc. clear Hc Ecart Hne.
  destruct Hwf as [H1 H2 H3 H4 H5 H6 H7 H8 H9].
  assert (Hkeys : NoDup (Map_keys (sold_books cart (books s))))
    by (now rewrite sold_books_keys).
  constructor; simpl; try assumption.
  - intros k b Hin. apply (@In_Map_get _ _ _ _ Hkeys) in Hin.
    rewrite sold_books_get in Hin.
    destruct (Map_get k (books s)) as [b0|] eqn:E0; [|discriminate].
    apply Map_get_In in E0. apply H2 in E0. simpl in Hin.
    injection Hin as <-. destruct (references cart k); [|exact E0].
    destruct b0; simpl in *. exact E0.
  - intros k Hin. rewrite sold_books_keys in Hin. auto.
  - intros k Hin. unfold Map_keys in Hin. rewrite map_app in Hin.
    apply in_app_or in Hin. destruct Hin as [Hin|[<-|[]]]; [|simpl; lia].
    apply H4 in Hin. lia.
  - intros k Hin. unfold Map_keys in Hin. rewrite map_app in Hin.
    apply in_app_or in Hin. destruct Hin as [Hin|Hin].
    + apply H5 in Hin. lia.
    + fold (Map_keys (keyed (lines_for (currentOrderId s)
        (currentOrderItemId s) (books s) cart))) in Hin.
      rewrite Map_keys_keyed in Hin. apply in_map_iff in Hin.
      destruct Hin as [i [<- Hi]]. apply lines_for_ids in Hi. lia.
  - intros i Hin. unfold Map_values in Hin. rewrite map_app in Hin.
    apply in_app_or in Hin. destruct Hin as [Hin|Hin].
    + apply H6 in Hin. lia.
    + fold (Map_values (keyed (lines_for (currentOrderId s)
        (currentOrderItemId s) (books s) cart))) in Hin.
      rewrite Map_values_keyed in Hin. apply lines_for_order in Hin. lia.
  - now apply NoDup_keys_filter.
  - intros k c Hin. apply filter_In in Hin. apply H8. tauto.
  - intros k Hin. apply keys_filter_incl in Hin. auto.
Qed.

Lemma wf_post_books (parsed : option InsertBook) (now : Z) (user : JwtPayload)
  (s : Store) :
  wf s -> wf (snd (post_books parsed now user s)).
Proof.
  intros Hwf. unfold post_books.
  destruct (negb _); [exact Hwf|].
  destruct parsed as [bookData|]; [|exact Hwf].
  apply (wf_createBook bookData (userId user) now Hwf).
Qed.

Lemma wf_put_book (id : number) (parsed : option PartialInsertBook)
  (user : JwtPayload) (s : Store) :
  wf s -> wf (snd (put_book id parsed user s)).
Proof.
  intros Hwf. unfold put_book, bind at 1, getBook, gets.
  destruct (Map_get_number id (books s)) as [b|]; [|exact Hwf].
  destruct (negb _); [exact Hwf|].
  destruct parsed as [bookData|]; [|exact Hwf].
  pose proof (wf_updateBook id bookData Hwf) as H.
  unfold bind. destruct (updateBook id bookData s) as [[u|] s1]; exact H.
Qed.

Lemma wf_delete_book (id : number) (user : JwtPayload) (s : Store) :
  wf s -> wf (snd (delete_book id user s)).
Proof.
  intros Hwf. unfold delete_book, bind at 1, getBook, gets.
  destruct (Map_get_number id (books s)) as [b|]; [|exact Hwf].
  destruct (negb _); [exact Hwf|].
  apply (wf_deleteBook id Hwf).
Qed.

Lemma wf_post_cart (bookId : number) (now : Z) (user : JwtPayload)
  (s : Store) :
  wf s -> wf (snd (post_cart bookId now user s)).
Proof.
  intros Hwf.
  apply (wf_addToCart {| ici_buyerId := userId user; ici_bookId := bookId |}
           now Hwf).
Qed.

Lemma wf_delete_cart (bookId : number) (user : JwtPayload) (s : Store) :
  wf s -> wf (snd (delete_cart bookId user s)).
Proof.
  intros Hwf. pose proof (wf_removeFromCart (userId user) bookId Hwf) as H.
  unfold delete_cart, bind.
  destruct (removeFromCart (userId user) bookId s) as [r s1]. exact H.
Qed.

Lemma wf_post_messages (parsed : option InsertMessage) (now : Z)
  (user : JwtPayload) (s : Store) :
  wf s -> wf (snd (post_messages parsed now user s)).
Proof.
  intros Hwf. unfold post_messages.
  destruct parsed as [data|]; [|exact Hwf].
  apply (wf_createMessage
           {| im_senderId := userId user; im_receiverId := im_receiverId data;
              im_bookId := im_bookId data; im_content := im_content data |}
           now Hwf).
Qed.

Lemma wf_cart_ops (ops : list CartOp) (s : Store) :
  wf s -> wf (cart_ops ops s).
Proof.
  revert s. unfold cart_ops.
  induction ops as [|op ops IH]; intros s Hwf; simpl; [exact Hwf|].
  apply IH. destruct op as [u k now|u k]; unfold cart_op.
  - now apply wf_post_cart.
  - now apply wf_delete_cart.
Qed.

(** The gate passes the store on untouched: either it answers itself or
    the handler runs on the very same store. *)
Lemma authenticated_cases (jwt_verify : string -> option JwtPayload)
  (handler : JwtPayload -> M Response) (authorization : option string)
  (s : Store) :
  (exists rejected,
      authenticateToken jwt_verify authorization = inl rejected
      /\ authenticated jwt_verify handler authorization s = (rejected, s))
  \/ (exists user,
      authenticateToken jwt_verify authorization = inr user
      /\ authenticated jwt_verify handler authorization s = handler user s).
Proof.
  unfold authenticated.
  destruct (authenticateToken jwt_verify authorization) as [r|u].
  - left. exists r. split; reflexivity.
  - right. exists u. split; reflexivity.
Qed.

(** ** Checkout *)

Lemma getBook_fst (id : number) (s : Store) :
  fst (getBook id s) = Map_get_number id (books s).
Proof. reflexivity. Qed.

Lemma references_in (cart : list CartItem) (c : CartItem) (k : Z) :
  In c cart -> ci_bookId c = Num k -> references cart k = true.
Proof.
  intros Hin Hk. unfold references. apply existsb_exists.
  exists c. split; [exact Hin|]. rewrite Hk. simpl. apply Z.eqb_refl.
Qed.

(** A listed entry of the cart is sold by the checkout. *)
Lemma checkout_sells (total : JsValue) (text : string) (now : Z)
  (user : JwtPayload) (s : Store) (c : CartItem) :
  wf s ->
  toString total = Some text ->
  In c (fst (getCartItems (userId user) s)) ->
  listed s c = true ->
  exists b, fst (getBook (ci_bookId c) s) = Some b
            /\ fst (getBook (ci_bookId c) (snd (post_orders total now user s)))
               = Some (mark_sold b).
Proof.
  intros Hwf Htext Hin Hlisted.
  assert (Hne : fst (getCartItems (userId user) s) <> [])
    by (intros E; rewrite E in Hin; exact Hin).
  destruct (@checkout_outcome total text now user s Hwf Hne Htext)
    as (_ & _ & _ & _ & Hbooks & _).
  unfold listed in Hlisted. rewrite !getBook_fst in *.
  destruct (ci_bookId c) as [k|] eqn:Ek; simpl in *; [|discriminate].
  destruct (Map_get k (books s)) as [b|] eqn:Eb; [|discriminate].
  exists b. split; [reflexivity|].
  rewrite Hbooks, Eb. simpl.
  now rewrite (@references_in _ _ _ Hin Ek).
Qed.

(** C1. A buyer with a cart of N entries, all of them referencing listings
    in the store, checks out with a total the handler can render as text:
    the answer is 201 with the created order; that order is the one order
    added, it is completed, belongs to the buyer and stores the total as
    supplied; the N order lines added are the lines of that order, in cart
    order, each with the listing and the listing's price at checkout; each
    referenced listing is now unavailable; the buyer's cart is empty. *)
Theorem checkout_creates_order (total : JsValue) (text : string) (now : Z)
  (user : JwtPayload) (s : Store) :
  wf s ->
  toString total = Some text ->
  fst (getCartItems (userId user) s) <> [] ->
  (forall c, In c (fst (getCartItems (userId user) s)) ->
             fst (getBook (ci_bookId c) s) <> None) ->
  let cart := fst (getCartItems (userId user) s) in
  let s' := snd (post_orders total now user s) in
  exists order,
    fst (post_orders total now user s)
    = {| status := 201; body := JsonOrder order |}
    /\ o_status order = "completed"%string
    /\ o_total order = text
    /\ o_buyerId order = userId user
    /\ Map_values (orders s') = Map_values (orders s) ++ [order]
    /\ Map_values (orderItems s')
       = Map_values (orderItems s) ++ fst (getOrderItems (o_id order) s')
    /\ List.length (fst (getOrderItems (o_id order) s')) = List.length cart
    /\ map (fun i => (oi_bookId i, Some (oi_price i)))
           (fst (getOrderItems (o_id order) s'))
       = map (fun c => (ci_bookId c,
                        option_map b_price (fst (getBook (ci_bookId c) s))))
             cart
    /\ (forall c, In c cart ->
          exists b, fst (getBook (ci_bookId c) s') = Some b
                    /\ b_isAvailable b = Some false)
    /\ fst (getCartItems (userId user) s') = [].
Proof.
  intros Hwf Htext Hne Hall. cbv zeta.
  destruct (@checkout_outcome total text now user s Hwf Hne Htext)
    as (Hresp & Horders & Hitems & Hlines & _ & _ & Hcart).
  assert (Hlisted : filter (listed s) (fst (getCartItems (userId user) s))
                    = fst (getCartItems (userId user) s)).
  { apply filter_all. intros c Hin. unfold listed.
    specialize (Hall c Hin).
    destruct (fst (getBook (ci_bookId c) s)); [reflexivity | contradiction]. }
  rewrite Hlisted in Hlines.
  eexists. split; [exact Hresp|].
  split; [reflexivity|]. split; [reflexivity|]. split; [reflexivity|].
  split; [exact Horders|]. split; [exact Hitems|].
  split; [|split; [exact Hlines|split; [|exact Hcart]]].
  - rewrite <- (length_map (fun i => (oi_bookId i, Some (oi_price i)))).
    rewrite Hlines. apply length_map.
  - intros c Hin.
    assert (Hl : listed s c = true).
    { unfold listed. specialize (Hall c Hin).
      destruct (fst (getBook (ci_bookId c) s)); [reflexivity | contradiction]. }
    destruct (@checkout_sells total text now user s c Hwf Htext Hin Hl)
      as (b & _ & Hb).
    exists (mark_sold b). split; [exact Hb | reflexivity].
Qed.

Lemma checkout_creates_order_witness :
  exists order,
    fst (post_orders (JsNumber "24.49") 50 buyer carted)
    = {| status := 201; body := JsonOrder order |}
    /\ o_total order = "24.49"%string
    /\ map oi_price (fst (getOrderItems (o_id order)
                            (snd (post_orders (JsNumber "24.49") 50 buyer
                                    carted))))
       = ["12.50"; "8.00"]%string.
Proof.
  destruct (@checkout_creates_order (JsNumber "24.49") "24.49" 50 buyer carted)
    as (order & Hresp & _ & Htotal & _).
  - apply wf_check_sound. vm_compute. reflexivity.
  - reflexivity.
  - vm_compute. discriminate.
  - intros c Hin. vm_compute in Hin.
    destruct Hin as [<-|[<-|[]]]; vm_compute; discriminate.
  - exists order. split; [exact Hresp|]. split; [exact Htotal|].
    vm_compute in Hresp. injection Hresp as <-. vm_compute. reflexivity.
Defined.

(** C4. Checkout with an empty cart answers 400 "Cart is empty" and hands
    the store back as it was, so no order and no order line is created;
    whatever the request carries as total. *)
Theorem checkout_empty_cart_rejected (total : JsValue) (now : Z)
  (user : JwtPayload) (s : Store) :
  fst (getCartItems (userId user) s) = [] ->
  post_orders total now user s
  = ({| status := 400; body := JsonMessage "Cart is empty" |}, s).
Proof.
  intros Hempty. unfold post_orders, bind at 1.
  change (getCartItems (userId user) s)
    with (fst (getCartItems (userId user) s), s) at 1.
  rewrite Hempty. reflexivity.
Qed.

(** With entries in the cart but no total that can be rendered, the
    handler's [catch] answers 400 before anything is written. *)
Lemma checkout_without_total (total : JsValue) (now : Z) (user : JwtPayload)
  (s : Store) :
  fst (getCartItems (userId user) s) <> [] ->
  toString total = None ->
  post_orders total now user s
  = ({| status := 400; body := JsonFailure "Failed to create order" |}, s).
Proof.
  intros Hne Hnone. unfold post_orders, bind at 1.
  change (getCartItems (userId user) s)
    with (fst (getCartItems (userId user) s), s) at 1.
  destruct (fst (getCartItems (userId user) s)); [contradiction|].
  cbv beta iota. simpl (Z.of_nat _ =? 0). now rewrite Hnone.
Qed.

Lemma checkout_empty_cart_rejected_witness :
  post_orders (JsNumber "24.49") 50 buyer shop
  = ({| status := 400; body := JsonMessage "Cart is empty" |}, shop)
  /\ orders (snd (post_orders (JsNumber "24.49") 50 buyer shop)) = []
  /\ orderItems (snd (post_orders (JsNumber "24.49") 50 buyer shop)) = [].
Proof.
  assert (H := @checkout_empty_cart_rejected (JsNumber "24.49") 50 buyer shop
                 eq_refl).
  split; [exact H|]. rewrite H. split; reflexivity.
Defined.

Lemma listed_by_bookId (s : Store) (c c' : CartItem) :
  ci_bookId c = ci_bookId c' -> listed s c = listed s c'.
Proof. unfold listed. now intros ->. Qed.

(** C5. When the listing of a cart entry is absent from the store, checkout
    still answers 201 with the one order it created; the order has no line
    for that listing and the listing stays absent (nothing is updated for
    it); the lines created are those of the entries whose listing exists,
    each such listing is marked unavailable, and the cart is cleared. *)
Theorem checkout_skips_vanished_listing (total : JsValue) (text : string)
  (now : Z) (user : JwtPayload) (s : Store) (c : CartItem) :
  wf s ->
  toString total = Some text ->
  In c (fst (getCartItems (userId user) s)) ->
  fst (getBook (ci_bookId c) s) = None ->
  let cart := fst (getCartItems (userId user) s) in
  let s' := snd (post_orders total now user s) in
  exists order,
    fst (post_orders total now user s)
    = {| status := 201; body := JsonOrder order |}
    /\ Map_values (orders s') = Map_values (orders s) ++ [order]
    /\ ~ In (ci_bookId c)
            (map oi_bookId (fst (getOrderItems (o_id order) s')))
    /\ fst (getBook (ci_bookId c) s') = None
    /\ Map_values (orderItems s')
       = Map_values (orderItems s) ++ fst (getOrderItems (o_id order) s')
    /\ map (fun i => (oi_bookId i, Some (oi_price i)))
           (fst (getOrderItems (o_id order) s'))
       = map (fun c' => (ci_bookId c',
                         option_map b_price (fst (getBook (ci_bookId c') s))))
             (filter (listed s) cart)
    /\ (forall c', In c' cart -> listed s c' = true ->
          exists b, fst (getBook (ci_bookId c') s') = Some b
                    /\ b_isAvailable b = Some false)
    /\ fst (getCartItems (userId user) s') = [].
Proof.
  intros Hwf Htext Hin Habsent. cbv zeta.
  assert (Hne : fst (getCartItems (userId user) s) <> [])
    by (intros E; rewrite E in Hin; exact Hin).
  destruct (@checkout_outcome total text now user s Hwf Hne Htext)
    as (Hresp & Horders & Hitems & Hlines & Hbooks & _ & Hcart).
  eexists. split; [exact Hresp|]. split; [exact Horders|].
  split; [|split; [|split; [exact Hitems|split; [exact Hlines|
                   split; [|exact Hcart]]]]].
  - intros Hline.
    rewrite <- (map_map (fun i => (oi_bookId i, Some (oi_price i))) fst)
      in Hline.
    rewrite Hlines, map_map in Hline. simpl in Hline.
    apply in_map_iff in Hline. destruct Hline as [c' [Hsame Hc']].
    apply filter_In in Hc'. destruct Hc' as [_ Hl].
    rewrite (listed_by_bookId s _ _ Hsame) in Hl.
    unfold listed in Hl. rewrite Habsent in Hl. discriminate.
  - rewrite getBook_fst in *.
    destruct (ci_bookId c) as [k|]; simpl in *; [|reflexivity].
    rewrite Hbooks, Habsent. reflexivity.
  - intros c' Hin' Hl.
    destruct (@checkout_sells total text now user s c' Hwf Htext Hin' Hl)
      as (b & _ & Hb).
    exists (mark_sold b). split; [exact Hb | reflexivity].
Qed.

Lemma checkout_skips_vanished_listing_witness :
  exists order,
    fst (post_orders (JsNumber "12.50") 60 buyer vanished)
    = {| status := 201; body := JsonOrder order |}
    /\ map oi_bookId
         (fst (getOrderItems (o_id order)
                 (snd (post_orders (JsNumber "12.50") 60 buyer vanished))))
       = [Num 1]
    /\ fst (getCartItems (userId buyer)
              (snd (post_orders (JsNumber "12.50") 60 buyer vanished))) = [].
Proof.
  destruct (@checkout_skips_vanished_listing (JsNumber "12.50") "12.50" 60
              buyer vanished
              {| ci_id := 2; ci_buyerId := 2; ci_bookId := Num 2;
                 ci_addedAt := 40 |})
    as (order & Hresp & _ & _ & _ & _ & _ & _ & Hcart).
  - apply wf_check_sound. vm_compute. reflexivity.
  - reflexivity.
  - vm_compute. right. left. reflexivity.
  - vm_compute. reflexivity.
  - exists order. split; [exact Hresp|]. split; [|exact Hcart].
    vm_compute in Hresp. injection Hresp as <-. vm_compute. reflexivity.
Defined.

(** ** Captured prices *)

Lemma updateBook_orderItems (id : number) (updateData : PartialInsertBook)
  (s : Store) :
  orderItems (snd (updateBook id updateData s)) = orderItems s.
Proof.
  unfold updateBook, bind, gets, modify, ret.
  destruct id as [k|]; simpl; [|reflexivity].
  destruct (Map_get k (books s)); reflexivity.
Qed.

Lemma book_updates_orderItems (updates : list (number * PartialInsertBook))
  (s : Store) :
  orderItems (book_updates updates s) = orderItems s.
Proof.
  revert s. unfold book_updates.
  induction updates as [|u updates IH]; intros s; simpl; [reflexivity|].
  rewrite IH. apply updateBook_orderItems.
Qed.

Lemma put_book_orderItems (id : number) (parsed : option PartialInsertBook)
  (user : JwtPayload) (s : Store) :
  orderItems (snd (put_book id parsed user s)) = orderItems s.
Proof.
  unfold put_book, bind at 1, getBook, gets.
  destruct (Map_get_number id (books s)) as [b|]; [|reflexivity].
  destruct (negb _); [reflexivity|].
  destruct parsed as [bookData|]; [|reflexivity].
  pose proof (updateBook_orderItems id bookData s) as H.
  unfold bind. destruct (updateBook id bookData s) as [[u|] s1]; exact H.
Qed.

(** C6. The order lines a checkout adds are the lines of its order, and
    each carries the price its listing had in the store the checkout
    started from; whatever partial updates of listings follow, by
    [updateBook] or through the PUT route, price edits included, the order
    lines of every order, prices included, stay as they were. *)
Theorem order_line_price_captured (total : JsValue) (text : string) (now : Z)
  (user : JwtPayload) (s : Store)
  (updates : list (number * PartialInsertBook)) :
  wf s ->
  toString total = Some text ->
  fst (getCartItems (userId user) s) <> [] ->
  let s' := snd (post_orders total now user s) in
  let lines := fst (getOrderItems (currentOrderId s) s') in
  Map_values (orderItems s') = Map_values (orderItems s) ++ lines
  /\ (forall i, In i lines ->
        exists b, fst (getBook (oi_bookId i) s) = Some b
                  /\ oi_price i = b_price b)
  /\ orderItems (book_updates updates s') = orderItems s'
  /\ (forall id parsed owner,
        orderItems (snd (put_book id parsed owner s')) = orderItems s')
  /\ (forall orderId,
        fst (getOrderItems orderId (book_updates updates s'))
        = fst (getOrderItems orderId s'))
  /\ (forall i, In i lines ->
        In i (fst (getOrderItems (currentOrderId s)
                     (book_updates updates s')))).
Proof.
  intros Hwf Htext Hne. cbv zeta.
  destruct (@checkout_outcome total text now user s Hwf Hne Htext)
    as (_ & _ & Hitems & Hlines & _).
  simpl o_id in Hlines, Hitems.
  assert (Hsame : forall orderId,
    fst (getOrderItems orderId
           (book_updates updates (snd (post_orders total now user s))))
    = fst (getOrderItems orderId (snd (post_orders total now user s)))).
  { intros orderId. unfold getOrderItems, gets. simpl.
    now rewrite book_updates_orderItems. }
  split; [exact Hitems|].
  split; [|split; [apply book_updates_orderItems|
           split; [intros id parsed owner; apply put_book_orderItems|
           split; [exact Hsame|]]]].
  - intros i Hin.
    apply (in_map (fun i => (oi_bookId i, Some (oi_price i)))) in Hin.
    rewrite Hlines in Hin. apply in_map_iff in Hin.
    destruct Hin as [c [Heq _]]. injection Heq as Hbook Hprice.
    rewrite <- Hbook, getBook_fst.
    destruct (Map_get_number (ci_bookId c) (books s)) as [b|];
      simpl in Hprice; [|discriminate].
    exists b. split; [reflexivity|]. congruence.
  - intros i Hin. now rewrite Hsame.
Qed.

Lemma order_line_price_captured_witness :
  map oi_price
    (fst (getOrderItems 1
       (book_updates
          [(Num 1, {| pb_title := None; pb_author := None;
                      pb_description := None; pb_price := Some "99.00"%string;
                      pb_condition := None; pb_category := None;
                      pb_imageUrl := None; pb_isAvailable := None |})]
          (snd (post_orders (JsNumber "24.49") 50 buyer carted)))))
  = ["12.50"; "8.00"]%string
  /\ option_map b_price
       (fst (getBook (Num 1)
          (book_updates
             [(Num 1, {| pb_title := None; pb_author := None;
                         pb_description := None;
                         pb_price := Some "99.00"%string;
                         pb_condition := None; pb_category := None;
                         pb_imageUrl := None; pb_isAvailable := None |})]
             (snd (post_orders (JsNumber "24.49") 50 buyer carted)))))
     = Some "99.00"%string.
Proof.
  destruct (@order_line_price_captured (JsNumber "24.49") "24.49" 50 buyer
              carted
              [(Num 1, {| pb_title := None; pb_author := None;
                          pb_description := None;
                          pb_price := Some "99.00"%string;
                          pb_condition := None; pb_category := None;
                          pb_imageUrl := None; pb_isAvailable := None |})])
    as (_ & _ & _ & _ & Hsame & _).
  - apply wf_check_sound. vm_compute. reflexivity.
  - reflexivity.
  - vm_compute. discriminate.
  - split; [|vm_compute; reflexivity].
    rewrite Hsame. vm_compute. reflexivity.
Defined.

(** ** Availability *)

Lemma getBooks_available (filters : option Filters) (s : Store) (x : Book) :
  In x (fst (getBooks filters s)) ->
  In x (Map_values (books s)) /\ available x = true.
Proof.
  unfold getBooks, gets. simpl.
  remember (filter available (Map_values (books s))) as books0 eqn:E0.
  intros Hin.
  assert (H0 : In x books0).
  { destruct (optional filters f_search) as [[|? ?]|];
    destruct (optional filters f_condition) as [[|? ?]|];
    destruct (optional filters f_category) as [[|? ?]|];
    repeat (apply filter_In in Hin; destruct Hin as [Hin _]);
    exact Hin. }
  rewrite E0 in H0. apply filter_In in H0. exact H0.
Qed.

(** C7. Once a checkout has consumed a listing, the store holds it with
    its availability flag false, and the fetch of available listings on
    that store, with any filters or none and through the route as well,
    returns no book with that listing's id; a fetch leaves the store as
    it is, so the next fetch reads the same. *)
Theorem sold_listing_not_available (total : JsValue) (text : string) (now : Z)
  (user : JwtPayload) (s : Store) (c : CartItem) (b : Book)
  (filters : option Filters) (category condition search : option string) :
  wf s ->
  toString total = Some text ->
  In c (fst (getCartItems (userId user) s)) ->
  fst (getBook (ci_bookId c) s) = Some b ->
  let s' := snd (post_orders total now user s) in
  (exists b', fst (getBook (ci_bookId c) s') = Some b'
              /\ b_id b' = b_id b
              /\ b_isAvailable b' = Some false)
  /\ (forall x, In x (fst (getBooks filters s')) -> b_id x <> b_id b)
  /\ snd (getBooks filters s') = s'
  /\ (exists found,
        fst (get_books category condition search s')
        = {| status := 200; body := JsonBooks found |}
        /\ forall x, In x found -> b_id x <> b_id b).
Proof.
  intros Hwf Htext Hin Hb. cbv zeta.
  assert (Hl : listed s c = true) by (unfold listed; now rewrite Hb).
  destruct (@checkout_sells total text now user s c Hwf Htext Hin Hl)
    as (b0 & Hb0 & Hsold).
  rewrite Hb in Hb0. injection Hb0 as <-.
  pose proof (wf_post_orders total now user Hwf) as Hwf'.
  assert (Hexcl : forall f x,
    In x (fst (getBooks f (snd (post_orders total now user s)))) ->
    b_id x <> b_id b).
  { intros f x Hx Hid. apply getBooks_available in Hx.
    destruct Hx as [Hx Hav]. unfold Map_values in Hx.
    apply in_map_iff in Hx. destruct Hx as [[k x'] [Hx' Hkx]].
    simpl in Hx'. subst x'.
    pose proof (wf_books_id Hwf' _ _ Hkx) as Hk.
    rewrite getBook_fst in Hb, Hsold.
    destruct (ci_bookId c) as [kc|]; simpl in Hb, Hsold; [|discriminate].
    pose proof (wf_books_id Hwf _ _ (Map_get_In _ _ Hb)) as Hkc.
    assert (Ek : k = kc) by congruence. rewrite Ek in Hkx.
    apply (@In_Map_get _ _ _ _ (wf_books_keys Hwf')) in Hkx.
    rewrite Hkx in Hsold. injection Hsold as ->.
    discriminate Hav. }
  split; [|split; [|split]].
  - exists (mark_sold b). split; [exact Hsold|]. split; reflexivity.
  - apply Hexcl.
  - reflexivity.
  - eexists. split; [reflexivity|]. apply Hexcl.
Qed.

Lemma sold_listing_not_available_witness :
  map b_id (fst (getBooks None (snd (post_orders (JsNumber "24.49") 50 buyer
                                        carted)))) = []
  /\ forall x,
       In x (fst (getBooks (Some {| f_category := Some "fiction"%string;
                                    f_condition := None;
                                    f_search := Some "first"%string |})
                    (snd (post_orders (JsNumber "24.49") 50 buyer carted)))) ->
       b_id x <> 1.
Proof.
  split; [vm_compute; reflexivity|].
  refine (proj1 (proj2 (@sold_listing_not_available (JsNumber "24.49") "24.49"
    50 buyer carted
    {| ci_id := 1; ci_buyerId := 2; ci_bookId := Num 1; ci_addedAt := 30 |}
    first_book
    (Some {| f_category := Some "fiction"%string; f_condition := None;
             f_search := Some "first"%string |})
    None None None _ _ _ _))).
  - apply wf_check_sound. vm_compute. reflexivity.
  - reflexivity.
  - vm_compute. left. reflexivity.
  - vm_compute. reflexivity.
Defined.

Lemma get_book_cases (id : number) (s : Store) :
  match Map_get_number id (books s) with
  | Some b => get_book id s = ({| status := 200; body := JsonBook b |}, s)
  | None =>
      get_book id s
      = ({| status := 404; body := JsonMessage "Book not found" |}, s)
  end.
Proof.
  unfold get_book, getBook, bind, gets, ret, json.
  destruct (Map_get_number id (books s)); reflexivity.
Qed.

Lemma held_book_lookup (s : Store) (b : Book) :
  wf s -> In b (Map_values (books s)) ->
  Map_get (b_id b) (books s) = Some b.
Proof.
  intros Hwf Hin. unfold Map_values in Hin. apply in_map_iff in Hin.
  destruct Hin as [[k b'] [Hb Hin]]. simpl in Hb. subst b'.
  rewrite (wf_books_id Hwf _ _ Hin).
  apply In_Map_get; [apply Hwf | exact Hin].
Qed.

(** C9. Fetching a listing by id looks at presence only: every book the
    store holds, whatever its availability flag, is returned by [getBook]
    under its id and by the route with status 200; the route answers 404
    exactly for an id under which the store holds no book; the store is
    left as it was. *)
Theorem get_book_ignores_availability (s : Store) (b : Book) :
  wf s ->
  In b (Map_values (books s)) ->
  getBook (Num (b_id b)) s = (Some b, s)
  /\ get_book (Num (b_id b)) s = ({| status := 200; body := JsonBook b |}, s)
  /\ (forall id,
        status (fst (get_book id s)) = 404
        <-> (forall x, In x (Map_values (books s)) -> Num (b_id x) <> id))
  /\ (forall id, snd (get_book id s) = s).
Proof.
  intros Hwf Hin.
  pose proof (@held_book_lookup s b Hwf Hin) as Hget.
  split; [unfold getBook, gets; simpl; now rewrite Hget|].
  split.
  { pose proof (get_book_cases (Num (b_id b)) s) as H. simpl in H.
    now rewrite Hget in H. }
  split.
  - intros id. pose proof (get_book_cases id s) as H.
    destruct (Map_get_number id (books s)) as [b0|] eqn:E; rewrite H; simpl.
    + split; [discriminate|]. intros Hnone. exfalso.
      destruct id as [k|]; simpl in E; [|discriminate].
      apply Map_get_In in E.
      apply (Hnone b0).
      * unfold Map_values. change b0 with (snd (k, b0)). now apply in_map.
      * now rewrite (wf_books_id Hwf _ _ E).
    + split; [|reflexivity]. intros _ x Hx Hid.
      apply (@held_book_lookup s x Hwf) in Hx. subst id. simpl in E. congruence.
  - intros id. pose proof (get_book_cases id s) as H.
    destruct (Map_get_number id (books s)); now rewrite H.
Qed.

Lemma get_book_sold_listing :
  get_book (Num 1) (snd (post_orders (JsNumber "24.49") 50 buyer carted))
  = ({| status := 200; body := JsonBook (mark_sold first_book) |},
     snd (post_orders (JsNumber "24.49") 50 buyer carted))
  /\ b_isAvailable (mark_sold first_book) = Some false.
Proof.
  split; [|reflexivity].
  change (Num 1) with (Num (b_id (mark_sold first_book))).
  apply (@get_book_ignores_availability
           (snd (post_orders (JsNumber "24.49") 50 buyer carted))
           (mark_sold first_book)).
  - apply wf_check_sound. vm_compute. reflexivity.
  - vm_compute. left. reflexivity.
Defined.

(** ** Deleting a listing *)

(** C10. Deleting a listing removes the book held under that id and
    nothing else: the other books, the orders, the order lines and the
    cart entries stay; so every buyer's cart reads as before, through the
    storage call and through the route whatever it answers, and an entry
    that referenced the deleted listing is still in the cart and now
    references no listing. *)
Theorem delete_book_keeps_cart_entries (id : number) (user : JwtPayload)
  (buyerId : Z) (s : Store) :
  let s' := snd (deleteBook id s) in
  fst (getBook id s') = None
  /\ (forall other, other <> id ->
        fst (getBook other s') = fst (getBook other s))
  /\ cartItems s' = cartItems s
  /\ orders s' = orders s
  /\ orderItems s' = orderItems s
  /\ fst (getCartItems buyerId s') = fst (getCartItems buyerId s)
  /\ fst (getCartItems buyerId (snd (delete_book id user s)))
     = fst (getCartItems buyerId s)
  /\ (forall c, In c (fst (getCartItems buyerId s)) -> ci_bookId c = id ->
        In c (fst (getCartItems buyerId s')) /\ listed s' c = false).
Proof.
  cbv zeta.
  assert (Hgone : fst (getBook id (snd (deleteBook id s))) = None).
  { destruct id as [k|]; simpl; [apply Map_get_remove_same | reflexivity]. }
  split; [exact Hgone|].
  split.
  { intros other Hne. rewrite !getBook_fst.
    destruct id as [k|]; [|reflexivity].
    destruct other as [k'|]; [|reflexivity].
    simpl. apply Map_get_remove_other. congruence. }
  repeat (split; [reflexivity|]).
  split.
  { unfold delete_book, bind, getBook, gets, ret.
    destruct (Map_get_number id (books s)) as [b|]; [|reflexivity].
    destruct (negb _); reflexivity. }
  intros c Hin Hid. split; [exact Hin|].
  unfold listed. rewrite Hid, Hgone. reflexivity.
Qed.

(** ** The cart *)

Lemma entry_ids_of_selection (keep : CartItem -> bool)
  (items : list CartItem) :
  NoDup (map ci_id items) -> NoDup (map ci_id (filter keep items)).
Proof.
  intros Hnd. induction items as [|item items IH]; simpl in *; [exact Hnd|].
  apply NoDup_cons_iff in Hnd. destruct Hnd as [Hfresh Hrest].
  destruct (keep item); simpl; [|now apply IH].
  apply NoDup_cons_iff. split; [|now apply IH].
  intros Hin. apply Hfresh. apply in_map_iff in Hin.
  destruct Hin as [other [Hid Hother]]. apply filter_In in Hother.
  rewrite <- Hid. apply in_map. tauto.
Qed.

Lemma cart_ids_are_keys (s : Store) :
  wf s -> map ci_id (Map_values (cartItems s)) = Map_keys (cartItems s).
Proof.
  intros Hwf. unfold Map_values, Map_keys. rewrite map_map.
  apply map_ext_in. intros [k c] Hin. simpl. apply (wf_cart_id Hwf _ _ Hin).
Qed.

Lemma post_cart_appends (bookId : number) (now : Z) (user : JwtPayload)
  (s : Store) :
  wf s ->
  cartItems (snd (post_cart bookId now user s))
  = cartItems s
    ++ [(currentCartItemId s,
         {| ci_id := currentCartItemId s; ci_buyerId := userId user;
            ci_bookId := bookId; ci_addedAt := now |})].
Proof.
  intros Hwf. simpl. apply Map_set_fresh.
  apply Map_get_None_keys. intros Hin.
  apply (wf_cart_fresh Hwf) in Hin. lia.
Qed.

(** C2, as the code has it. After any run of add-to-cart and
    remove-from-cart requests the entries of a buyer's cart have pairwise
    distinct entry ids; add-to-cart answers 201 and appends one new entry
    to the caller's cart whether or not the cart already references that
    listing, so a listing may be referenced by several entries. *)
Theorem cart_entry_ids_distinct (ops : list CartOp) (s : Store)
  (buyerId : Z) (user : JwtPayload) (bookId : number) (now : Z) :
  wf s ->
  let s1 := cart_ops ops s in
  let added := {| ci_id := currentCartItemId s1; ci_buyerId := userId user;
                  ci_bookId := bookId; ci_addedAt := now |} in
  NoDup (map ci_id (fst (getCartItems buyerId s1)))
  /\ fst (post_cart bookId now user s1)
     = {| status := 201; body := JsonCartItem added |}
  /\ fst (getCartItems (userId user) (snd (post_cart bookId now user s1)))
     = fst (getCartItems (userId user) s1) ++ [added].
Proof.
  intros Hwf. cbv zeta.
  pose proof (wf_cart_ops ops Hwf) as Hwf1.
  split; [|split].
  - unfold getCartItems, gets. simpl. apply entry_ids_of_selection.
    rewrite cart_ids_are_keys by exact Hwf1. apply Hwf1.
  - reflexivity.
  - unfold getCartItems, gets. cbv beta. unfold fst at 1.
    rewrite post_cart_appends by exact Hwf1.
    unfold Map_values. rewrite map_app, filter_app. simpl.
    now rewrite Z.eqb_refl.
Qed.

Lemma cart_entry_ids_distinct_witness :
  NoDup (map ci_id
           (fst (getCartItems 2
                   (cart_ops [AddToCart buyer (Num 1) 30;
                              AddToCart buyer (Num 1) 31;
                              RemoveFromCart buyer (Num 2)] shop))))
  /\ map ci_bookId
       (fst (getCartItems 2
               (snd (post_cart (Num 1) 32 buyer
                       (cart_ops [AddToCart buyer (Num 1) 30;
                                  AddToCart buyer (Num 1) 31;
                                  RemoveFromCart buyer (Num 2)] shop)))))
     = [Num 1; Num 1; Num 1].
Proof.
  destruct (@cart_entry_ids_distinct
              [AddToCart buyer (Num 1) 30; AddToCart buyer (Num 1) 31;
               RemoveFromCart buyer (Num 2)]
              shop 2 buyer (Num 1) 32) as (Hnd & _ & Happ).
  - apply wf_check_sound. vm_compute. reflexivity.
  - split; [exact Hnd|]. change 2 with (userId buyer) at 1.
    rewrite Happ. vm_compute. reflexivity.
Defined.

(** C2 as stated fails: the same buyer adds the same listing twice and the
    cart then holds two entries that reference it. *)
Lemma cart_holds_listing_twice :
  let s := snd (post_cart (Num 1) 31 buyer
                  (snd (post_cart (Num 1) 30 buyer shop))) in
  map ci_bookId (fst (getCartItems (userId buyer) s)) = [Num 1; Num 1]
  /\ ~ NoDup (map ci_bookId (fst (getCartItems (userId buyer) s))).
Proof.
  cbv zeta. split; [vm_compute; reflexivity|].
  intros Hnd.
  assert (E : map ci_bookId
                (fst (getCartItems (userId buyer)
                        (snd (post_cart (Num 1) 31 buyer
                                (snd (post_cart (Num 1) 30 buyer shop))))))
              = [Num 1; Num 1]) by (vm_compute; reflexivity).
  rewrite E in Hnd. inversion Hnd as [|? ? Hnotin _]; subst.
  apply Hnotin. now left.
Qed.

(** ** The access gate *)

(** C3, as the code has it. On a route behind the gate a request without
    a bearer token is answered 401 "Access token required"; a token the
    verifier rejects is answered 403 "Invalid token"; with a token the
    verifier accepts the handler runs for the identity in the token; a
    seller-only route answers 403 to a caller of another role. In each
    rejection the store is handed back as it was. *)
Theorem gate_rejections (jwt_verify : string -> option JwtPayload)
  (handler : JwtPayload -> M Response) (authorization : option string)
  (parsed : option InsertBook) (now : Z) (s : Store) :
  (truthy (token_of authorization) = false ->
     authenticated jwt_verify handler authorization s
     = ({| status := 401; body := JsonMessage "Access token required" |}, s))
  /\ (forall token,
        token_of authorization = Some token -> token <> EmptyString ->
        jwt_verify token = None ->
        authenticated jwt_verify handler authorization s
        = ({| status := 403; body := JsonMessage "Invalid token" |}, s))
  /\ (forall token user,
        token_of authorization = Some token -> token <> EmptyString ->
        jwt_verify token = Some user ->
        authenticated jwt_verify handler authorization s = handler user s)
  /\ (forall user,
        role user <> "seller"%string ->
        post_books parsed now user s
        = ({| status := 403;
              body := JsonMessage "Only sellers can create books" |}, s)
        /\ get_seller_books user s
           = ({| status := 403;
                 body := JsonMessage "Only sellers can access this endpoint" |},
              s)).
Proof.
  unfold authenticated, authenticateToken.
  split; [|split; [|split]].
  - intros Hmissing. destruct (token_of authorization) as [[|? ?]|];
      [reflexivity | discriminate | reflexivity].
  - intros token Htoken Hne Hbad. rewrite Htoken.
    destruct token as [|a t]; [contradiction|]. now rewrite Hbad.
  - intros token user Htoken Hne Hok. rewrite Htoken.
    destruct token as [|a t]; [contradiction|]. now rewrite Hok.
  - intros user Hrole. unfold post_books, get_seller_books.
    apply String.eqb_neq in Hrole. rewrite Hrole. split; reflexivity.
Qed.

Lemma gate_rejections_witness :
  authenticated verify_demo get_seller_books None shop
  = ({| status := 401; body := JsonMessage "Access token required" |}, shop)
  /\ authenticated verify_demo get_seller_books (Some "Bearer forged"%string)
       shop
     = ({| status := 403; body := JsonMessage "Invalid token" |}, shop)
  /\ authenticated verify_demo get_seller_books
       (Some "Bearer signed.for.buyer"%string) shop
     = ({| status := 403;
           body := JsonMessage "Only sellers can access this endpoint" |},
        shop).
Proof.
  destruct (@gate_rejections verify_demo get_seller_books None None 0 shop)
    as (H401 & _).
  destruct (@gate_rejections verify_demo get_seller_books
              (Some "Bearer forged"%string) None 0 shop) as (_ & H403 & _).
  destruct (@gate_rejections verify_demo get_seller_books
              (Some "Bearer signed.for.buyer"%string) None 0 shop)
    as (_ & _ & Hpass & Hrole).
  split; [apply H401; reflexivity|].
  split; [apply (H403 "forged"%string); [reflexivity|discriminate|reflexivity]|].
  rewrite (Hpass "signed.for.buyer"%string buyer);
    [|reflexivity|discriminate|reflexivity].
  apply (Hrole buyer). discriminate.
Defined.

(** C3 as stated fails: a token the verifier rejects is answered 403, not
    401. *)
Lemma invalid_token_answers_403 :
  fst (authenticated verify_demo get_seller_books
         (Some "Bearer forged"%string) shop)
  = {| status := 403; body := JsonMessage "Invalid token" |}
  /\ status (fst (authenticated verify_demo get_seller_books
                    (Some "Bearer forged"%string) shop)) <> 401.
Proof. split; [vm_compute; reflexivity | vm_compute; discriminate]. Qed.

(** * Further properties of the storage layer and the routes *)

(** ** Listings: create, update, delete *)

(** X1. A created listing gets the next id, the caller as seller and the
    availability flag true whatever the input carried; fetched by that id
    it comes back as created, the other ids read as before, and it is
    appended to the available listings and to the seller's listings. *)
Theorem created_book_round_trip (insertBook : InsertBook) (sellerId now : Z)
  (s : Store) :
  wf s ->
  let book := fst (createBook insertBook sellerId now s) in
  let s' := snd (createBook insertBook sellerId now s) in
  b_id book = currentBookId s
  /\ b_isAvailable book = Some true
  /\ b_sellerId book = sellerId
  /\ (b_title book, b_author book, b_description book, b_price book,
      b_condition book, b_category book, b_imageUrl book)
     = (ib_title insertBook, ib_author insertBook, ib_description insertBook,
        ib_price insertBook, ib_condition insertBook, ib_category insertBook,
        ib_imageUrl insertBook)
  /\ fst (getBook (Num (b_id book)) s') = Some book
  /\ (forall other, other <> Num (b_id book) ->
        fst (getBook other s') = fst (getBook other s))
  /\ fst (getBooks None s') = fst (getBooks None s) ++ [book]
  /\ fst (getBooksBySeller sellerId s')
     = fst (getBooksBySeller sellerId s) ++ [book].
Proof.
  intros Hwf. cbv zeta.
  assert (Hnone : Map_get (currentBookId s) (books s) = None).
  { apply Map_get_None_keys. intros Hin.
    apply (wf_books_fresh Hwf) in Hin. lia. }
  repeat (split; [reflexivity|]).
  split; [simpl; apply Map_get_set_same|].
  split.
  { intros other Hne. rewrite !getBook_fst. simpl in *.
    destruct other as [k|]; [|reflexivity]. simpl.
    apply Map_get_set_other. intros E. apply Hne. now rewrite E. }
  split.
  - unfold getBooks, gets. simpl.
    rewrite Map_values_set_fresh by exact Hnone.
    rewrite filter_app. reflexivity.
  - unfold getBooksBySeller, gets. simpl.
    rewrite Map_values_set_fresh by exact Hnone.
    rewrite filter_app. simpl. now rewrite Z.eqb_refl.
Qed.

Lemma created_book_round_trip_witness :
  map b_title
    (fst (getBooks None
            (snd (createBook
                    {| ib_title := "Third"; ib_author := "Anonymous";
                       ib_description := "Used"; ib_price := "3.00";
                       ib_condition := "good"; ib_category := "fiction";
                       ib_imageUrl := None; ib_isAvailable := Some false |}
                    1 70 shop))))
  = ["First"; "Second"; "Third"]%string.
Proof.
  destruct (@created_book_round_trip
              {| ib_title := "Third"; ib_author := "Anonymous";
                 ib_description := "Used"; ib_price := "3.00";
                 ib_condition := "good"; ib_category := "fiction";
                 ib_imageUrl := None; ib_isAvailable := Some false |}
              1 70 shop)
    as (_ & _ & _ & _ & _ & _ & Hlist & _).
  - apply wf_check_sound. vm_compute. reflexivity.
  - rewrite Hlist. vm_compute. reflexivity.
Defined.

(** X2. A partial update of an id the store does not hold (a [NaN] id
    included) returns nothing and leaves the store as it was. For a held
    id it returns and stores the merged record: the given fields replace
    the old ones, id, seller and creation time stay, the listing keeps its
    place in the listing order and every other id reads as before. *)
Theorem update_book_merges (id : number) (updateData : PartialInsertBook)
  (s : Store) :
  (fst (getBook id s) = None -> updateBook id updateData s = (None, s))
  /\ (forall book,
        fst (getBook id s) = Some book ->
        let s' := snd (updateBook id updateData s) in
        fst (updateBook id updateData s) = Some (merge_book book updateData)
        /\ fst (getBook id s') = Some (merge_book book updateData)
        /\ (b_id (merge_book book updateData),
            b_sellerId (merge_book book updateData),
            b_createdAt (merge_book book updateData))
           = (b_id book, b_sellerId book, b_createdAt book)
        /\ Map_keys (books s') = Map_keys (books s)
        /\ (forall other, other <> id ->
              fst (getBook other s') = fst (getBook other s))
        /\ (cartItems s', orders s', orderItems s', users s', messages s')
           = (cartItems s, orders s, orderItems s, users s, messages s)).
Proof.
  rewrite getBook_fst. unfold updateBook, bind, gets, modify, ret.
  destruct id as [k|]; simpl.
  - destruct (Map_get k (books s)) as [b|] eqn:E; simpl.
    + split; [discriminate|]. intros book [= <-].
      split; [reflexivity|].
      split; [apply Map_get_set_same|].
      split; [reflexivity|].
      split; [eapply Map_keys_set_present; exact E|].
      split; [|reflexivity].
      intros other Hne.
      destruct other as [k'|]; [|reflexivity]. simpl.
      apply Map_get_set_other. congruence.
    + split; [reflexivity | discriminate].
  - split; [reflexivity | discriminate].
Qed.

Lemma update_book_merges_witness :
  option_map b_price
    (fst (getBook (Num 1)
            (snd (updateBook (Num 1)
                    {| pb_title := None; pb_author := None;
                       pb_description := None;
                       pb_price := Some "99.00"%string;
                       pb_condition := None; pb_category := None;
                       pb_imageUrl := None; pb_isAvailable := None |}
                    shop))))
  = Some "99.00"%string
  /\ updateBook NaN isAvailable_false shop = (None, shop).
Proof.
  split.
  - destruct (proj2 (update_book_merges (Num 1)
                {| pb_title := None; pb_author := None;
                   pb_description := None; pb_price := Some "99.00"%string;
                   pb_condition := None; pb_category := None;
                   pb_imageUrl := None; pb_isAvailable := None |} shop)
                first_book eq_refl) as (_ & Hget & _).
    rewrite Hget. reflexivity.
  - apply (proj1 (update_book_merges NaN isAvailable_false shop)).
    reflexivity.
Defined.

Lemma Map_remove_absent (V : Type) (m : JsMap V) (k : Z) :
  Map_has k m = false -> Map_remove k m = m.
Proof.
  unfold Map_has, Map_remove. induction m as [|[k' v'] m IH]; simpl;
    [reflexivity|].
  destruct (k' =? k); simpl; [discriminate|].
  intros H. now rewrite IH.
Qed.

Lemma Map_has_get (V : Type) (m : JsMap V) (k : Z) :
  Map_has k m = match Map_get k m with Some _ => true | None => false end.
Proof.
  unfold Map_has. induction m as [|[k' v'] m IH]; simpl; [reflexivity|].
  destruct (k' =? k); simpl; [reflexivity | exact IH].
Qed.

(** X3. Deleting a listing reports whether the id was held; afterwards
    the id is not held, and deleting it again reports false and changes
    nothing. Deleting an id that is not held (a [NaN] id included) leaves
    the store as it was. *)
Theorem delete_book_idempotent (id : number) (s : Store) :
  let s' := snd (deleteBook id s) in
  (fst (deleteBook id s) = true <-> fst (getBook id s) <> None)
  /\ fst (getBook id s') = None
  /\ deleteBook id s' = (false, s')
  /\ (fst (getBook id s) = None -> deleteBook id s = (false, s)).
Proof.
  cbv zeta. rewrite !getBook_fst. unfold deleteBook.
  destruct id as [k|]; simpl.
  - rewrite Map_has_get.
    split.
    { destruct (Map_get k (books s)) as [b|]; split.
      - intros _. discriminate.
      - reflexivity.
      - discriminate.
      - intros H. exfalso. now apply H. }
    split; [apply Map_get_remove_same|].
    split.
    + rewrite Map_has_get, Map_get_remove_same.
      rewrite Map_remove_absent
        by (rewrite Map_has_get, Map_get_remove_same; reflexivity).
      reflexivity.
    + intros Hnone. rewrite Hnone.
      rewrite Map_remove_absent by (rewrite Map_has_get, Hnone; reflexivity).
      now destruct s.
  - split; [split; [discriminate | intros H; exfalso; now apply H]|].
    split; [reflexivity|]. split; [reflexivity|].
    intros _. now destruct s.
Qed.

(** ** Removing from a cart *)

Lemma cart_find_split (q : CartItem -> bool) (m : JsMap CartItem)
  (item : CartItem) :
  find q (Map_values m) = Some item ->
  q item = true
  /\ exists m1 k m2,
       m = m1 ++ (k, item) :: m2
       /\ forall y, In y (Map_values m1) -> q y = false.
Proof.
  induction m as [|[k v] m IH]; simpl; [discriminate|].
  destruct (q v) eqn:Eq.
  - intros [= ->]. split; [exact Eq|].
    exists [], k, m. split; [reflexivity | intros y []].
  - intros Hfind. destruct (IH Hfind) as (Hq & m1 & k' & m2 & -> & Hpre).
    split; [exact Hq|].
    exists ((k, v) :: m1), k', m2. split; [reflexivity|].
    intros y [<-|Hy]; [exact Eq | now apply Hpre].
Qed.

Lemma cart_remove_split (m1 m2 : JsMap CartItem) (k : Z) (item : CartItem) :
  NoDup (Map_keys (m1 ++ (k, item) :: m2)) ->
  Map_remove k (m1 ++ (k, item) :: m2) = m1 ++ m2
  /\ Map_has k (m1 ++ (k, item) :: m2) = true.
Proof.
  intros Hnd. unfold Map_keys in Hnd. rewrite map_app in Hnd. simpl in Hnd.
  pose proof (NoDup_remove_2 _ _ _ Hnd) as Hnotin.
  split.
  - unfold Map_remove. rewrite filter_app. simpl. rewrite Z.eqb_refl. simpl.
    rewrite !filter_all; [reflexivity | |].
    + intros [k' v'] Hin. simpl. apply negb_true_iff, Z.eqb_neq.
      intros ->. apply Hnotin. apply in_or_app. right.
      change k with (fst (k, v')). now apply in_map.
    + intros [k' v'] Hin. simpl. apply negb_true_iff, Z.eqb_neq.
      intros ->. apply Hnotin. apply in_or_app. left.
      change k with (fst (k, v')). now apply in_map.
  - unfold Map_has. rewrite existsb_app. simpl. rewrite Z.eqb_refl.
    apply orb_true_r.
Qed.

(** X4. Removing a listing from a buyer's cart deletes the first entry of
    that buyer that references the listing and no other: the cart is the
    old one without that entry, the call reports true, and every other
    buyer's cart reads as before. When no entry of the buyer references
    the listing, and always for a [NaN] listing id, it reports false and
    the store is as it was. The route answers 204 in every case. *)
Theorem remove_from_cart_first_match (buyerId : Z) (bookId : number)
  (user : JwtPayload) (s : Store) :
  wf s ->
  let cart := fst (getCartItems buyerId s) in
  let s' := snd (removeFromCart buyerId bookId s) in
  ((forall c, In c cart -> strict_eq (ci_bookId c) bookId = false) ->
     removeFromCart buyerId bookId s = (false, s))
  /\ ((exists c, In c cart /\ strict_eq (ci_bookId c) bookId = true) ->
      fst (removeFromCart buyerId bookId s) = true
      /\ exists before entry after,
           cart = before ++ entry :: after
           /\ (forall c, In c before ->
                 strict_eq (ci_bookId c) bookId = false)
           /\ strict_eq (ci_bookId entry) bookId = true
           /\ fst (getCartItems buyerId s') = before ++ after)
  /\ (forall other, other <> buyerId ->
        fst (getCartItems other s') = fst (getCartItems other s))
  /\ (bookId = NaN -> removeFromCart buyerId bookId s = (false, s))
  /\ fst (delete_cart bookId user s) = {| status := 204; body := NoBody |}.
Proof.
  intros Hwf. cbv zeta.
  set (q := fun item : CartItem =>
              (ci_buyerId item =? buyerId)
              && strict_eq (ci_bookId item) bookId).
  assert (Hrun : removeFromCart buyerId bookId s
                 = match find q (Map_values (cartItems s)) with
                   | Some item => cart_delete (ci_id item) s
                   | None => (false, s)
                   end).
  { unfold removeFromCart, bind, gets, ret. fold q.
    destruct (find q (Map_values (cartItems s))); reflexivity. }
  assert (Hnomatch :
    (forall c, In c (fst (getCartItems buyerId s)) ->
               strict_eq (ci_bookId c) bookId = false) ->
    find q (Map_values (cartItems s)) = None).
  { intros Hno. destruct (find q (Map_values (cartItems s))) as [item|] eqn:E;
      [|reflexivity].
    apply find_some in E. destruct E as [Hin Hq]. unfold q in Hq.
    apply andb_true_iff in Hq. destruct Hq as [Hb Hk].
    rewrite Hno in Hk; [discriminate|].
    unfold getCartItems, gets. simpl. apply filter_In. now split. }
  assert (Hdelete : forall item,
    find q (Map_values (cartItems s)) = Some item ->
    exists m1 m2,
      cartItems s = m1 ++ (ci_id item, item) :: m2
      /\ (forall y, In y (Map_values m1) -> q y = false)
      /\ q item = true
      /\ cart_delete (ci_id item) s
         = (true, set_cartItems (m1 ++ m2) (currentCartItemId s) s)).
  { intros item E. apply cart_find_split in E.
    destruct E as (Hq & m1 & k & m2 & Hm & Hpre).
    assert (Hk : ci_id item = k).
    { apply (wf_cart_id Hwf). rewrite Hm. apply in_or_app. right. now left. }
    subst k. exists m1, m2. split; [exact Hm|]. split; [exact Hpre|].
    split; [exact Hq|].
    pose proof (wf_cart_keys Hwf) as Hnd. rewrite Hm in Hnd.
    destruct (cart_remove_split _ _ _ _ Hnd) as [Hrem Hhas].
    unfold cart_delete. rewrite Hm, Hrem, Hhas. reflexivity. }
  split; [|split; [|split; [|split]]].
  - intros Hno. now rewrite Hrun, (Hnomatch Hno).
  - intros [c [Hc Hk]].
    destruct (find q (Map_values (cartItems s))) as [item|] eqn:E.
    + destruct (Hdelete item eq_refl) as (m1 & m2 & Hm & Hpre & Hq & Hdel).
      rewrite Hrun, Hdel. split; [reflexivity|].
      unfold q in Hq. apply andb_true_iff in Hq. destruct Hq as [Hb Hkk].
      exists (filter (fun i => ci_buyerId i =? buyerId) (Map_values m1)),
        item, (filter (fun i => ci_buyerId i =? buyerId) (Map_values m2)).
      unfold getCartItems, gets. simpl. rewrite Hm. unfold Map_values.
      rewrite !map_app, !filter_app. simpl. rewrite Hb.
      split; [reflexivity|]. split; [|split; [exact Hkk | reflexivity]].
      intros c' Hc'. apply filter_In in Hc'. destruct Hc' as [Hin' Hb'].
      specialize (Hpre c' Hin'). unfold q in Hpre. rewrite Hb' in Hpre.
      exact Hpre.
    + exfalso. apply find_none with (x := c) in E.
      * unfold q in E. rewrite Hk in E.
        unfold getCartItems, gets in Hc. simpl in Hc.
        apply filter_In in Hc. destruct Hc as [_ Hb]. rewrite Hb in E.
        discriminate.
      * unfold getCartItems, gets in Hc. simpl in Hc.
        apply filter_In in Hc. tauto.
  - intros other Hne. rewrite Hrun.
    destruct (find q (Map_values (cartItems s))) as [item|] eqn:E;
      [|reflexivity].
    destruct (Hdelete item eq_refl) as (m1 & m2 & Hm & _ & Hq & Hdel).
    rewrite Hdel. unfold getCartItems, gets. simpl. rewrite Hm.
    unfold Map_values. rewrite !map_app, !filter_app. simpl.
    unfold q in Hq. apply andb_true_iff in Hq. destruct Hq as [Hb _].
    apply Z.eqb_eq in Hb. rewrite Hb.
    destruct (buyerId =? other) eqn:Eo; [|reflexivity].
    apply Z.eqb_eq in Eo. congruence.
  - intros ->. rewrite Hrun.
    destruct (find q (Map_values (cartItems s))) as [item|] eqn:E;
      [|reflexivity].
    apply find_some in E. destruct E as [_ Hq]. unfold q in Hq.
    apply andb_true_iff in Hq. destruct Hq as [_ Hk].
    destruct (ci_bookId item); discriminate.
  - unfold delete_cart, bind.
    destruct (removeFromCart (userId user) bookId s). reflexivity.
Qed.

Lemma remove_from_cart_first_match_witness :
  map ci_id
    (fst (getCartItems 2
            (snd (removeFromCart 2 (Num 1)
                    (snd (post_cart (Num 1) 41 buyer carted))))))
  = [2; 3]
  /\ removeFromCart 2 NaN carted = (false, carted).
Proof.
  destruct (@remove_from_cart_first_match 2 (Num 1) buyer
              (snd (post_cart (Num 1) 41 buyer carted)))
    as (_ & Hfirst & _).
  { apply wf_check_sound. vm_compute. reflexivity. }
  destruct (@remove_from_cart_first_match 2 NaN buyer carted)
    as (_ & _ & _ & Hnan & _).
  { apply wf_check_sound. vm_compute. reflexivity. }
  split; [|now apply Hnan].
  destruct Hfirst as (_ & before & entry & after & _ & _ & _ & Hcart).
  - exists {| ci_id := 1; ci_buyerId := 2; ci_bookId := Num 1;
              ci_addedAt := 30 |}.
    split; [vm_compute; now left | reflexivity].
  - vm_compute. reflexivity.
Defined.

(** ** What a checkout leaves alone, and what it does not guard *)

Lemma post_orders_cases (total : JsValue) (now : Z) (user : JwtPayload)
  (s : Store) :
  wf s ->
  snd (post_orders total now user s) = s
  \/ exists text,
       fst (getCartItems (userId user) s) <> []
       /\ toString total = Some text
       /\ snd (post_orders total now user s)
          = set_cartItems
              (filter (fun kv => negb (ci_buyerId (snd kv) =? userId user))
                      (cartItems s))
              (currentCartItemId s)
              (set_books
                 (sold_books (fst (getCartItems (userId user) s)) (books s))
                 (currentBookId s)
                 (set_orderItems
                    (orderItems s
                     ++ keyed (lines_for (currentOrderId s)
                                 (currentOrderItemId s) (books s)
                                 (fst (getCartItems (userId user) s))))
                    (currentOrderItemId s
                     + Z.of_nat
                         (List.length
                            (lines_for (currentOrderId s)
                               (currentOrderItemId s) (books s)
                               (fst (getCartItems (userId user) s)))))
                    (set_orders
                       (orders s
                        ++ [(currentOrderId s,
                             {| o_id := currentOrderId s;
                                o_buyerId := userId user;
                                o_total := text; o_status := "completed";
                                o_createdAt := now |})])
                       (currentOrderId s + 1) s))).
Proof.
  intros Hwf.
  destruct (fst (getCartItems (userId user) s)) as [|c0 cart0] eqn:Ecart.
  { left. unfold post_orders, bind at 1.
    change (getCartItems (userId user) s)
      with (fst (getCartItems (userId user) s), s) at 1.
    now rewrite Ecart. }
  assert (Hne : fst (getCartItems (userId user) s) <> [])
    by (rewrite Ecart; discriminate).
  destruct (toString total) as [text|] eqn:Etext.
  - right. exists text. rewrite <- Ecart. split; [exact Hne|].
    split; [reflexivity|].
    now rewrite (@checkout_closed total text now user s Hwf Hne Etext).
  - left. now rewrite (@checkout_without_total total now user s Hne Etext).
Qed.

Lemma other_cart_kept (buyerId other : Z) (m : JsMap CartItem) :
  other <> buyerId ->
  filter (fun item => ci_buyerId item =? other)
    (Map_values (filter (fun kv => negb (ci_buyerId (snd kv) =? buyerId)) m))
  = filter (fun item => ci_buyerId item =? other) (Map_values m).
Proof.
  intros Hne. induction m as [|[k c] m IH]; simpl; [reflexivity|].
  destruct (ci_buyerId c =? buyerId) eqn:Eb; simpl.
  - apply Z.eqb_eq in Eb.
    destruct (ci_buyerId c =? other) eqn:Eo; [|exact IH].
    apply Z.eqb_eq in Eo. congruence.
  - now rewrite IH.
Qed.

Lemma references_none (cart : list CartItem) (k : Z) :
  (forall c, In c cart -> ci_bookId c <> Num k) -> references cart k = false.
Proof.
  intros Hno. unfold references.
  destruct (existsb _ cart) eqn:E; [|reflexivity].
  apply existsb_exists in E. destruct E as [c [Hin Hk]].
  exfalso. apply (Hno c Hin).
  destruct (ci_bookId c) as [k'|]; simpl in Hk; [|discriminate].
  apply Z.eqb_eq in Hk. now subst.
Qed.

Lemma checkout_other_carts (total : JsValue) (now : Z) (user : JwtPayload)
  (s : Store) (other : Z) :
  wf s -> other <> userId user ->
  fst (getCartItems other (snd (post_orders total now user s)))
  = fst (getCartItems other s).
Proof.
  intros Hwf Hother.
  destruct (@post_orders_cases total now user s Hwf)
    as [Hsame | (text & Hne & Htext & Hrun)]; rewrite ?Hsame, ?Hrun.
  - reflexivity.
  - unfold getCartItems at 1, gets. simpl. now apply other_cart_kept.
Qed.

(** X5. Whatever a checkout answers, it leaves every other buyer's cart,
    the users, the messages, the orders and order lines already there,
    and every listing the caller's cart does not reference as they
    were. *)
Theorem checkout_frame (total : JsValue) (now : Z) (user : JwtPayload)
  (s : Store) :
  wf s ->
  let s' := snd (post_orders total now user s) in
  (forall other, other <> userId user ->
     fst (getCartItems other s') = fst (getCartItems other s))
  /\ users s' = users s
  /\ messages s' = messages s
  /\ (forall k,
        (forall c, In c (fst (getCartItems (userId user) s)) ->
                   ci_bookId c <> Num k) ->
        fst (getBook (Num k) s') = fst (getBook (Num k) s))
  /\ (exists added, Map_values (orders s') = Map_values (orders s) ++ added)
  /\ (exists added,
        Map_values (orderItems s') = Map_values (orderItems s) ++ added).
Proof.
  intros Hwf. cbv zeta.
  split; [intros other Hother; now apply checkout_other_carts|].
  destruct (@post_orders_cases total now user s Hwf)
    as [Hsame | (text & Hne & Htext & Hrun)]; rewrite ?Hsame, ?Hrun.
  - repeat split; try reflexivity; exists []; now rewrite app_nil_r.
  - split; [reflexivity|split; [reflexivity|split; [|split]]].
    + intros k Hno. rewrite !getBook_fst.
      unfold set_cartItems, set_books. cbn [books Map_get_number].
      rewrite sold_books_get, (@references_none _ k Hno).
      now destruct (Map_get k (books s)).
    + eexists. simpl. unfold Map_values. now rewrite map_app.
    + eexists. simpl. unfold Map_values. now rewrite map_app.
Qed.

Lemma checkout_frame_witness :
  fst (getBook (Num 2)
         (snd (post_orders (JsNumber "12.50") 50 buyer
                 (snd (post_cart (Num 1) 30 buyer shop)))))
  = fst (getBook (Num 2) (snd (post_cart (Num 1) 30 buyer shop))).
Proof.
  destruct (@checkout_frame (JsNumber "12.50") 50 buyer
              (snd (post_cart (Num 1) 30 buyer shop)))
    as (_ & _ & _ & Hbooks & _).
  - apply wf_check_sound. vm_compute. reflexivity.
  - apply Hbooks. intros c Hin. vm_compute in Hin.
    destruct Hin as [<-|[]]. discriminate.
Defined.

(** X6. Checkout does not look at the availability flag: when two buyers
    hold the same listing in their carts and the first checks out, the
    second checkout still answers 201 and its order gets a line for that
    listing at the same price, so the listing is sold twice. *)
Theorem listing_sold_twice (total1 total2 : JsValue) (text1 text2 : string)
  (now1 now2 : Z) (first second : JwtPayload) (s : Store)
  (c1 c2 : CartItem) (k : Z) (b : Book) :
  wf s ->
  userId first <> userId second ->
  toString total1 = Some text1 ->
  toString total2 = Some text2 ->
  In c1 (fst (getCartItems (userId first) s)) ->
  In c2 (fst (getCartItems (userId second) s)) ->
  ci_bookId c1 = Num k ->
  ci_bookId c2 = Num k ->
  fst (getBook (Num k) s) = Some b ->
  let s1 := snd (post_orders total1 now1 first s) in
  let s2 := snd (post_orders total2 now2 second s1) in
  exists order1 order2 line1 line2,
    fst (post_orders total1 now1 first s)
    = {| status := 201; body := JsonOrder order1 |}
    /\ fst (post_orders total2 now2 second s1)
       = {| status := 201; body := JsonOrder order2 |}
    /\ o_id order2 = o_id order1 + 1
    /\ In line1 (fst (getOrderItems (o_id order1) s2))
    /\ In line2 (fst (getOrderItems (o_id order2) s2))
    /\ (oi_bookId line1, oi_price line1) = (Num k, b_price b)
    /\ (oi_bookId line2, oi_price line2) = (Num k, b_price b).
Proof.
  intros Hwf Hne Ht1 Ht2 Hc1 Hc2 Hk1 Hk2 Hb. cbv zeta.
  assert (Hne1 : fst (getCartItems (userId first) s) <> [])
    by (intros E; rewrite E in Hc1; exact Hc1).
  pose proof (wf_post_orders total1 now1 first Hwf) as Hwf1.
  destruct (@checkout_outcome total1 text1 now1 first s Hwf Hne1 Ht1)
    as (Hresp1 & _ & _ & Hlines1 & _ & _ & _).
  cbn [o_id] in Hlines1.
  assert (Hcart2 :
    fst (getCartItems (userId second)
           (snd (post_orders total1 now1 first s)))
    = fst (getCartItems (userId second) s)).
  { apply checkout_other_carts; [exact Hwf | congruence]. }
  assert (Hl1 : listed s c1 = true)
    by (unfold listed; rewrite Hk1, Hb; reflexivity).
  destruct (@checkout_sells total1 text1 now1 first s c1 Hwf Ht1 Hc1 Hl1)
    as (b0 & Hb0 & Hsold).
  rewrite Hk1 in Hb0, Hsold. rewrite Hb in Hb0. injection Hb0 as <-.
  assert (Hcounter :
    currentOrderId (snd (post_orders total1 now1 first s))
    = currentOrderId s + 1).
  { rewrite (@checkout_closed total1 text1 now1 first s Hwf Hne1 Ht1).
    reflexivity. }
  remember (snd (post_orders total1 now1 first s)) as s1 eqn:Es1.
  clear Es1.
  assert (Hc2' : In c2 (fst (getCartItems (userId second) s1)))
    by (rewrite Hcart2; exact Hc2).
  assert (Hne2 : fst (getCartItems (userId second) s1) <> [])
    by (intros E; rewrite E in Hc2'; exact Hc2').
  destruct (@checkout_outcome total2 text2 now2 second s1 Hwf1 Hne2 Ht2)
    as (Hresp2 & _ & Hitems2 & Hlines2 & _ & _ & _).
  cbn [o_id] in Hitems2, Hlines2.
  remember (snd (post_orders total2 now2 second s1)) as s2 eqn:Es2.
  clear Es2.
  assert (Hline1 : exists line1,
    In line1 (fst (getOrderItems (currentOrderId s) s1))
    /\ (oi_bookId line1, oi_price line1) = (Num k, b_price b)).
  { assert (Hin : In (Num k, Some (b_price b))
        (map (fun i => (oi_bookId i, Some (oi_price i)))
             (fst (getOrderItems (currentOrderId s) s1)))).
    { rewrite Hlines1. apply in_map_iff. exists c1.
      split; [rewrite Hk1, Hb; reflexivity|]. apply filter_In.
      split; assumption. }
    apply in_map_iff in Hin. destruct Hin as [line [Heq Hin]].
    exists line. split; [exact Hin|].
    injection Heq as Hbook Hprice. rewrite Hbook, Hprice. reflexivity. }
  assert (Hline2 : exists line2,
    In line2 (fst (getOrderItems (currentOrderId s1) s2))
    /\ (oi_bookId line2, oi_price line2) = (Num k, b_price b)).
  { assert (Hin : In (Num k, Some (b_price b))
        (map (fun i => (oi_bookId i, Some (oi_price i)))
             (fst (getOrderItems (currentOrderId s1) s2)))).
    { rewrite Hlines2. apply in_map_iff. exists c2.
      split; [rewrite Hk2, Hsold; reflexivity|]. apply filter_In.
      split; [exact Hc2'|]. unfold listed. rewrite Hk2, Hsold. reflexivity. }
    apply in_map_iff in Hin. destruct Hin as [line [Heq Hin]].
    exists line. split; [exact Hin|].
    injection Heq as Hbook Hprice. rewrite Hbook, Hprice. reflexivity. }
  destruct Hline1 as (line1 & Hin1 & Hf1).
  destruct Hline2 as (line2 & Hin2 & Hf2).
  eexists _, _, line1, line2.
  split; [exact Hresp1|]. split; [exact Hresp2|].
  cbn [o_id].
  split; [exact Hcounter|].
  split; [|split; [exact Hin2|split; [exact Hf1 | exact Hf2]]].
  change (fst (getOrderItems (currentOrderId s) s2))
    with (filter (fun item => oi_orderId item =? currentOrderId s)
                 (Map_values (orderItems s2))).
  rewrite Hitems2, filter_app. apply in_or_app. left. exact Hin1.
Qed.

Lemma listing_sold_twice_witness :
  map oi_bookId
    (Map_values
       (orderItems
          (snd (post_orders (JsNumber "12.50") 61 rival
                  (snd (post_orders (JsNumber "12.50") 60 buyer
                          contested))))))
  = [Num 1; Num 1].
Proof.
  destruct (@listing_sold_twice (JsNumber "12.50") (JsNumber "12.50")
              "12.50" "12.50" 60 61 buyer rival contested
              {| ci_id := 1; ci_buyerId := 2; ci_bookId := Num 1;
                 ci_addedAt := 30 |}
              {| ci_id := 2; ci_buyerId := 3; ci_bookId := Num 1;
                 ci_addedAt := 45 |}
              1 first_book)
    as (order1 & order2 & line1 & line2 & _).
  - apply wf_check_sound. vm_compute. reflexivity.
  - vm_compute. discriminate.
  - reflexivity.
  - reflexivity.
  - vm_compute. now left.
  - vm_compute. now left.
  - reflexivity.
  - reflexivity.
  - vm_compute. reflexivity.
  - vm_compute. reflexivity.
Defined.

(** ** Fetching listings *)





(** X8. The seller's own listing, unlike the public one, keeps a sold
    book: after a checkout the consumed listing is still in its seller's
    listings, with its flag false, and the seller route returns it. *)
Theorem seller_sees_sold_listing (total : JsValue) (text : string) (now : Z)
  (user owner : JwtPayload) (s : Store) (c : CartItem) (b : Book) :
  wf s ->
  toString total = Some text ->
  In c (fst (getCartItems (userId user) s)) ->
  fst (getBook (ci_bookId c) s) = Some b ->
  role owner = "seller"%string ->
  userId owner = b_sellerId b ->
  let s' := snd (post_orders total now user s) in
  In (mark_sold b) (fst (getBooksBySeller (b_sellerId b) s'))
  /\ b_isAvailable (mark_sold b) = Some false
  /\ ~ In (mark_sold b) (fst (getBooks None s'))
  /\ exists found,
       fst (get_seller_books owner s')
       = {| status := 200; body := JsonBooks found |}
       /\ In (mark_sold b) found.
Proof.
  intros Hwf Htext Hin Hb Hrole Hid. cbv zeta.
  assert (Hl : listed s c = true) by (unfold listed; now rewrite Hb).
  destruct (@checkout_sells total text now user s c Hwf Htext Hin Hl)
    as (b0 & Hb0 & Hsold).
  rewrite Hb in Hb0. injection Hb0 as <-.
  assert (Hheld : In (mark_sold b)
    (fst (getBooksBySeller (b_sellerId b)
            (snd (post_orders total now user s))))).
  { unfold getBooksBySeller, gets. simpl. apply filter_In.
    split; [|simpl; apply Z.eqb_refl].
    rewrite getBook_fst in Hsold.
    destruct (ci_bookId c) as [k|]; simpl in Hsold; [|discriminate].
    apply Map_get_In in Hsold. unfold Map_values.
    change (mark_sold b) with (snd (k, mark_sold b)). now apply in_map. }
  split; [exact Hheld|]. split; [reflexivity|]. split.
  - intros Hlisted. apply getBooks_available in Hlisted.
    destruct Hlisted as [_ Hav]. discriminate Hav.
  - unfold get_seller_books. rewrite Hrole. simpl negb. cbv iota.
    eexists. split; [reflexivity|]. simpl. rewrite Hid. exact Hheld.
Qed.

Lemma seller_sees_sold_listing_witness :
  map b_isAvailable
    (fst (getBooksBySeller 1
            (snd (post_orders (JsNumber "24.49") 50 buyer carted))))
  = [Some false; Some false].
Proof.
  destruct (@seller_sees_sold_listing (JsNumber "24.49") "24.49" 50 buyer
              seller carted
              {| ci_id := 1; ci_buyerId := 2; ci_bookId := Num 1;
                 ci_addedAt := 30 |}
              first_book) as (_ & _ & _ & found & _).
  - apply wf_check_sound. vm_compute. reflexivity.
  - reflexivity.
  - vm_compute. now left.
  - vm_compute. reflexivity.
  - reflexivity.
  - reflexivity.
  - vm_compute. reflexivity.
Defined.

(** ** Messages *)

Lemma Map_set_holds (V : Type) (m : JsMap V) (k : Z) (v : V) :
  In v (Map_values (Map_set k v m)).
Proof.
  unfold Map_values. change v with (snd (k, v)) at 1. apply in_map.
  apply Map_get_In. apply Map_get_set_same.
Qed.

Lemma thread_members (a b : number) (m : Message) :
  MemStorage.in_thread a b m = true ->
  (Num (m_senderId m) = a /\ Num (m_receiverId m) = b)
  \/ (Num (m_senderId m) = b /\ Num (m_receiverId m) = a).
Proof.
  unfold MemStorage.in_thread. intros H. apply orb_true_iff in H.
  destruct H as [H|H]; apply andb_true_iff in H; destruct H as [H1 H2];
    destruct a as [x|], b as [y|]; simpl in H1, H2; try discriminate;
    apply Z.eqb_eq in H1, H2; subst; [left | right]; split; reflexivity.
Qed.

(** X9. A sent message is stored with the caller as sender, whatever
    sender the parsed body names, and with the receiver, listing, text and
    time given; it is then in the thread between caller and receiver, read
    from either side, also through the route; a thread holds only messages
    exchanged by its two users; a body that does not parse is answered 400
    and stores nothing. *)
Theorem sent_message_in_thread (data : InsertMessage) (now : Z)
  (user : JwtPayload) (s : Store) :
  let s' := snd (post_messages (Some data) now user s) in
  (exists message thread,
     fst (post_messages (Some data) now user s)
     = {| status := 201; body := JsonSent message |}
     /\ m_senderId message = userId user
     /\ (m_receiverId message, m_bookId message, m_content message,
         m_createdAt message)
        = (im_receiverId data, im_bookId data, im_content data, now)
     /\ In message
          (fst (getMessagesBetweenUsers (Num (userId user))
                  (Num (im_receiverId data)) s'))
     /\ In message
          (fst (getMessagesBetweenUsers (Num (im_receiverId data))
                  (Num (userId user)) s'))
     /\ fst (get_messages (Num (im_receiverId data)) user s')
        = {| status := 200; body := JsonThread thread |}
     /\ In message thread)
  /\ (forall a b m,
        In m (fst (getMessagesBetweenUsers a b s')) ->
        (Num (m_senderId m) = a /\ Num (m_receiverId m) = b)
        \/ (Num (m_senderId m) = b /\ Num (m_receiverId m) = a))
  /\ post_messages None now user s
     = ({| status := 400; body := JsonFailure "Failed to send message" |}, s).
Proof.
  cbv zeta.
  set (message := {| m_id := currentMessageId s; m_senderId := userId user;
                     m_receiverId := im_receiverId data;
                     m_bookId := im_bookId data;
                     m_content := im_content data; m_createdAt := now |}).
  assert (Hin : forall a b,
    MemStorage.in_thread a b message = true ->
    In message
      (fst (getMessagesBetweenUsers a b
              (snd (post_messages (Some data) now user s))))).
  { intros a b Hab. unfold getMessagesBetweenUsers, gets. simpl.
    apply (Permutation_in _
             (Permutation_sym (Array_sort_perm MemStorage.by_createdAt _))).
    apply filter_In. split; [apply Map_set_holds | exact Hab]. }
  assert (Hfwd : MemStorage.in_thread (Num (userId user))
                   (Num (im_receiverId data)) message = true).
  { unfold MemStorage.in_thread. simpl. now rewrite !Z.eqb_refl. }
  split; [|split; [|reflexivity]].
  - exists message. eexists.
    split; [reflexivity|]. split; [reflexivity|]. split; [reflexivity|].
    split; [now apply Hin|].
    split; [apply Hin; now rewrite in_thread_sym|].
    split; [reflexivity|].
    now apply Hin.
  - intros a b m Hm. unfold getMessagesBetweenUsers, gets in Hm. simpl in Hm.
    apply (Permutation_in _ (Array_sort_perm MemStorage.by_createdAt _))
      in Hm.
    apply filter_In in Hm. apply thread_members. tauto.
Qed.

(** ** Who may edit or delete a listing *)

(** X10. A listing can be edited or deleted by its seller only: for a
    held book and a caller who is not its seller both routes answer 403
    and leave the store as it was, whatever the request body; for an id
    that is not held both answer 404 and leave the store as it was. *)
Theorem only_seller_edits (b : Book) (id : number)
  (parsed : option PartialInsertBook) (user : JwtPayload) (s : Store) :
  wf s ->
  (In b (Map_values (books s)) -> userId user <> b_sellerId b ->
     put_book (Num (b_id b)) parsed user s
     = ({| status := 403;
           body := JsonMessage "You can only edit your own books" |}, s)
     /\ delete_book (Num (b_id b)) user s
        = ({| status := 403;
              body := JsonMessage "You can only delete your own books" |}, s))
  /\ (fst (getBook id s) = None ->
      put_book id parsed user s
      = ({| status := 404; body := JsonMessage "Book not found" |}, s)
      /\ delete_book id user s
         = ({| status := 404; body := JsonMessage "Book not found" |}, s)).
Proof.
  intros Hwf. split.
  - intros Hin Hne. pose proof (@held_book_lookup s b Hwf Hin) as Hget.
    unfold put_book, delete_book, bind, getBook, gets, ret. simpl.
    rewrite Hget.
    assert (E : (b_sellerId b =? userId user) = false)
      by (apply Z.eqb_neq; congruence).
    rewrite E. split; reflexivity.
  - rewrite getBook_fst. intros Hnone.
    unfold put_book, delete_book, bind, getBook, gets, ret.
    rewrite Hnone. split; reflexivity.
Qed.

Lemma only_seller_edits_witness :
  put_book (Num 1) (Some isAvailable_false) buyer shop
  = ({| status := 403;
        body := JsonMessage "You can only edit your own books" |}, shop)
  /\ delete_book (Num 7) seller shop
     = ({| status := 404; body := JsonMessage "Book not found" |}, shop).
Proof.
  destruct (@only_seller_edits first_book (Num 7) (Some isAvailable_false)
              buyer shop) as [Hforbidden _].
  { apply wf_check_sound. vm_compute. reflexivity. }
  destruct (@only_seller_edits first_book (Num 7) None seller shop)
    as [_ Hmissing].
  { apply wf_check_sound. vm_compute. reflexivity. }
  split.
  - apply Hforbidden; [vm_compute; now left | vm_compute; discriminate].
  - apply Hmissing. reflexivity.
Defined.

(** X11. The seller of a held listing edits and deletes it: an edit whose
    body parses answers 200 with the merged record, which is then what the
    id reads, still with the same seller; an edit that sets the
    availability flag to true puts the listing among the available ones,
    so a sold listing can be put back on sale; an edit whose body does not
    parse answers 400 and changes nothing; a delete answers 204 and the id
    is no longer held. *)
Theorem seller_edits_listing (b : Book) (updateData : PartialInsertBook)
  (user : JwtPayload) (s : Store) :
  wf s ->
  In b (Map_values (books s)) ->
  userId user = b_sellerId b ->
  let edited := snd (put_book (Num (b_id b)) (Some updateData) user s) in
  fst (put_book (Num (b_id b)) (Some updateData) user s)
  = {| status := 200; body := JsonBook (merge_book b updateData) |}
  /\ fst (getBook (Num (b_id b)) edited) = Some (merge_book b updateData)
  /\ b_sellerId (merge_book b updateData) = b_sellerId b
  /\ (pb_isAvailable updateData = Some (Some true) ->
      In (merge_book b updateData) (fst (getBooks None edited)))
  /\ put_book (Num (b_id b)) None user s
     = ({| status := 400; body := JsonFailure "Failed to update book" |}, s)
  /\ fst (delete_book (Num (b_id b)) user s)
     = {| status := 204; body := NoBody |}
  /\ fst (getBook (Num (b_id b)) (snd (delete_book (Num (b_id b)) user s)))
     = None.
Proof.
  intros Hwf Hin Hown. cbv zeta.
  pose proof (@held_book_lookup s b Hwf Hin) as Hget.
  assert (E : (b_sellerId b =? userId user) = true)
    by (apply Z.eqb_eq; congruence).
  unfold put_book, delete_book, updateBook, deleteBook, bind, getBook, gets,
    modify, ret. simpl. rewrite Hget, E. simpl. rewrite Hget. simpl.
  split; [reflexivity|].
  split; [apply Map_get_set_same|].
  split; [reflexivity|].
  split; [|split; [reflexivity|split;
           [reflexivity | apply Map_get_remove_same]]].
  intros Hflag. apply filter_In. split; [apply Map_set_holds|].
  unfold available. simpl. now rewrite Hflag.
Qed.

Lemma seller_edits_listing_witness :
  map b_id
    (fst (getBooks None
            (snd (put_book (Num 1)
                    (Some {| pb_title := None; pb_author := None;
                             pb_description := None; pb_price := None;
                             pb_condition := None; pb_category := None;
                             pb_imageUrl := None;
                             pb_isAvailable := Some (Some true) |})
                    seller
                    (snd (post_orders (JsNumber "24.49") 50 buyer
                            carted))))))
  = [1].
Proof.
  destruct (@seller_edits_listing (mark_sold first_book)
              {| pb_title := None; pb_author := None;
                 pb_description := None; pb_price := None;
                 pb_condition := None; pb_category := None;
                 pb_imageUrl := None; pb_isAvailable := Some (Some true) |}
              seller
              (snd (post_orders (JsNumber "24.49") 50 buyer carted)))
    as (_ & _ & _ & Hrelisted & _).
  - apply wf_check_sound. vm_compute. reflexivity.
  - vm_compute. now left.
  - reflexivity.
  - vm_compute. reflexivity.
Defined.

(** ** Accounts *)

Lemma find_email_none (e : string) (l : list User) :
  find (fun user => String.eqb (u_email user) e) l = None
  <-> ~ In e (map u_email l).
Proof.
  induction l as [|u l IH]; simpl; [tauto|].
  destruct (String.eqb (u_email u) e) eqn:E.
  - apply String.eqb_eq in E. split; [discriminate|]. intros H. exfalso. auto.
  - apply String.eqb_neq in E. rewrite IH. tauto.
Qed.

Lemma find_after_set (p : User -> bool) (m : JsMap User) (k : Z) (v : User) :
  find p (Map_values m) = None -> p v = true ->
  find p (Map_values (Map_set k v m)) = Some v.
Proof.
  intros Hnone Hv. induction m as [|[k' v'] m IH]; simpl in *.
  - now rewrite Hv.
  - destruct (p v') eqn:E; [discriminate|].
    destruct (k' =? k); simpl; [now rewrite Hv|].
    rewrite E. now apply IH.
Qed.

Lemma emails_after_set (m : JsMap User) (k : Z) (v : User) :
  NoDup (map u_email (Map_values m)) ->
  ~ In (u_email v) (map u_email (Map_values m)) ->
  NoDup (map u_email (Map_values (Map_set k v m))).
Proof.
  induction m as [|[k' v'] m IH]; simpl; intros Hnd Hnew.
  - constructor; [intros [] | constructor].
  - apply NoDup_cons_iff in Hnd. destruct Hnd as [Hhead Hrest].
    destruct (k' =? k); simpl.
    + constructor; [tauto | exact Hrest].
    + constructor; [|apply IH; tauto].
      intros Hin. apply in_map_iff in Hin. destruct Hin as [u [Hu Hin]].
      unfold Map_values in Hin. apply in_map_iff in Hin.
      destruct Hin as [[k0 u0] [Hs Hin]]. simpl in Hs. subst u0.
      apply In_Map_set in Hin. destruct Hin as [[_ ->]|Hin].
      * apply Hnew. left. now symmetry.
      * apply Hhead. rewrite <- Hu. apply in_map.
        unfold Map_values. change u with (snd (k0, u)). now apply in_map.
Qed.

(** X12. Registration never stores an email twice: a body that does not
    parse, or an email some user already has, is answered 400 and the
    store is as it was; otherwise the answer is 201 with a token signed
    for the new id, email and role, the stored password is the hash and
    not the text sent, the user is then found by email and by id, and a
    further registration with that email is answered 400. Stored emails
    that were pairwise distinct stay so. *)
Theorem register_keeps_emails_unique (bcrypt_hash : string -> string)
  (jwt_sign : JwtPayload -> string) (parsed : option InsertUser) (now : Z)
  (s : Store) :
  let s' := snd (post_register bcrypt_hash jwt_sign parsed now s) in
  (emails_distinct s -> emails_distinct s')
  /\ (parsed = None ->
      post_register bcrypt_hash jwt_sign parsed now s
      = ({| account_status := 400;
            account_body := AccountFailure "Invalid input" |}, s))
  /\ (forall userData,
        parsed = Some userData ->
        fst (getUserByEmail (iu_email userData) s) <> None ->
        post_register bcrypt_hash jwt_sign parsed now s
        = ({| account_status := 400;
              account_body := AccountMessage "User already exists" |}, s))
  /\ (forall userData,
        parsed = Some userData ->
        fst (getUserByEmail (iu_email userData) s) = None ->
        let user := {| u_id := currentUserId s;
                       u_email := iu_email userData;
                       u_password := bcrypt_hash (iu_password userData);
                       u_name := iu_name userData;
                       u_role := iu_role userData; u_createdAt := now |} in
        fst (post_register bcrypt_hash jwt_sign parsed now s)
        = {| account_status := 201;
             account_body :=
               JsonSession (u_id user) (u_email user) (u_name user)
                 (u_role user)
                 (jwt_sign {| userId := u_id user; email := u_email user;
                              role := u_role user |}) |}
        /\ fst (getUserByEmail (iu_email userData) s') = Some user
        /\ fst (getUser (u_id user) s') = Some user
        /\ forall again later,
             iu_email again = iu_email userData ->
             post_register bcrypt_hash jwt_sign (Some again) later s'
             = ({| account_status := 400;
                   account_body := AccountMessage "User already exists" |},
                s')).
Proof.
  cbv zeta.
  destruct parsed as [userData|].
  2:{ split; [auto|]. split; [reflexivity|]. split; intros ? [=]. }
  set (user := {| u_id := currentUserId s; u_email := iu_email userData;
                  u_password := bcrypt_hash (iu_password userData);
                  u_name := iu_name userData; u_role := iu_role userData;
                  u_createdAt := now |}).
  assert (Hrun :
    post_register bcrypt_hash jwt_sign (Some userData) now s
    = match find (fun u => String.eqb (u_email u) (iu_email userData))
                 (Map_values (users s)) with
      | Some _ =>
          ({| account_status := 400;
              account_body := AccountMessage "User already exists" |}, s)
      | None =>
          ({| account_status := 201;
              account_body :=
                JsonSession (u_id user) (u_email user) (u_name user)
                  (u_role user)
                  (jwt_sign {| userId := u_id user; email := u_email user;
                               role := u_role user |}) |},
           set_users (Map_set (currentUserId s) user (users s))
             (currentUserId s + 1) s)
      end).
  { unfold post_register, bind, getUserByEmail, gets, createUser, modify, ret.
    simpl. destruct (find _ _); reflexivity. }
  rewrite Hrun. unfold getUserByEmail at 1 2, gets at 1 2. cbn [fst].
  destruct (find (fun u => String.eqb (u_email u) (iu_email userData))
                 (Map_values (users s))) as [existing|] eqn:E.
  - split; [auto|]. split; [discriminate|]. split.
    + intros ? [= <-] _. reflexivity.
    + intros ? [= <-] Hnone. exfalso. congruence.
  - assert (Hfound :
      find (fun u => String.eqb (u_email u) (iu_email userData))
        (Map_values (Map_set (currentUserId s) user (users s)))
      = Some user).
    { apply find_after_set; [exact E | simpl; apply String.eqb_refl]. }
    split.
    { unfold emails_distinct. simpl. intros Hnd.
      apply emails_after_set; [exact Hnd|]. simpl.
      now apply find_email_none. }
    split; [discriminate|]. split.
    { intros ? [= <-] Hsome. exfalso. now apply Hsome. }
    intros ? [= <-] _. cbn [fst snd].
    split; [reflexivity|].
    split; [unfold getUserByEmail, gets; simpl; exact Hfound|].
    split; [simpl; apply Map_get_set_same|].
    intros again later Hsame.
    unfold post_register, bind, getUserByEmail, gets, ret. simpl.
    rewrite Hsame, Hfound. reflexivity.
Qed.

(** Logging in never writes to the store. An email no user has (or
    a value that is not a string) and a wrong password get the very same
    answer, 401 "Invalid credentials"; a password the library accepts
    gets 200 with a token signed for the stored user's id, email and role;
    a password the library cannot compare gets 400. *)
Theorem login_outcomes (bcrypt_compare : JsValue -> string -> option bool)
  (jwt_sign : JwtPayload -> string) (mail password : JsValue) (s : Store) :
  let denied := {| account_status := 401;
                   account_body := AccountMessage "Invalid credentials" |} in
  snd (post_login bcrypt_compare jwt_sign mail password s) = s
  /\ ((forall text, mail = JsString text ->
                    fst (getUserByEmail text s) = None) ->
      fst (post_login bcrypt_compare jwt_sign mail password s) = denied)
  /\ (forall text user,
        mail = JsString text ->
        fst (getUserByEmail text s) = Some user ->
        match bcrypt_compare password (u_password user) with
        | Some false =>
            fst (post_login bcrypt_compare jwt_sign mail password s) = denied
        | Some true =>
            fst (post_login bcrypt_compare jwt_sign mail password s)
            = {| account_status := 200;
                 account_body :=
                   JsonSession (u_id user) (u_email user) (u_name user)
                     (u_role user)
                     (jwt_sign {| userId := u_id user; email := u_email user;
                                  role := u_role user |}) |}
        | None =>
            fst (post_login bcrypt_compare jwt_sign mail password s)
            = {| account_status := 400;
                 account_body := AccountFailure "Login failed" |}
        end).
Proof.
  cbv zeta. unfold post_login, bind, ret.
  split; [|split].
  - destruct mail; simpl;
      try reflexivity.
    destruct (find _ _) as [user|]; [|reflexivity].
    destruct (bcrypt_compare password (u_password user)) as [[|]|];
      reflexivity.
  - intros Hnone. destruct mail; simpl; try reflexivity.
    specialize (Hnone s0 eq_refl). unfold getUserByEmail, gets in Hnone.
    simpl in Hnone. now rewrite Hnone.
  - intros text user -> Hfound. unfold getUserByEmail, gets in *.
    simpl in *. rewrite Hfound.
    destruct (bcrypt_compare password (u_password user)) as [[|]|];
      reflexivity.
Qed.

(** X13. A registered user can log in: when the library's compare accepts
    a password against its own hash, registering with an unused email and
    then logging in with the same email and password is answered 200 with
    the session of the user just created; the login leaves the store as
    the registration left it. *)
Theorem register_then_login (bcrypt_hash : string -> string)
  (bcrypt_compare : JsValue -> string -> option bool)
  (jwt_sign : JwtPayload -> string) (userData : InsertUser) (now : Z)
  (s : Store) :
  (forall password,
     bcrypt_compare (JsString password) (bcrypt_hash password) = Some true) ->
  fst (getUserByEmail (iu_email userData) s) = None ->
  let registered :=
    snd (post_register bcrypt_hash jwt_sign (Some userData) now s) in
  post_login bcrypt_compare jwt_sign (JsString (iu_email userData))
    (JsString (iu_password userData)) registered
  = ({| account_status := 200;
        account_body :=
          JsonSession (currentUserId s) (iu_email userData)
            (iu_name userData) (iu_role userData)
            (jwt_sign {| userId := currentUserId s;
                         email := iu_email userData;
                         role := iu_role userData |}) |},
     registered)
  /\ account_body
       (fst (post_register bcrypt_hash jwt_sign (Some userData) now s))
     = account_body
         (fst (post_login bcrypt_compare jwt_sign
                 (JsString (iu_email userData))
                 (JsString (iu_password userData)) registered)).
Proof.
  intros Hlib Hfree. cbv zeta.
  unfold getUserByEmail, gets in Hfree. simpl in Hfree.
  unfold post_register, post_login, bind, getUserByEmail, gets, ret.
  simpl. rewrite Hfree. simpl.
  rewrite find_after_set; [|exact Hfree | simpl; apply String.eqb_refl].
  simpl. rewrite Hlib. split; reflexivity.
Qed.

Lemma register_then_login_witness :
  fst (post_login demo_compare demo_sign (JsString "reader@example.org")
         (JsString "secret")
         (snd (post_register demo_hash demo_sign (Some newcomer) 5 shop)))
  = {| account_status := 200;
       account_body := JsonSession 1 "reader@example.org" "Reader" "buyer"
                         "token-for-reader@example.org" |}.
Proof.
  destruct (@register_then_login demo_hash demo_compare demo_sign newcomer 5
              shop) as [Hlogin _].
  - intros password. unfold demo_compare. now rewrite String.eqb_refl.
  - reflexivity.
  - change (JsString "reader@example.org")
      with (JsString (iu_email newcomer)).
    change (JsString "secret") with (JsString (iu_password newcomer)).
    rewrite Hlogin. reflexivity.
Defined.

(** ** The bearer header *)

Lemma split_spaceless (token : string) :
  spaceless token = true -> split " "%char token = [token].
Proof.
  induction token as [|c token IH]; simpl; [reflexivity|].
  intros H. apply andb_true_iff in H. destruct H as [Hc Hrest].
  apply negb_true_iff in Hc. rewrite Hc, IH by exact Hrest. reflexivity.
Qed.

Lemma split_scheme (scheme rest : string) :
  spaceless scheme = true ->
  split " "%char (scheme ++ String " "%char rest)
  = scheme :: split " "%char rest.
Proof.
  induction scheme as [|c scheme IH]; simpl; [reflexivity|].
  intros H. apply andb_true_iff in H. destruct H as [Hc Hrest].
  apply negb_true_iff in Hc. rewrite Hc, IH by exact Hrest. reflexivity.
Qed.

(** X14. The header the client helper builds is read back by the gate: for
    a stored token that is not empty and has no space, the gate verifies
    exactly that token, runs the handler for the identity the verifier
    returns and answers 403 when the verifier rejects it; without a stored
    token no header is sent and the gate answers 401. The gate takes the
    second word of the header whatever the first word is. *)
Theorem bearer_header_round_trip (jwt_verify : string -> option JwtPayload)
  (handler : JwtPayload -> M Response) (token scheme : string) (s : Store) :
  token <> EmptyString ->
  spaceless token = true ->
  token_of (Client.authorization_header (Some token)) = Some token
  /\ authenticated jwt_verify handler
       (Client.authorization_header (Some token)) s
     = match jwt_verify token with
       | Some user => handler user s
       | None =>
           ({| status := 403; body := JsonMessage "Invalid token" |}, s)
       end
  /\ authenticated jwt_verify handler (Client.authorization_header None) s
     = ({| status := 401; body := JsonMessage "Access token required" |}, s)
  /\ (spaceless scheme = true ->
      token_of (Some (scheme ++ String " "%char token)%string) = Some token).
Proof.
  intros Hne Hspace.
  assert (Hany : forall word, spaceless word = true ->
    token_of (Some (word ++ String " "%char token)%string) = Some token).
  { intros word Hword. unfold token_of.
    destruct (word ++ String " "%char token)%string eqn:E.
    - destruct word; discriminate.
    - rewrite <- E, split_scheme by exact Hword.
      now rewrite split_spaceless. }
  assert (Hheader : Client.authorization_header (Some token)
                    = Some ("Bearer" ++ String " "%char token)%string).
  { destruct token; [contradiction | reflexivity]. }
  split; [rewrite Hheader; now apply Hany|].
  split; [|split; [reflexivity | apply Hany]].
  unfold authenticated, authenticateToken.
  rewrite Hheader, Hany by reflexivity.
  destruct token as [|a t]; [contradiction|].
  destruct (jwt_verify (String a t)); reflexivity.
Qed.

Lemma bearer_header_round_trip_witness :
  authenticated verify_demo get_seller_books
    (Client.authorization_header (Some "signed.for.buyer"%string)) shop
  = get_seller_books buyer shop
  /\ token_of (Some "Basic signed.for.buyer"%string)
     = Some "signed.for.buyer"%string.
Proof.
  destruct (@bearer_header_round_trip verify_demo get_seller_books
              "signed.for.buyer" "Basic" shop) as (_ & Hpass & _ & Hscheme).
  - discriminate.
  - reflexivity.
  - split; [exact Hpass | now apply Hscheme].
Defined.

(** ** Reading routes *)

Lemma map_all_reads (A B : Type) (f : A -> M B) (g : Store -> A -> B)
  (xs : list A) (s : Store) :
  (forall x, f x s = (g s x, s)) ->
  map_all f xs s = (map (g s) xs, s).
Proof.
  intros Hf. induction xs as [|x xs IH]; simpl; [reflexivity|].
  unfold bind. rewrite Hf, IH. reflexivity.
Qed.

Lemma get_cart_closed (user : JwtPayload) (s : Store) :
  get_cart user s
  = (json (JsonCart
             (map (fun item => (item, fst (getBook (ci_bookId item) s)))
                  (fst (getCartItems (userId user) s)))), s).
Proof.
  unfold get_cart, bind at 1. unfold getCartItems at 1, gets at 1.
  unfold bind at 1.
  rewrite (@map_all_reads _ _ _
             (fun s item => (item, fst (getBook (ci_bookId item) s))));
    reflexivity.
Qed.

Lemma get_orders_closed (user : JwtPayload) (s : Store) :
  get_orders user s
  = ({| history_status := 200;
        history_body :=
          map (fun order =>
                 (order,
                  map (fun item => (item, fst (getBook (oi_bookId item) s)))
                      (fst (getOrderItems (o_id order) s))))
              (fst (getOrdersByBuyer (userId user) s)) |}, s).
Proof.
  unfold get_orders, bind at 1. unfold getOrdersByBuyer at 1, gets at 1.
  unfold bind at 1.
  rewrite (@map_all_reads _ _ _
             (fun s order =>
                (order,
                 map (fun item => (item, fst (getBook (oi_bookId item) s)))
                     (fst (getOrderItems (o_id order) s))))).
  - reflexivity.
  - intros order. unfold bind at 1. unfold getOrderItems at 1, gets at 1.
    unfold bind at 1.
    rewrite (@map_all_reads _ _ _
               (fun s item => (item, fst (getBook (oi_bookId item) s))));
      reflexivity.
Qed.

(** X15. The reading routes never write: fetching listings, one listing,
    the seller's listings, the cart, the order history or a thread hands
    the store back as it was. The cart is answered with one row per entry
    of the caller, in cart order, each joined with the listing it
    references or with nothing when that listing is gone. *)
Theorem reading_routes_leave_store (category condition search : option string)
  (id otherUserId : number) (user : JwtPayload) (s : Store) :
  snd (get_books category condition search s) = s
  /\ snd (get_book id s) = s
  /\ snd (get_seller_books user s) = s
  /\ snd (get_cart user s) = s
  /\ snd (get_orders user s) = s
  /\ snd (get_messages otherUserId user s) = s
  /\ fst (get_cart user s)
     = {| status := 200;
          body := JsonCart
                    (map (fun item =>
                            (item, fst (getBook (ci_bookId item) s)))
                         (fst (getCartItems (userId user) s))) |}.
Proof.
  rewrite get_cart_closed, get_orders_closed.
  split; [reflexivity|]. split.
  { pose proof (get_book_cases id s) as H.
    destruct (Map_get_number id (books s)); now rewrite H. }
  split; [unfold get_seller_books; destruct (negb _); reflexivity|].
  repeat split; reflexivity.
Qed.

(** X16. The order history lists the caller's own orders only, in the
    order they were placed, each with exactly the lines stored under its
    id, each line joined with the listing as the store holds it now (or
    nothing when it was deleted). *)
Theorem order_history_own_orders (user : JwtPayload) (s : Store) :
  history_status (fst (get_orders user s)) = 200
  /\ map fst (history_body (fst (get_orders user s)))
     = fst (getOrdersByBuyer (userId user) s)
  /\ (forall order rows,
        In (order, rows) (history_body (fst (get_orders user s))) ->
        o_buyerId order = userId user
        /\ map fst rows = fst (getOrderItems (o_id order) s)
        /\ forall item book,
             In (item, book) rows ->
             oi_orderId item = o_id order
             /\ book = fst (getBook (oi_bookId item) s)).
Proof.
  rewrite get_orders_closed. simpl.
  split; [reflexivity|]. split.
  { rewrite map_map. simpl. apply map_id. }
  intros order rows Hin. apply in_map_iff in Hin.
  destruct Hin as [o [Heq Hin]]. injection Heq as -> <-.
  apply filter_In in Hin. destruct Hin as [_ Hbuyer].
  split; [now apply Z.eqb_eq|]. split.
  { rewrite map_map. simpl. apply map_id. }
  intros item book Hrow. apply in_map_iff in Hrow.
  destruct Hrow as [i [Heq Hi]]. injection Heq as -> <-.
  apply filter_In in Hi. destruct Hi as [_ Hoid].
  split; [now apply Z.eqb_eq | reflexivity].
Qed.

(** X17. After a checkout the caller's order history is the earlier
    orders followed by the order just created, shown with its lines, one
    per cart entry whose listing was in the store, each joined with that
    listing, now unavailable, at the price of the line. *)
Theorem order_history_after_checkout (total : JsValue) (text : string)
  (now : Z) (user : JwtPayload) (s : Store) :
  wf s ->
  toString total = Some text ->
  fst (getCartItems (userId user) s) <> [] ->
  let s' := snd (post_orders total now user s) in
  exists order rows earlier,
    fst (post_orders total now user s)
    = {| status := 201; body := JsonOrder order |}
    /\ history_body (fst (get_orders user s')) = earlier ++ [(order, rows)]
    /\ map fst earlier = fst (getOrdersByBuyer (userId user) s)
    /\ map fst rows = fst (getOrderItems (o_id order) s')
    /\ List.length rows
       = List.length (filter (listed s) (fst (getCartItems (userId user) s)))
    /\ forall item book,
         In (item, book) rows ->
         exists sold, book = Some sold /\ b_isAvailable sold = Some false
                      /\ oi_price item = b_price sold.
Proof.
  intros Hwf Htext Hne. cbv zeta.
  destruct (@checkout_outcome total text now user s Hwf Hne Htext)
    as (Hresp & Horders & _ & Hlines & _ & _ & _).
  set (s' := snd (post_orders total now user s)) in *.
  set (order := {| o_id := currentOrderId s; o_buyerId := userId user;
                   o_total := text; o_status := "completed";
                   o_createdAt := now |}) in *.
  set (shown := fun o : Order =>
         (o, map (fun item => (item, fst (getBook (oi_bookId item) s')))
                 (fst (getOrderItems (o_id o) s')))).
  exists order, (snd (shown order)),
    (map shown (fst (getOrdersByBuyer (userId user) s))).
  split; [exact Hresp|].
  split.
  { rewrite get_orders_closed. simpl history_body. fold shown.
    unfold getOrdersByBuyer at 1, gets at 1. cbn [fst].
    rewrite Horders, filter_app, map_app. simpl.
    now rewrite Z.eqb_refl. }
  split; [rewrite map_map; simpl; apply map_id|].
  split; [unfold shown; cbn [snd]; rewrite map_map; cbn [fst]; apply map_id|].
  split.
  { unfold shown. cbn [snd]. rewrite length_map.
    rewrite <- (length_map (fun i => (oi_bookId i, Some (oi_price i)))).
    rewrite Hlines. apply length_map. }
  intros item book Hrow. unfold shown in Hrow. cbn [snd] in Hrow.
  apply in_map_iff in Hrow.
  destruct Hrow as [i [Heq Hi]]. injection Heq as -> <-.
  apply (in_map (fun i => (oi_bookId i, Some (oi_price i)))) in Hi.
  rewrite Hlines in Hi. apply in_map_iff in Hi.
  destruct Hi as [c [Heq Hc]]. injection Heq as Hbook Hprice.
  apply filter_In in Hc. destruct Hc as [Hc Hl].
  destruct (@checkout_sells total text now user s c Hwf Htext Hc Hl)
    as (b & Hb & Hsold).
  fold s' in Hsold. rewrite Hbook in Hsold.
  exists (mark_sold b). split; [exact Hsold|]. split; [reflexivity|].
  rewrite getBook_fst in Hb. rewrite Hb in Hprice. simpl in Hprice.
  simpl. congruence.
Qed.

Lemma order_history_after_checkout_witness :
  map (fun shown => (o_total (fst shown), List.length (snd shown)))
    (history_body
       (fst (get_orders buyer
               (snd (post_orders (JsNumber "24.49") 50 buyer carted)))))
  = [("24.49"%string, 2%nat)].
Proof.
  destruct (@order_history_after_checkout (JsNumber "24.49") "24.49" 50 buyer
              carted) as (order & rows & earlier & _ & Hshown & _).
  - apply wf_check_sound. vm_compute. reflexivity.
  - reflexivity.
  - vm_compute. discriminate.
  - vm_compute. reflexivity.
Defined.

(** ** Runs of requests *)

Lemma post_register_store (bcrypt_hash : string -> string)
  (jwt_sign : JwtPayload -> string) (parsed : option InsertUser) (now : Z)
  (s : Store) :
  snd (post_register bcrypt_hash jwt_sign parsed now s) = s
  \/ exists insertUser,
       snd (post_register bcrypt_hash jwt_sign parsed now s)
       = snd (createUser insertUser now s).
Proof.
  unfold post_register. destruct parsed as [userData|]; [|now left].
  unfold bind, getUserByEmail, gets, ret. cbn [snd fst].
  destruct (find (fun user => String.eqb (u_email user) (iu_email userData))
                 (Map_values (users s))); [now left|].
  right.
  exists {| iu_email := iu_email userData;
            iu_password := bcrypt_hash (iu_password userData);
            iu_name := iu_name userData; iu_role := iu_role userData |}.
  unfold createUser, bind, gets, modify, ret. reflexivity.
Qed.

Lemma wf_handle (bcrypt_hash : string -> string)
  (jwt_sign : JwtPayload -> string) (req : Request) (s : Store) :
  wf s -> wf (handle bcrypt_hash jwt_sign s req).
Proof.
  intros Hwf. destruct req; unfold handle.
  - destruct (post_register_store bcrypt_hash jwt_sign parsed now s)
      as [-> | [insertUser ->]]; [exact Hwf | now apply wf_createUser].
  - now apply wf_post_books.
  - now apply wf_put_book.
  - now apply wf_delete_book.
  - now apply wf_post_cart.
  - now apply wf_delete_cart.
  - now apply wf_post_orders.
  - now apply wf_post_messages.
Qed.

Lemma wf_run (bcrypt_hash : string -> string)
  (jwt_sign : JwtPayload -> string) (reqs : list Request) (s : Store) :
  wf s -> wf (run bcrypt_hash jwt_sign reqs s).
Proof.
  revert s. unfold run.
  induction reqs as [|req reqs IH]; intros s Hwf; simpl; [exact Hwf|].
  apply IH. now apply wf_handle.
Qed.

(** X18. Whatever requests are served, one after the other, from a
    well-formed store (the empty one of a fresh server is), the store
    stays well formed: in particular no two held books and no two cart
    entries share an id, every held book is fetched under its own id, and
    every order line belongs to an order number already given out. *)
Theorem run_keeps_store_well_formed (bcrypt_hash : string -> string)
  (jwt_sign : JwtPayload -> string) (reqs : list Request) (s : Store) :
  wf s ->
  let s' := run bcrypt_hash jwt_sign reqs s in
  wf s'
  /\ NoDup (map b_id (Map_values (books s')))
  /\ NoDup (map ci_id (Map_values (cartItems s')))
  /\ (forall x, In x (Map_values (books s')) ->
        fst (getBook (Num (b_id x)) s') = Some x)
  /\ (forall line, In line (Map_values (orderItems s')) ->
        oi_orderId line < currentOrderId s').
Proof.
  intros Hwf. cbv zeta.
  pose proof (wf_run bcrypt_hash jwt_sign reqs Hwf) as Hwf'.
  split; [exact Hwf'|]. split; [|split; [|split]].
  - replace (map b_id (Map_values (books (run bcrypt_hash jwt_sign reqs s))))
      with (Map_keys (books (run bcrypt_hash jwt_sign reqs s)));
      [apply Hwf'|].
    unfold Map_values, Map_keys. rewrite map_map. apply map_ext_in.
    intros [k b] Hin. simpl. symmetry. apply (wf_books_id Hwf' _ _ Hin).
  - rewrite cart_ids_are_keys by exact Hwf'. apply Hwf'.
  - intros x Hx. rewrite getBook_fst. simpl. now apply held_book_lookup.
  - apply Hwf'.
Qed.

Lemma run_keeps_store_well_formed_witness :
  wf (run demo_hash demo_sign
        [PostRegister (Some newcomer) 1;
         PostBooks (Some (listing "First" "12.50")) 10 seller;
         PostCart (Num 1) 30 buyer;
         PostCart (Num 1) 31 buyer;
         DeleteBook (Num 1) seller;
         PostOrders (JsNumber "12.50") 50 buyer;
         PostMessages None 60 buyer]
        empty).
Proof.
  apply (@run_keeps_store_well_formed demo_hash demo_sign
           [PostRegister (Some newcomer) 1;
            PostBooks (Some (listing "First" "12.50")) 10 seller;
            PostCart (Num 1) 30 buyer;
            PostCart (Num 1) 31 buyer;
            DeleteBook (Num 1) seller;
            PostOrders (JsNumber "12.50") 50 buyer;
            PostMessages None 60 buyer]
           empty).
  apply wf_check_sound. vm_compute. reflexivity.
Defined.

Lemma put_book_store (id : number) (parsed : option PartialInsertBook)
  (user : JwtPayload) (s : Store) :
  snd (put_book id parsed user s) = s
  \/ exists k b updateData,
       id = Num k /\ Map_get k (books s) = Some b
       /\ parsed = Some updateData
       /\ snd (put_book id parsed user s)
          = set_books (Map_set k (merge_book b updateData) (books s))
              (currentBookId s) s.
Proof.
  unfold put_book, updateBook, bind, getBook, gets, modify, ret.
  destruct id as [k|]; simpl; [|now left].
  destruct (Map_get k (books s)) as [b|] eqn:E; simpl; [|now left].
  destruct (negb _); simpl; [now left|].
  destruct parsed as [updateData|]; simpl; [|now left].
  rewrite E. simpl. right. exists k, b, updateData.
  split; [reflexivity|]. split; [exact E|]. split; reflexivity.
Qed.

Lemma delete_book_store (id : number) (user : JwtPayload) (s : Store) :
  snd (delete_book id user s) = s
  \/ exists k,
       id = Num k
       /\ snd (delete_book id user s)
          = set_books (Map_remove k (books s)) (currentBookId s) s.
Proof.
  unfold delete_book, deleteBook, bind, getBook, gets, ret.
  destruct id as [k|]; simpl; [|now left].
  destruct (Map_get k (books s)) as [b|]; simpl; [|now left].
  destruct (negb _); simpl; [now left|].
  right. exists k. split; reflexivity.
Qed.

(** What one request may do to the book held under an id already given
    out: it can delete or edit it, never create it, never change its id,
    seller or creation time, and make it available only by an edit that
    sets the flag. *)
Lemma handle_book_step (bcrypt_hash : string -> string)
  (jwt_sign : JwtPayload -> string) (req : Request) (s : Store) (k : Z) :
  wf s ->
  k < currentBookId s ->
  let s' := handle bcrypt_hash jwt_sign s req in
  currentBookId s <= currentBookId s'
  /\ match Map_get k (books s') with
     | None => True
     | Some b' =>
         exists b,
           Map_get k (books s) = Some b
           /\ (b_id b', b_sellerId b', b_createdAt b')
              = (b_id b, b_sellerId b, b_createdAt b)
           /\ (available b' = true ->
               available b = true \/ relists req = true)
     end.
Proof.
  intros Hwf Hk. cbv zeta.
  assert (Hsame : forall s',
    books s' = books s -> currentBookId s' = currentBookId s ->
    currentBookId s <= currentBookId s'
    /\ match Map_get k (books s') with
       | None => True
       | Some b' =>
           exists b,
             Map_get k (books s) = Some b
             /\ (b_id b', b_sellerId b', b_createdAt b')
                = (b_id b, b_sellerId b, b_createdAt b)
             /\ (available b' = true ->
                 available b = true \/ relists req = true)
       end).
  { intros s' Hb Hc. rewrite Hb, Hc. split; [lia|].
    destruct (Map_get k (books s)) as [b|]; [|exact I].
    exists b. repeat split. now left. }
  destruct req; unfold handle.
  - destruct (post_register_store bcrypt_hash jwt_sign parsed now s)
      as [-> | [insertUser ->]]; now apply Hsame.
  - unfold post_books. destruct (negb _); [now apply Hsame|].
    destruct parsed as [bookData|]; [|now apply Hsame].
    simpl. split; [lia|].
    rewrite Map_get_set_other by lia.
    destruct (Map_get k (books s)) as [b|]; [|exact I].
    exists b. repeat split. now left.
  - destruct (put_book_store id parsed user s)
      as [-> | (kid & b0 & bookData & -> & E0 & -> & ->)];
      [now apply Hsame|].
    simpl. split; [lia|].
    destruct (Z.eq_dec kid k) as [->|Hne].
    + rewrite Map_get_set_same. exists b0. split; [exact E0|].
      split; [reflexivity|].
      unfold available. simpl.
      destruct (pb_isAvailable bookData) as [[[|]|]|]; simpl;
        try discriminate; auto.
    + rewrite Map_get_set_other by exact Hne.
      destruct (Map_get k (books s)) as [b|]; [|exact I].
      exists b. repeat split. now left.
  - destruct (delete_book_store id user s) as [-> | (kid & -> & ->)];
      [now apply Hsame|].
    simpl. split; [lia|].
    destruct (Z.eq_dec kid k) as [->|Hne].
    + now rewrite Map_get_remove_same.
    + rewrite Map_get_remove_other by exact Hne.
      destruct (Map_get k (books s)) as [b|]; [|exact I].
      exists b. repeat split. now left.
  - now apply Hsame.
  - apply Hsame.
    + unfold delete_cart, bind, removeFromCart, bind, gets.
      destruct (find _ _); reflexivity.
    + unfold delete_cart, bind, removeFromCart, bind, gets.
      destruct (find _ _); reflexivity.
  - destruct (@post_orders_cases total now user s Hwf)
      as [-> | (text & _ & _ & ->)]; [now apply Hsame|].
    simpl. split; [lia|]. rewrite sold_books_get.
    destruct (Map_get k (books s)) as [b|]; simpl; [|exact I].
    exists b. split; [reflexivity|].
    destruct (references _ k); [|repeat split; now left].
    split; [reflexivity|]. discriminate.
  - unfold post_messages. destruct parsed; now apply Hsame.
Qed.

Lemma run_book_trace (bcrypt_hash : string -> string)
  (jwt_sign : JwtPayload -> string) (reqs : list Request) (s : Store)
  (k : Z) :
  wf s ->
  k < currentBookId s ->
  match Map_get k (books (run bcrypt_hash jwt_sign reqs s)) with
  | None => True
  | Some b' =>
      exists b,
        Map_get k (books s) = Some b
        /\ (b_id b', b_sellerId b', b_createdAt b')
           = (b_id b, b_sellerId b, b_createdAt b)
        /\ (available b' = true ->
            available b = true \/ existsb relists reqs = true)
  end.
Proof.
  revert s. unfold run.
  induction reqs as [|req reqs IH]; intros s Hwf Hk; simpl.
  - destruct (Map_get k (books s)) as [b|]; [|exact I].
    exists b. repeat split. now left.
  - destruct (@handle_book_step bcrypt_hash jwt_sign req s k Hwf Hk)
      as [Hcounter Hstep].
    assert (Hwf1 := @wf_handle bcrypt_hash jwt_sign req s Hwf).
    assert (Hk1 : k < currentBookId (handle bcrypt_hash jwt_sign s req))
      by lia.
    specialize (IH _ Hwf1 Hk1).
    destruct (Map_get k (books (fold_left (handle bcrypt_hash jwt_sign) reqs
                (handle bcrypt_hash jwt_sign s req)))) as [b'|];
      [|exact I].
    destruct IH as (b1 & Hb1 & Hfields1 & Hav1).
    rewrite Hb1 in Hstep. destruct Hstep as (b & Hb & Hfields & Hav).
    exists b. split; [exact Hb|]. split; [congruence|].
    intros Hb'. destruct (Hav1 Hb') as [H1|H1].
    + destruct (Hav H1) as [H|H]; [now left | right; now rewrite H].
    + right. rewrite H1. apply orb_true_r.
Qed.

(** X19. An id is never given to a second listing: once the book of an
    id already given out is gone (deleted), no run of requests brings a
    book back under that id, so a cart entry that references it stays
    without a listing. *)
Theorem deleted_id_never_reused (bcrypt_hash : string -> string)
  (jwt_sign : JwtPayload -> string) (reqs : list Request) (s : Store)
  (k : Z) :
  wf s ->
  k < currentBookId s ->
  fst (getBook (Num k) s) = None ->
  fst (getBook (Num k) (run bcrypt_hash jwt_sign reqs s)) = None.
Proof.
  intros Hwf Hk Hgone. rewrite getBook_fst in *. simpl in *.
  pose proof (@run_book_trace bcrypt_hash jwt_sign reqs s k Hwf Hk) as H.
  destruct (Map_get k (books (run bcrypt_hash jwt_sign reqs s))) as [back|];
    [|reflexivity].
  destruct H as (old & Hold & _). congruence.
Qed.

Lemma deleted_id_never_reused_witness :
  fst (getBook (Num 2)
         (run demo_hash demo_sign
            [PostBooks (Some (listing "Third" "3.00")) 80 seller;
             PostOrders (JsNumber "12.50") 90 buyer]
            vanished)) = None.
Proof.
  apply (@deleted_id_never_reused demo_hash demo_sign
           [PostBooks (Some (listing "Third" "3.00")) 80 seller;
            PostOrders (JsNumber "12.50") 90 buyer] vanished 2).
  - apply wf_check_sound. vm_compute. reflexivity.
  - vm_compute. reflexivity.
  - vm_compute. reflexivity.
Defined.

(** X20. A listing that is not available stays out of the public listing
    through every run of requests in which no edit sets its availability
    flag to true: further checkouts, cart changes, new listings, other
    edits and deletions never put it back. *)
Theorem unavailable_until_relisted (bcrypt_hash : string -> string)
  (jwt_sign : JwtPayload -> string) (reqs : list Request) (s : Store)
  (b : Book) (filters : option Filters) :
  wf s ->
  In b (Map_values (books s)) ->
  available b = false ->
  existsb relists reqs = false ->
  forall x,
    In x (fst (getBooks filters (run bcrypt_hash jwt_sign reqs s))) ->
    b_id x <> b_id b.
Proof.
  intros Hwf Hin Hsold Hnone x Hx Hid.
  pose proof (@held_book_lookup s b Hwf Hin) as Hget.
  assert (Hk : b_id b < currentBookId s).
  { apply (wf_books_fresh Hwf). apply Map_get_In in Hget.
    unfold Map_keys. change (b_id b) with (fst (b_id b, b)).
    now apply in_map. }
  pose proof (@run_book_trace bcrypt_hash jwt_sign reqs s (b_id b) Hwf Hk)
    as Htrace.
  apply getBooks_available in Hx. destruct Hx as [Hheld Hav].
  pose proof (@wf_run bcrypt_hash jwt_sign reqs s Hwf) as Hwf'.
  apply (@held_book_lookup _ x Hwf') in Hheld.
  rewrite Hid in Hheld. rewrite Hheld in Htrace.
  destruct Htrace as (b0 & Hb0 & _ & Havail).
  rewrite Hget in Hb0. injection Hb0 as <-.
  destruct (Havail Hav) as [H|H]; congruence.
Qed.

Lemma unavailable_until_relisted_witness :
  forallb (fun x => negb (b_id x =? 1))
    (fst (getBooks None
            (run demo_hash demo_sign
               [PostCart (Num 1) 70 rival;
                PostOrders (JsNumber "12.50") 71 rival;
                PutBook (Num 1)
                  (Some {| pb_title := None; pb_author := None;
                           pb_description := None;
                           pb_price := Some "1.00"%string;
                           pb_condition := None; pb_category := None;
                           pb_imageUrl := None;
                           pb_isAvailable := None |}) seller]
               sold_out)))
  = true.
Proof.
  apply forallb_forall. intros x Hx. apply negb_true_iff, Z.eqb_neq.
  revert x Hx.
  apply (@unavailable_until_relisted demo_hash demo_sign
           [PostCart (Num 1) 70 rival;
            PostOrders (JsNumber "12.50") 71 rival;
            PutBook (Num 1)
              (Some {| pb_title := None; pb_author := None;
                       pb_description := None;
                       pb_price := Some "1.00"%string;
                       pb_condition := None; pb_category := None;
                       pb_imageUrl := None; pb_isAvailable := None |})
              seller]
           sold_out (mark_sold first_book) None).
  - apply wf_check_sound. vm_compute. reflexivity.
  - vm_compute. now left.
  - reflexivity.
  - reflexivity.
Defined.

(** X21. A listing never changes hands: through every run of requests a
    book still held under an id has the seller, the id and the creation
    time it had before, so the right to edit or delete it stays with the
    seller who created it. *)
Theorem seller_never_changes (bcrypt_hash : string -> string)
  (jwt_sign : JwtPayload -> string) (reqs : list Request) (s : Store)
  (b later : Book) :
  wf s ->
  In b (Map_values (books s)) ->
  fst (getBook (Num (b_id b)) (run bcrypt_hash jwt_sign reqs s))
  = Some later ->
  (b_id later, b_sellerId later, b_createdAt later)
  = (b_id b, b_sellerId b, b_createdAt b).
Proof.
  intros Hwf Hin Hlater.
  pose proof (@held_book_lookup s b Hwf Hin) as Hget.
  assert (Hk : b_id b < currentBookId s).
  { apply (wf_books_fresh Hwf). apply Map_get_In in Hget.
    unfold Map_keys. change (b_id b) with (fst (b_id b, b)).
    now apply in_map. }
  pose proof (@run_book_trace bcrypt_hash jwt_sign reqs s (b_id b) Hwf Hk)
    as Htrace.
  rewrite getBook_fst in Hlater. simpl in Hlater. rewrite Hlater in Htrace.
  destruct Htrace as (b0 & Hb0 & Hfields & _). congruence.
Qed.

Lemma seller_never_changes_witness :
  fst (getBook (Num 1)
         (run demo_hash demo_sign
            [PutBook (Num 1) (Some isAvailable_false) seller;
             PostCart (Num 1) 72 rival;
             PostOrders (JsNumber "12.50") 73 rival]
            sold_out))
  = Some (mark_sold first_book)
  /\ b_sellerId (mark_sold first_book) = b_sellerId (mark_sold first_book).
Proof.
  assert (E : fst (getBook (Num 1)
                     (run demo_hash demo_sign
                        [PutBook (Num 1) (Some isAvailable_false) seller;
                         PostCart (Num 1) 72 rival;
                         PostOrders (JsNumber "12.50") 73 rival]
                        sold_out)) = Some (mark_sold first_book))
    by (vm_compute; reflexivity).
  split; [exact E|].
  refine (f_equal (fun t => snd (fst t))
            (@seller_never_changes demo_hash demo_sign
               [PutBook (Num 1) (Some isAvailable_false) seller;
                PostCart (Num 1) 72 rival;
                PostOrders (JsNumber "12.50") 73 rival]
               sold_out (mark_sold first_book) (mark_sold first_book)
               _ _ E)).
  - apply wf_check_sound. vm_compute. reflexivity.
  - vm_compute. now left.
Defined.
